(** * Fraud-detection core: graph builder, biometric profiler, scorer, feedback loop

    A shallow embedding of the TypeScript sources

    - [src/lib/data-ingestion.ts]        ([GraphBuilder])
    - [src/lib/biometrics-processor.ts]  ([BiometricsProcessor])
    - [src/lib/gnn-model.ts]             ([GraphNeuralNetwork], scoring part)
    - the single and the batch scoring routes ([POST])
    - the feedback system ([FeedbackSystem])

    and the properties the specification states about them.

    Conventions of the embedding.

    - A JavaScript [number] is a value of [num]: a real number, one of the
      two infinities, or NaN.  The special values follow IEEE-754 as
      JavaScript does (0/0, Infinity - Infinity and arithmetic on NaN give
      NaN, every comparison with NaN is false).  Finite arithmetic is exact:
      rounding to 53 bits, overflow and the sign of zero are not modelled.
    - [Math.random()] and the clock ([new Date()], [Date.now()]) are inputs of
      the functions that call them.
    - A thrown exception is a value of [result]; state changes made before
      the throw stay in the returned state.
    - A request body is parsed JSON, which the TypeScript types do not
      check.  The channels of a biometric sample, and the merchant and the
      location of a transaction of a batch, may be missing: reading a
      property of a missing object throws a [TypeError].  The
      [reviewTimestamp] of a feedback record is [Some] date when it is a
      [Date] object and [None] when it is anything else, as it is for every
      record the feedback route passes on: [getTime] is then no function,
      and calling it throws a [TypeError].  Whatever else is present has
      its declared type.
    - The [Map]s of the profiler, whose iteration order is never observed,
      are [gmap]s; those of the feedback system, whose insertion order
      shows in [getPendingReviews] and decides ties between reviewers, are
      association lists ([JSMap]).
    - Calls run one at a time.  [submitFeedback] and
      [identifyUncertainTransactions] make all their writes before they
      first yield; the interleaving of other requests between the records
      of a batch, and during the two-second wait of a model update, is not
      modelled.  The two halves of the periodic tick are steps of their own.

    Left out: the node embeddings and the feature vectors of
    [GraphNeuralNetwork] (computed, but never read by the score), the mock
    data generator, the client, the reports and the user interface. *)

From Stdlib Require Import Reals Lra Lia ZArith List String Permutation Sorted.
From stdpp Require Import gmap strings list.

Set Default Proof Using "Type".

(* ===================================================================== *)
(** * Part I: the model                                                   *)
(* ===================================================================== *)

(** ** JavaScript numbers *)

#[global] Instance Rlt_decision (x y : R) : Decision (x < y)%R := Rlt_dec x y.
#[global] Instance Req_decision : EqDecision R := Req_dec_T.

Inductive num : Type :=
  | Fin (r : R)
  | PInf
  | NInf
  | NaN.

Module JS.

(** Sign of a real, as used by the rules for infinities. *)
Definition sgn (r : R) : comparison :=
  if decide (0 < r)%R then Gt else if decide (r < 0)%R then Lt else Eq.

Definition inf_of (s : comparison) : num :=
  match s with Gt => PInf | Lt => NInf | Eq => NaN end.

Definition neg (a : num) : num :=
  match a with
  | Fin r => Fin (- r)
  | PInf => NInf
  | NInf => PInf
  | NaN => NaN
  end.

Definition add (a b : num) : num :=
  match a, b with
  | NaN, _ | _, NaN => NaN
  | Fin x, Fin y => Fin (x + y)
  | PInf, NInf | NInf, PInf => NaN
  | PInf, _ | _, PInf => PInf
  | NInf, _ | _, NInf => NInf
  end.

Definition sub (a b : num) : num := add a (neg b).

Definition mul (a b : num) : num :=
  match a, b with
  | NaN, _ | _, NaN => NaN
  | Fin x, Fin y => Fin (x * y)
  | Fin x, PInf | PInf, Fin x => inf_of (sgn x)
  | Fin x, NInf | NInf, Fin x => inf_of (CompOpp (sgn x))
  | PInf, PInf | NInf, NInf => PInf
  | PInf, NInf | NInf, PInf => NInf
  end.

Definition div (a b : num) : num :=
  match a, b with
  | NaN, _ | _, NaN => NaN
  | Fin x, Fin y => if decide (y = 0%R) then inf_of (sgn x) else Fin (x / y)
  | Fin _, (PInf | NInf) => Fin 0
  | (PInf | NInf), (PInf | NInf) => NaN
  | PInf, Fin y => if decide (y < 0)%R then NInf else PInf
  | NInf, Fin y => if decide (y < 0)%R then PInf else NInf
  end.

(** [a < b]; false as soon as one side is NaN. *)
Definition ltb (a b : num) : bool :=
  match a, b with
  | NaN, _ | _, NaN => false
  | Fin x, Fin y => bool_decide (x < y)%R
  | NInf, (Fin _ | PInf) => true
  | Fin _, PInf => true
  | _, _ => false
  end.

Definition gtb (a b : num) : bool := ltb b a.

(** [a <= b] and [a >= b] are not negations of [>] and [<]: NaN again. *)
Definition eqb (a b : num) : bool :=
  match a, b with
  | Fin x, Fin y => bool_decide (x = y)
  | PInf, PInf | NInf, NInf => true
  | _, _ => false
  end.

Definition leb (a b : num) : bool := ltb a b || eqb a b.
Definition geb (a b : num) : bool := leb b a.

(** [Math.abs], [Math.sqrt], [Math.min], [Math.max], [Math.round],
    [Math.floor]. *)
Definition abs (a : num) : num :=
  match a with
  | Fin r => Fin (Rabs r)
  | PInf | NInf => PInf
  | NaN => NaN
  end.

Definition sqrt (a : num) : num :=
  match a with
  | Fin r => if decide (r < 0)%R then NaN else Fin (R_sqrt.sqrt r)
  | PInf => PInf
  | NInf | NaN => NaN
  end.

Definition min (a b : num) : num :=
  match a, b with
  | NaN, _ | _, NaN => NaN
  | _, _ => if ltb b a then b else a
  end.

Definition max (a b : num) : num :=
  match a, b with
  | NaN, _ | _, NaN => NaN
  | _, _ => if ltb a b then b else a
  end.

Definition floor (a : num) : num :=
  match a with
  | Fin r => Fin (IZR (Zfloor r))
  | other => other
  end.

(** [Math.round x] is [floor (x + 0.5)] computed exactly. *)
Definition round (a : num) : num :=
  match a with
  | Fin r => Fin (IZR (Zfloor (r + / 2)))
  | other => other
  end.

(** [Math.pow(x, 2)]. *)
Definition sq (a : num) : num := mul a a.

Definition of_nat (n : nat) : num := Fin (INR n).
Definition of_Z (z : Z) : num := Fin (IZR z).

(** [arr.reduce((a, b) => a + b, 0)] *)
Definition sum (l : list num) : num := fold_left add l (Fin 0).

(** [arr[i]] read as a number: a missing element is [undefined], which
    arithmetic turns into NaN. *)
Definition get (l : list num) (i : nat) : num := default NaN (l !! i).

(** [arr[i] = v]: replaces in range, extends the array otherwise (the
    holes, read as numbers, are NaN). *)
Definition set (l : list num) (i : nat) (v : num) : list num :=
  if decide (i < length l)%nat then <[i:=v]> l
  else l ++ replicate (i - length l) NaN ++ [v].

Definition is_nan (a : num) : bool :=
  match a with NaN => true | _ => false end.

Definition finite (a : num) : Prop :=
  match a with Fin _ => True | _ => False end.

End JS.

Declare Scope num_scope.
Delimit Scope num_scope with num.
Bind Scope num_scope with num.
Infix "+" := JS.add : num_scope.
Infix "-" := JS.sub : num_scope.
Infix "*" := JS.mul : num_scope.
Infix "/" := JS.div : num_scope.
Infix ">?" := JS.gtb (at level 70, no associativity) : num_scope.
Infix "<?" := JS.ltb (at level 70, no associativity) : num_scope.

(** ** Exceptions *)

Inductive Exn : Type :=
  | TypeError                (* a property read on [undefined], a call of what is no function *)
  | InvalidFeedback.         (* Error("Invalid feedback data: missing required fields") *)

Inductive result (A : Type) : Type :=
  | Return (a : A)
  | Throw (e : Exn).
Arguments Return {A} a.
Arguments Throw {A} e.

#[global] Instance result_ret : MRet result := fun A a => Return a.
#[global] Instance result_bind : MBind result := fun A B k m =>
  match m with
  | Return a => k a
  | Throw e => Throw e
  end.

(** ** Shared data ([src/lib/types.ts]) *)

(** A [Date] is modelled by the two observations the code makes of it. *)
Record Date : Type := mkDate {
  getTime : Z;      (* milliseconds since the epoch *)
  getHours : Z      (* local hour of the day *)
}.

Record Location : Type := mkLocation {
  lat : num;
  lng : num;
  country : string;
  city : string
}.

Record Merchant : Type := mkMerchant {
  merchant_id : string;
  merchant_name : string;
  category : string
}.

Record TransactionData : Type := mkTransaction {
  tx_id : string;
  tx_userId : string;
  amount : num;
  tx_timestamp : Date;
  location : Location;
  merchant : Merchant;
  deviceId : string;
  paymentMethod : string
}.

Record KeystrokeDynamics : Type := mkKeystroke {
  dwellTimes : list num;
  flightTimes : list num;
  typingSpeed : num
}.

Record MouseMovements : Type := mkMouse {
  velocity : list num;
  acceleration : list num;
  clickPatterns : list num
}.

Record DeviceSensors : Type := mkSensors {
  accelerometer : list num;
  gyroscope : list num;
  orientation : num
}.

(** The routes cast the request body to [BiometricData] without validating
    it: a channel object may be absent, and reading a property of an absent
    channel throws. *)
Record BiometricData : Type := mkBiometric {
  sessionId : string;
  bio_userId : string;
  keystrokeDynamics : option KeystrokeDynamics;
  mouseMovements : option MouseMovements;
  deviceSensors : option DeviceSensors;
  bio_timestamp : Date
}.

Inductive NodeType : Type := UserNode | DeviceNode | MerchantNode | LocationNode.

(** [properties: Record<string, any>], one shape per node type. *)
Inductive Properties : Type :=
  | UserProps (userId : string)
  | MerchantProps (name : string) (category : string)
  | DeviceProps (deviceId : string)
  | LocationProps (loc : Location).

Record GraphNode : Type := mkNode {
  node_id : string;
  node_type : NodeType;
  properties : Properties
}.

Record GraphEdge : Type := mkEdge {
  source : string;
  target : string;
  edge_type : string;
  weight : num;
  edge_timestamp : Date
}.

(** ** GraphBuilder ([src/lib/data-ingestion.ts]) *)

Module GraphBuilder.

Record Graph : Type := mkGraph {
  nodes : list GraphNode;
  edges : list GraphEdge;
  nodeMap : gmap string GraphNode
}.

Definition empty : Graph := mkGraph [] [] ∅.

(** [if (!nodeMap.has(id)) { nodes.push(n); nodeMap.set(id, n) }] *)
Definition addNode (n : GraphNode) (g : Graph) : Graph :=
  match nodeMap g !! node_id n with
  | Some _ => g
  | None => mkGraph (nodes g ++ [n]) (edges g) (<[node_id n := n]> (nodeMap g))
  end.

Definition pushEdge (e : GraphEdge) (g : Graph) : Graph :=
  mkGraph (nodes g) (edges g ++ [e]) (nodeMap g).

Definition locationId (tx : TransactionData) : string :=
  city (location tx) +:+ "_" +:+ country (location tx).

Definition userNode (tx : TransactionData) : GraphNode :=
  mkNode (tx_userId tx) UserNode (UserProps (tx_userId tx)).

Definition merchantNode (tx : TransactionData) : GraphNode :=
  mkNode (merchant_id (merchant tx)) MerchantNode
         (MerchantProps (merchant_name (merchant tx)) (category (merchant tx))).

Definition deviceNode (tx : TransactionData) : GraphNode :=
  mkNode (deviceId tx) DeviceNode (DeviceProps (deviceId tx)).

Definition locationNode (tx : TransactionData) : GraphNode :=
  mkNode (locationId tx) LocationNode (LocationProps (location tx)).

Definition transactedWith (tx : TransactionData) : GraphEdge :=
  mkEdge (tx_userId tx) (merchant_id (merchant tx)) "transacted_with"
         (amount tx) (tx_timestamp tx).

Definition usedDevice (tx : TransactionData) : GraphEdge :=
  mkEdge (tx_userId tx) (deviceId tx) "used_device" (Fin 1) (tx_timestamp tx).

Definition locatedAt (tx : TransactionData) : GraphEdge :=
  mkEdge (deviceId tx) (locationId tx) "located_at" (Fin 1) (tx_timestamp tx).

(** The body of [transactions.forEach((tx) => { ... })]. *)
Definition visit (g : Graph) (tx : TransactionData) : Graph :=
  let g := addNode (userNode tx) g in
  let g := addNode (merchantNode tx) g in
  let g := addNode (deviceNode tx) g in
  let g := addNode (locationNode tx) g in
  let g := pushEdge (transactedWith tx) g in
  let g := pushEdge (usedDevice tx) g in
  pushEdge (locatedAt tx) g.

Definition buildTransactionGraph (transactions : list TransactionData) : Graph :=
  fold_left visit transactions empty.

(** The nodes and edges a transaction proposes, whether or not they are
    kept. *)
Definition candidates (tx : TransactionData) : list GraphNode :=
  [userNode tx; merchantNode tx; deviceNode tx; locationNode tx].

Definition txEdges (tx : TransactionData) : list GraphEdge :=
  [transactedWith tx; usedDevice tx; locatedAt tx].

(** The transactions agree on what every node id stands for. *)
Definition consistent (transactions : list TransactionData) : Prop :=
  forall t1 t2 n1 n2,
    t1 ∈ transactions -> t2 ∈ transactions ->
    n1 ∈ candidates t1 -> n2 ∈ candidates t2 ->
    node_id n1 = node_id n2 -> n1 = n2.

(** [g] is the graph of a run that has proposed the nodes [cs] and pushed
    the edges [es]. *)
Record built (g : Graph) (cs : list GraphNode) (es : list GraphEdge) : Prop := {
  built_edges : edges g = es;
  built_sound : forall n, n ∈ nodes g -> n ∈ cs;
  built_complete : forall c, c ∈ cs -> exists n, n ∈ nodes g /\ node_id n = node_id c;
  built_map : forall i, is_Some (nodeMap g !! i) <-> exists n, n ∈ nodes g /\ node_id n = i
}.

(** [n] is the first of the proposed nodes [cs] to have its id. *)
Definition firstWithId (cs : list GraphNode) (n : GraphNode) : Prop :=
  exists pre post,
    cs = pre ++ n :: post /\ forall c, c ∈ pre -> node_id c <> node_id n.

End GraphBuilder.


(** ** BiometricsProcessor ([src/lib/biometrics-processor.ts]) *)

Module Biometrics.

Local Open Scope num_scope.

Inductive MovementPattern : Type := Smooth | Jerky | Mixed.
Inductive Handedness : Type := LeftHanded | RightHanded | Ambidextrous.

Record KeystrokeProfile : Type := mkKeystrokeProfile {
  avgDwellTime : num;
  avgFlightTime : num;
  dwellTimeVariance : num;
  flightTimeVariance : num;
  typingRhythm : list num;
  preferredTypingSpeed : num;
  keyPressurePattern : list num
}.

Record MouseProfile : Type := mkMouseProfile {
  avgVelocity : num;
  avgAcceleration : num;
  clickRhythm : list num;
  movementPattern : MovementPattern;
  preferredClickSpeed : num;
  scrollBehavior : list num
}.

Record DeviceProfile : Type := mkDeviceProfile {
  orientationPreference : num;
  accelerometerBaseline : list num;
  gyroscopeBaseline : list num;
  deviceStability : num;
  handedness : Handedness
}.

Record BiometricProfile : Type := mkProfile {
  profile_userId : string;
  keystrokeProfile : KeystrokeProfile;
  mouseProfile : MouseProfile;
  deviceProfile : DeviceProfile;
  sessionCount : Z;
  lastUpdated : Date;
  confidence : num
}.

Inductive AnomalyType : Type := Keystroke | Mouse | Device | Session.
Inductive Severity : Type := LowSeverity | MediumSeverity | HighSeverity.

(** The description strings, with the numbers they print ([toFixed(1)]) kept
    as numbers. *)
Inductive Description : Type :=
  | UnusualDwellTime (observed expected : num)
  | UnusualFlightTime (observed expected : num)
  | UnusualTypingSpeed (observed expected : num)
  | UnusualMouseVelocity (observed expected : num)
  | UnusualMouseAcceleration
  | MovementPatternChanged (from to : MovementPattern)
  | UnusualDeviceMovement
  | UnusualDeviceRotation
  | OrientationDiffers.

Record BiometricAnomaly : Type := mkAnomaly {
  anomaly_type : AnomalyType;
  severity : Severity;
  description : Description;
  anomaly_confidence : num;
  deviationScore : num
}.

Record State : Type := mkState {
  userProfiles : gmap string BiometricProfile;
  sessionData : gmap string (list BiometricData)
}.

(** [Math.random()], as a number. *)
Definition draw (rnd : nat -> R) (i : nat) : num := Fin (rnd i).

(** [generateBaselineProfile]: [rnd i] is the value of the [i]-th call of
    [Math.random()], in the evaluation order of the object literal. *)
Definition generateBaselineProfile (userId : string) (rnd : nat -> R) (now : Date)
  : BiometricProfile :=
  {| profile_userId := userId;
     keystrokeProfile :=
       {| avgDwellTime := Fin 80 + draw rnd 0 * Fin 40;
          avgFlightTime := Fin 60 + draw rnd 1 * Fin 30;
          dwellTimeVariance := Fin 15 + draw rnd 2 * Fin 10;
          flightTimeVariance := Fin 12 + draw rnd 3 * Fin 8;
          typingRhythm := map (draw rnd) (seq 4 10);
          preferredTypingSpeed := Fin 45 + draw rnd 14 * Fin 35;
          keyPressurePattern := map (draw rnd) (seq 15 5) |};
     mouseProfile :=
       {| avgVelocity := Fin 300 + draw rnd 20 * Fin 200;
          avgAcceleration := Fin 150 + draw rnd 21 * Fin 100;
          clickRhythm := map (fun i => draw rnd i * Fin 200 + Fin 100) (seq 22 5);
          movementPattern := if draw rnd 27 >? Fin 0.5 then Smooth else Jerky;
          preferredClickSpeed := Fin 200 + draw rnd 28 * Fin 100;
          scrollBehavior := map (draw rnd) (seq 29 3) |};
     deviceProfile :=
       {| orientationPreference := draw rnd 32 * Fin 360;
          accelerometerBaseline :=
            [draw rnd 33 * Fin 0.2 - Fin 0.1;
             draw rnd 34 * Fin 0.2 - Fin 0.1;
             draw rnd 35 * Fin 0.2 - Fin 0.1];
          gyroscopeBaseline :=
            [draw rnd 36 * Fin 10 - Fin 5;
             draw rnd 37 * Fin 10 - Fin 5;
             draw rnd 38 * Fin 10 - Fin 5];
          deviceStability := draw rnd 39 * Fin 0.5 + Fin 0.5;
          handedness := if draw rnd 40 >? Fin 0.8 then LeftHanded else RightHanded |};
     sessionCount := (Zfloor (rnd 41%nat * 100) + 50)%Z;
     lastUpdated := now;
     confidence := Fin 0.8 + draw rnd 42 * Fin 0.2 |}.

(** The state the constructor leaves ([initializeBaselineProfiles]): a
    baseline for five users, [rnd userId] being the draws made for each. *)
Definition baselineUsers : list string :=
  ["user_001"; "user_002"; "user_003"; "user_004"; "user_005"].

Definition initial (rnd : string -> nat -> R) (now : Date) : State :=
  {| userProfiles :=
       fold_left (fun profiles userId =>
                    <[userId := generateBaselineProfile userId (rnd userId) now]> profiles)
                 baselineUsers ∅;
     sessionData := ∅ |}.

(** [arr.reduce((a, b) => a + b, 0) / arr.length] *)
Definition mean (arr : list num) : num := JS.sum arr / JS.of_nat (length arr).

(** [Math.abs(observed - baseline) / baseline] *)
Definition deviation (observed baseline : num) : num :=
  JS.abs (observed - baseline) / baseline.

(** The session metrics and deviations [analyzeKeystrokeDynamics] computes
    before it decides on anomalies. *)
Record KeystrokeMetrics : Type := mkKeystrokeMetrics {
  k_avgDwellTime : num;
  k_avgFlightTime : num;
  dwellTimeDeviation : num;
  flightTimeDeviation : num;
  typingSpeedDeviation : num
}.

Definition keystrokeMetrics (k : KeystrokeDynamics) (kp : KeystrokeProfile)
  : KeystrokeMetrics :=
  let avgDwell := mean (dwellTimes k) in
  let avgFlight := mean (flightTimes k) in
  {| k_avgDwellTime := avgDwell;
     k_avgFlightTime := avgFlight;
     dwellTimeDeviation := deviation avgDwell (avgDwellTime kp);
     flightTimeDeviation := deviation avgFlight (avgFlightTime kp);
     typingSpeedDeviation := deviation (typingSpeed k) (preferredTypingSpeed kp) |}.

(** [cond ? [x] : []], for the conditional [anomalies.push(x)]. *)
Definition pushIf {A : Type} (cond : bool) (x : A) : list A :=
  if cond then [x] else [].

Definition analyzeKeystrokeDynamics (data : BiometricData) (profile : BiometricProfile)
  : result (list BiometricAnomaly) :=
  match keystrokeDynamics data with
  | None => Throw TypeError
  | Some k =>
    let kp := keystrokeProfile profile in
    let m := keystrokeMetrics k kp in
    Return
      (pushIf (dwellTimeDeviation m >? Fin 0.4)
         {| anomaly_type := Keystroke;
            severity := if dwellTimeDeviation m >? Fin 0.7 then HighSeverity else MediumSeverity;
            description := UnusualDwellTime (k_avgDwellTime m) (avgDwellTime kp);
            anomaly_confidence := JS.min (Fin 0.95) (dwellTimeDeviation m);
            deviationScore := dwellTimeDeviation m |}
       ++
       pushIf (flightTimeDeviation m >? Fin 0.4)
         {| anomaly_type := Keystroke;
            severity := if flightTimeDeviation m >? Fin 0.7 then HighSeverity else MediumSeverity;
            description := UnusualFlightTime (k_avgFlightTime m) (avgFlightTime kp);
            anomaly_confidence := JS.min (Fin 0.95) (flightTimeDeviation m);
            deviationScore := flightTimeDeviation m |}
       ++
       pushIf (typingSpeedDeviation m >? Fin 0.5)
         {| anomaly_type := Keystroke;
            severity := if typingSpeedDeviation m >? Fin 0.8 then HighSeverity else MediumSeverity;
            description := UnusualTypingSpeed (typingSpeed k) (preferredTypingSpeed kp);
            anomaly_confidence := JS.min (Fin 0.95) (typingSpeedDeviation m);
            deviationScore := typingSpeedDeviation m |})
  end.

Definition calculateVariance (values : list num) : num :=
  let mean := JS.sum values / JS.of_nat (length values) in
  let squaredDiffs := map (fun value => JS.sq (value - mean)) values in
  JS.sum squaredDiffs / JS.of_nat (length values).

Definition classifyMovementPattern (velocity acceleration : list num) : MovementPattern :=
  let velocityVariance := calculateVariance velocity in
  let accelerationVariance := calculateVariance acceleration in
  if (velocityVariance <? Fin 50000) && (accelerationVariance <? Fin 25000) then Smooth
  else if (velocityVariance >? Fin 150000) || (accelerationVariance >? Fin 75000) then Jerky
  else Mixed.

Record MouseMetrics : Type := mkMouseMetrics {
  m_avgVelocity : num;
  m_avgAcceleration : num;
  m_avgClickPattern : num;
  velocityDeviation : num;
  accelerationDeviation : num;
  clickDeviation : num
}.

Definition mouseMetrics (mm : MouseMovements) (mp : MouseProfile) : MouseMetrics :=
  let avgVel := mean (velocity mm) in
  let avgAcc := mean (acceleration mm) in
  let avgClick := mean (clickPatterns mm) in
  {| m_avgVelocity := avgVel;
     m_avgAcceleration := avgAcc;
     m_avgClickPattern := avgClick;
     velocityDeviation := deviation avgVel (avgVelocity mp);
     accelerationDeviation := deviation avgAcc (avgAcceleration mp);
     clickDeviation := deviation avgClick (preferredClickSpeed mp) |}.

Definition MovementPattern_eqb (a b : MovementPattern) : bool :=
  match a, b with
  | Smooth, Smooth | Jerky, Jerky | Mixed, Mixed => true
  | _, _ => false
  end.

Definition analyzeMouseMovements (data : BiometricData) (profile : BiometricProfile)
  : result (list BiometricAnomaly) :=
  match mouseMovements data with
  | None => Throw TypeError
  | Some mm =>
    let mp := mouseProfile profile in
    let m := mouseMetrics mm mp in
    let currentPattern := classifyMovementPattern (velocity mm) (acceleration mm) in
    Return
      (pushIf (velocityDeviation m >? Fin 0.5)
         {| anomaly_type := Mouse;
            severity := if velocityDeviation m >? Fin 0.8 then HighSeverity else MediumSeverity;
            description := UnusualMouseVelocity (m_avgVelocity m) (avgVelocity mp);
            anomaly_confidence := JS.min (Fin 0.95) (velocityDeviation m);
            deviationScore := velocityDeviation m |}
       ++
       pushIf (accelerationDeviation m >? Fin 0.5)
         {| anomaly_type := Mouse;
            severity := if accelerationDeviation m >? Fin 0.8 then HighSeverity else MediumSeverity;
            description := UnusualMouseAcceleration;
            anomaly_confidence := JS.min (Fin 0.95) (accelerationDeviation m);
            deviationScore := accelerationDeviation m |}
       ++
       pushIf (negb (MovementPattern_eqb currentPattern (movementPattern mp)))
         {| anomaly_type := Mouse;
            severity := MediumSeverity;
            description := MovementPatternChanged (movementPattern mp) currentPattern;
            anomaly_confidence := Fin 0.7;
            deviationScore := Fin 0.6 |})
  end.

(** [current.reduce((sum, val, idx) => sum + (val - baseline[idx])^2, 0)],
    then the root of the mean; 1 when the lengths differ. *)
Definition calculateVectorDeviation (current baseline : list num) : num :=
  if negb (length current =? length baseline)%nat then Fin 1
  else
    let sumSquaredDiff :=
      fold_left (fun sum '(idx, val) =>
                   let diff := val - JS.get baseline idx in
                   sum + diff * diff)
                (zip (seq 0 (length current)) current) (Fin 0) in
    JS.sqrt (sumSquaredDiff / JS.of_nat (length current)).

Record DeviceMetrics : Type := mkDeviceMetrics {
  accelDeviation : num;
  gyroDeviation : num;
  orientationDeviation : num
}.

Definition deviceMetrics (ds : DeviceSensors) (dp : DeviceProfile) : DeviceMetrics :=
  {| accelDeviation := calculateVectorDeviation (accelerometer ds) (accelerometerBaseline dp);
     gyroDeviation := calculateVectorDeviation (gyroscope ds) (gyroscopeBaseline dp);
     orientationDeviation :=
       JS.abs (orientation ds - orientationPreference dp) / Fin 360 |}.

Definition analyzeDeviceSensors (data : BiometricData) (profile : BiometricProfile)
  : result (list BiometricAnomaly) :=
  match deviceSensors data with
  | None => Throw TypeError
  | Some ds =>
    let m := deviceMetrics ds (deviceProfile profile) in
    Return
      (pushIf (accelDeviation m >? Fin 0.5)
         {| anomaly_type := Device;
            severity := if accelDeviation m >? Fin 0.8 then HighSeverity else MediumSeverity;
            description := UnusualDeviceMovement;
            anomaly_confidence := JS.min (Fin 0.95) (accelDeviation m);
            deviationScore := accelDeviation m |}
       ++
       pushIf (gyroDeviation m >? Fin 0.5)
         {| anomaly_type := Device;
            severity := if gyroDeviation m >? Fin 0.8 then HighSeverity else MediumSeverity;
            description := UnusualDeviceRotation;
            anomaly_confidence := JS.min (Fin 0.95) (gyroDeviation m);
            deviationScore := gyroDeviation m |}
       ++
       pushIf (orientationDeviation m >? Fin 0.3)
         {| anomaly_type := Device;
            severity := LowSeverity;
            description := OrientationDiffers;
            anomaly_confidence := Fin 0.6;
            deviationScore := orientationDeviation m |})
  end.

(** [(1 - alpha) * old + alpha * sample] *)
Definition ema (alpha old sample : num) : num :=
  (Fin 1 - alpha) * old + alpha * sample.

(** One round of the loop [for (let i = 0; i < 3; i++)] of
    [updateUserProfile], on the pair of baselines. *)
Definition updateBaselines (alpha : num) (ds : DeviceSensors)
    (b : list num * list num) (i : nat) : list num * list num :=
  let accel := JS.set b.1 i (ema alpha (JS.get b.1 i) (JS.get (accelerometer ds) i)) in
  let gyro := JS.set b.2 i (ema alpha (JS.get b.2 i) (JS.get (gyroscope ds) i)) in
  (accel, gyro).

(** [updateUserProfile], reached only when the three channels are present. *)
Definition updateUserProfile (k : KeystrokeDynamics) (mm : MouseMovements)
    (ds : DeviceSensors) (now : Date) (profile : BiometricProfile) : BiometricProfile :=
  let alpha := Fin 0.1 in
  let kp := keystrokeProfile profile in
  let mp := mouseProfile profile in
  let dp := deviceProfile profile in
  let avgDwell := mean (dwellTimes k) in
  let avgFlight := mean (flightTimes k) in
  let avgVel := mean (velocity mm) in
  let avgAcc := mean (acceleration mm) in
  let baselines :=
    fold_left (updateBaselines alpha ds) (seq 0 3)
              (accelerometerBaseline dp, gyroscopeBaseline dp) in
  {| profile_userId := profile_userId profile;
     keystrokeProfile :=
       {| avgDwellTime := ema alpha (avgDwellTime kp) avgDwell;
          avgFlightTime := ema alpha (avgFlightTime kp) avgFlight;
          dwellTimeVariance := dwellTimeVariance kp;
          flightTimeVariance := flightTimeVariance kp;
          typingRhythm := typingRhythm kp;
          preferredTypingSpeed := ema alpha (preferredTypingSpeed kp) (typingSpeed k);
          keyPressurePattern := keyPressurePattern kp |};
     mouseProfile :=
       {| avgVelocity := ema alpha (avgVelocity mp) avgVel;
          avgAcceleration := ema alpha (avgAcceleration mp) avgAcc;
          clickRhythm := clickRhythm mp;
          movementPattern := movementPattern mp;
          preferredClickSpeed := preferredClickSpeed mp;
          scrollBehavior := scrollBehavior mp |};
     deviceProfile :=
       {| orientationPreference := orientationPreference dp;
          accelerometerBaseline := baselines.1;
          gyroscopeBaseline := baselines.2;
          deviceStability := deviceStability dp;
          handedness := handedness dp |};
     sessionCount := (sessionCount profile + 1)%Z;
     lastUpdated := now;
     confidence := JS.min (Fin 0.95) (confidence profile + Fin 0.01) |}.

(** What one call of [processBiometricData] reads from outside. *)
Record Env : Type := mkEnv {
  rnd : nat -> R;          (* the draws of [generateBaselineProfile] *)
  createdAt : Date;        (* [new Date()] in [generateBaselineProfile] *)
  updatedAt : Date         (* [new Date()] in [updateUserProfile] *)
}.

(** The profile the call works on: the stored one, or a fresh baseline. *)
Definition profileFor (st : State) (data : BiometricData) (env : Env) : BiometricProfile :=
  match userProfiles st !! bio_userId data with
  | Some p => p
  | None => generateBaselineProfile (bio_userId data) (rnd env) (createdAt env)
  end.

(** The state once the profile is in the map and the sample is logged
    under its session: what is already done when an analysis throws. *)
Definition register (st : State) (data : BiometricData) (env : Env) : State :=
  {| userProfiles := <[bio_userId data := profileFor st data env]> (userProfiles st);
     sessionData :=
       <[sessionId data := default [] (sessionData st !! sessionId data) ++ [data]]>
         (sessionData st) |}.

(** The three analyses, in the order of the source, on one profile. *)
Definition analyze (data : BiometricData) (profile : BiometricProfile)
  : result (list BiometricAnomaly) :=
  keystrokeAnomalies ← analyzeKeystrokeDynamics data profile;
  mouseAnomalies ← analyzeMouseMovements data profile;
  deviceAnomalies ← analyzeDeviceSensors data profile;
  mret (keystrokeAnomalies ++ mouseAnomalies ++ deviceAnomalies).

Definition processBiometricData (st : State) (data : BiometricData) (env : Env)
  : State * result (list BiometricAnomaly) :=
  let userProfile := profileFor st data env in
  let st1 := register st data env in
  match analyze data userProfile,
        keystrokeDynamics data, mouseMovements data, deviceSensors data with
  | Return anomalies, Some k, Some mm, Some ds =>
      ({| userProfiles :=
            <[bio_userId data := updateUserProfile k mm ds (updatedAt env) userProfile]>
              (userProfiles st1);
          sessionData := sessionData st1 |},
       Return anomalies)
  | Return _, _, _, _ => (st1, Throw TypeError)
  | Throw e, _, _, _ => (st1, Throw e)
  end.

End Biometrics.


(** ** The scorer ([src/lib/gnn-model.ts]) *)

Module GNN.

Local Open Scope num_scope.

Inductive RiskLevel : Type := Low | Medium | High.

(** The explanation strings; the route adds one [BiometricNote] per anomaly
    (the string "Biometric: " followed by the anomaly's description). *)
Inductive Explanation : Type :=
  | HighAmount (amount : num)       (* "High transaction amount: $<amount>" *)
  | UnusualTime (hour : Z)          (* "Unusual time: <hour>:00" *)
  | LargeATM (amount : num)         (* "Large ATM withdrawal: $<amount>" *)
  | UnusualTyping                   (* "Unusual typing pattern detected" *)
  | AnomalousPatterns               (* "Anomalous behavioral patterns detected" *)
  | BiometricNote (d : Biometrics.Description).

Record FraudPrediction : Type := mkPrediction {
  transactionId : string;
  fraudProbability : num;
  riskLevel : RiskLevel;
  explanation : list Explanation;
  confidence : num
}.

(** What one call of [predictFraud] reads from outside.  The clock is read
    once in [computeFraudScore] and once more in [generateExplanation]. *)
Record Env : Type := mkEnv {
  scoreHour : Z;       (* [new Date().getHours()] in [computeFraudScore] *)
  explainHour : Z;     (* [new Date().getHours()] in [generateExplanation] *)
  noise : R;           (* [Math.random()] in [computeFraudScore] *)
  certainty : R        (* [Math.random()] for the confidence *)
}.

Definition isAtm (transaction : TransactionData) : bool :=
  bool_decide (category (merchant transaction) = "atm").

Definition nightHour (hour : Z) : bool := ((hour <? 6) || (hour >? 22))%Z.

(** [if (cond) score += delta] *)
Definition bump (cond : bool) (delta score : num) : num :=
  if cond then score + delta else score.

(** [computeFraudScore]; its [features] argument is never read, and is left
    out with the feature extraction and the embeddings that only feed it. *)
Definition computeFraudScore (transaction : TransactionData) (hour : Z) (random : R) : num :=
  let score := Fin 0 in
  let score := bump (amount transaction >? Fin 1000) (Fin 0.3) score in
  let score := bump (amount transaction >? Fin 5000) (Fin 0.4) score in
  let score := bump (nightHour hour) (Fin 0.2) score in
  let score := bump (isAtm transaction && (amount transaction >? Fin 500)) (Fin 0.3) score in
  score + Fin random * Fin 0.2.

Definition generateExplanation (transaction : TransactionData) (k : KeystrokeDynamics)
    (hour : Z) (fraudProb : num) : list Explanation :=
  let explanations :=
    Biometrics.pushIf (amount transaction >? Fin 1000) (HighAmount (amount transaction))
    ++ Biometrics.pushIf (nightHour hour) (UnusualTime hour)
    ++ Biometrics.pushIf (isAtm transaction && (amount transaction >? Fin 500))
                         (LargeATM (amount transaction))
    ++ Biometrics.pushIf (typingSpeed k <? Fin 30) UnusualTyping in
  explanations
    ++ Biometrics.pushIf ((fraudProb >? Fin 0.5) && (length explanations =? 0)%nat)
                         AnomalousPatterns.

Definition riskOf (probability : num) : RiskLevel :=
  if probability >? Fin 0.7 then High
  else if probability >? Fin 0.4 then Medium
  else Low.

(** [predictFraud].  [extractBiometricFeatures] reads the three channels, so
    an absent channel throws before anything is scored. *)
Definition predictFraud (transaction : TransactionData) (biometric : BiometricData)
    (env : Env) : result FraudPrediction :=
  match keystrokeDynamics biometric, mouseMovements biometric, deviceSensors biometric with
  | Some k, Some _, Some _ =>
    let fraudScore := computeFraudScore transaction (scoreHour env) (noise env) in
    let fraudProbability := JS.max (Fin 0) (JS.min (Fin 1) fraudScore) in
    Return
      {| transactionId := tx_id transaction;
         fraudProbability := fraudProbability;
         riskLevel := riskOf fraudProbability;
         explanation := generateExplanation transaction k (explainHour env) fraudProbability;
         confidence := Fin (certainty env) * Fin 0.3 + Fin 0.7 |}
  | _, _, _ => Throw TypeError
  end.

End GNN.

(** ** The scoring routes *)

Module Api.

Local Open Scope num_scope.

Import Biometrics GNN.

(** What the route reads from outside while it handles one transaction. *)
Record Env : Type := mkEnv {
  profiler : Biometrics.Env;
  scorer : GNN.Env;
  elapsed : Z              (* [Date.now() - startTime] when the response is built *)
}.

(** How many anomalies have the given severity:
    [biometricAnomalies.filter((a) => a.severity === s).length] *)
Definition Severity_eqb (a b : Severity) : bool :=
  match a, b with
  | LowSeverity, LowSeverity | MediumSeverity, MediumSeverity
  | HighSeverity, HighSeverity => true
  | _, _ => false
  end.

Definition countSeverity (s : Severity) (anomalies : list BiometricAnomaly) : nat :=
  length (filter (fun a => Severity_eqb (severity a) s = true) anomalies).

(** The probability after the biometric adjustment, before it is rounded. *)
Definition adjust (fraudProbability : num) (anomalies : list BiometricAnomaly) : num :=
  let adjustedProbability := fraudProbability in
  let adjustedProbability :=
    adjustedProbability + JS.of_nat (countSeverity HighSeverity anomalies) * Fin 0.2 in
  let adjustedProbability :=
    adjustedProbability + JS.of_nat (countSeverity MediumSeverity anomalies) * Fin 0.1 in
  JS.min (Fin 1) adjustedProbability.

(** [Math.round(p * 100) / 100] *)
Definition round2 (p : num) : num := JS.round (p * Fin 100) / Fin 100.

Definition notes (anomalies : list BiometricAnomaly) : list Explanation :=
  map (fun anomaly => BiometricNote (description anomaly)) anomalies.

(** *** The single-transaction route *)

Record ScoreRequest : Type := mkScoreRequest {
  req_transaction : option TransactionData;
  req_biometric : option BiometricData;
  req_recentTransactions : option (list TransactionData)
}.

Record FraudDetectionResponse : Type := mkResponse {
  res_transactionId : string;
  res_fraudProbability : num;
  res_riskLevel : RiskLevel;
  res_explanation : list Explanation;
  res_biometricAnomalies : nat;
  res_graphNodes : nat;
  res_confidence : num;
  res_responseTime : Z;
  res_modelVersion : string
}.

Inductive Response : Type :=
  | Verdict (v : FraudDetectionResponse)      (* status 200 *)
  | BadRequest                                (* status 400 *)
  | ServerError (responseTime : Z).           (* status 500 *)

Definition POST (st : Biometrics.State) (body : ScoreRequest) (env : Env)
  : Biometrics.State * Response :=
  match req_transaction body, req_biometric body with
  | Some transaction, Some biometric =>
    match processBiometricData st biometric (profiler env) with
    | (st', Throw _) => (st', ServerError (elapsed env))
    | (st', Return biometricAnomalies) =>
      let graph :=
        GraphBuilder.buildTransactionGraph (default [] (req_recentTransactions body)) in
      match predictFraud transaction biometric (scorer env) with
      | Throw _ => (st', ServerError (elapsed env))
      | Return fraudPrediction =>
        let combinedExplanation :=
          explanation fraudPrediction ++ notes biometricAnomalies in
        let adjustedProbability :=
          adjust (fraudProbability fraudPrediction) biometricAnomalies in
        let finalRiskLevel := riskOf adjustedProbability in
        (st',
         Verdict
           {| res_transactionId := tx_id transaction;
              res_fraudProbability := round2 adjustedProbability;
              res_riskLevel := finalRiskLevel;
              res_explanation := combinedExplanation;
              res_biometricAnomalies := length biometricAnomalies;
              res_graphNodes := length (GraphBuilder.nodes graph);
              res_confidence := confidence fraudPrediction;
              res_responseTime := elapsed env;
              res_modelVersion := "1.0.0" |})
      end
    end
  | _, _ => (st, BadRequest)
  end.

(** *** The batch route *)

(** A transaction of the request body.  The route casts the parsed body to
    [TransactionData] without validating it: the nested [location] and
    [merchant] objects may be missing, and [buildTransactionGraph], which
    the route calls on all the transactions before it processes any, throws
    when it reads a property of a missing one. *)
Record TransactionJson : Type := mkTransactionJson {
  json_id : string;
  json_userId : string;
  json_amount : num;
  json_timestamp : Date;
  json_location : option Location;
  json_merchant : option Merchant;
  json_deviceId : string;
  json_paymentMethod : string
}.

(** The transaction, when its two nested objects are there. *)
Definition readable (t : TransactionJson) : option TransactionData :=
  match json_location t, json_merchant t with
  | Some l, Some m =>
    Some {| tx_id := json_id t; tx_userId := json_userId t; amount := json_amount t;
            tx_timestamp := json_timestamp t; location := l; merchant := m;
            deviceId := json_deviceId t; paymentMethod := json_paymentMethod t |}
  | _, _ => None
  end.

(** A transaction as a well-formed body carries it. *)
Definition toJson (t : TransactionData) : TransactionJson :=
  {| json_id := tx_id t; json_userId := tx_userId t; json_amount := amount t;
     json_timestamp := tx_timestamp t; json_location := Some (location t);
     json_merchant := Some (merchant t); json_deviceId := deviceId t;
     json_paymentMethod := paymentMethod t |}.

(** [GraphBuilder.buildTransactionGraph] on the transactions of a body: a
    [TypeError] at the first transaction without merchant or location. *)
Definition buildGraph (transactions : list TransactionJson) : result GraphBuilder.Graph :=
  match mapM readable transactions with
  | Some txs => Return (GraphBuilder.buildTransactionGraph txs)
  | None => Throw TypeError
  end.

Record BatchRequest : Type := mkBatchRequest {
  req_transactions : option (list TransactionJson);
  req_biometrics : list (option BiometricData);   (* [biometrics?.[index]] *)
  req_recent : option (list TransactionJson)
}.

(** One entry of [results]: a verdict, or the default entry with [error]
    set. *)
Record BatchItem : Type := mkItem {
  item_transactionId : string;
  item_error : option string;
  item_fraudProbability : num;
  item_riskLevel : RiskLevel;
  item_explanation : option (list Explanation);
  item_biometricAnomalies : option nat;
  item_confidence : option num
}.

Definition failed (transaction : TransactionData) (message : string) : BatchItem :=
  {| item_transactionId := tx_id transaction;
     item_error := Some message;
     item_fraudProbability := Fin 0.5;
     item_riskLevel := Medium;
     item_explanation := None;
     item_biometricAnomalies := None;
     item_confidence := None |}.

(** The [try] block of the callback: the item's verdict, or the exception
    of the step that threw. *)
Definition scoreItem (st : Biometrics.State) (transaction : TransactionData)
    (biometric : BiometricData) (env : Env) : Biometrics.State * result BatchItem :=
  match processBiometricData st biometric (profiler env) with
  | (st', Throw e) => (st', Throw e)
  | (st', Return biometricAnomalies) =>
    (st',
     fraudPrediction ← predictFraud transaction biometric (scorer env);
     let adjustedProbability :=
       adjust (fraudProbability fraudPrediction) biometricAnomalies in
     let finalRiskLevel := riskOf adjustedProbability in
     mret {| item_transactionId := tx_id transaction;
             item_error := None;
             item_fraudProbability := round2 adjustedProbability;
             item_riskLevel := finalRiskLevel;
             item_explanation :=
               Some (explanation fraudPrediction ++ notes biometricAnomalies);
             item_biometricAnomalies := Some (length biometricAnomalies);
             item_confidence := Some (confidence fraudPrediction) |})
  end.

(** The callback of [transactions.map]: the [catch] turns an exception
    into the default entry. *)
Definition processItem (st : Biometrics.State) (transaction : TransactionData)
    (biometric : option BiometricData) (env : Env) : Biometrics.State * BatchItem :=
  match biometric with
  | None => (st, failed transaction "Missing biometric data")
  | Some biometric =>
    match scoreItem st transaction biometric env with
    | (st', Return item) => (st', item)
    | (st', Throw _) => (st', failed transaction "Processing failed")
    end
  end.

(** The items in index order.  The callbacks of [Promise.all] interleave
    only at their [await]s; every [processBiometricData] runs to its end
    when it is called, in index order, and nothing after it reads the
    profiler state, so the results are those of this loop. *)
Fixpoint processItems (st : Biometrics.State) (index : nat)
    (transactions : list TransactionData) (biometrics : list (option BiometricData))
    (env : nat -> Env) : Biometrics.State * list BatchItem :=
  match transactions with
  | [] => (st, [])
  | transaction :: rest =>
    let '(st1, item) :=
      processItem st transaction (mjoin (biometrics !! index)) (env index) in
    let '(st2, items) := processItems st1 (S index) rest biometrics env in
    (st2, item :: items)
  end.

Definition RiskLevel_eqb (a b : RiskLevel) : bool :=
  match a, b with
  | Low, Low | Medium, Medium | High, High => true
  | _, _ => false
  end.

Definition countRisk (level : RiskLevel) (results : list BatchItem) : nat :=
  length (filter (fun r => RiskLevel_eqb (item_riskLevel r) level = true) results).

Record Summary : Type := mkSummary {
  totalTransactions : nat;
  highRisk : nat;
  mediumRisk : nat;
  lowRisk : nat;
  errors : nat
}.

(** [results.filter((r) => r.error)]: the error strings are not empty. *)
Definition hasError (r : BatchItem) : bool :=
  match item_error r with
  | Some message => negb (String.eqb message "")
  | None => false
  end.

Definition summarize (transactions : list TransactionData) (results : list BatchItem)
  : Summary :=
  {| totalTransactions := length transactions;
     highRisk := countRisk High results;
     mediumRisk := countRisk Medium results;
     lowRisk := countRisk Low results;
     errors := length (filter (fun r => hasError r = true) results) |}.

Inductive BatchResponse : Type :=
  | BatchOk (results : list BatchItem) (summary : Summary) (totalResponseTime : Z)
                                                          (* status 200 *)
  | BatchBadRequest                                       (* status 400 *)
  | BatchServerError (responseTime : Z).                  (* status 500 *)

(** The batch route.  The graph is built from the recent transactions and
    those of the batch, outside the [try] of the items: when the builder
    throws, the outer [catch] answers 500 and no item is processed.  When it
    returns, every transaction of the batch has its merchant and location.
    ([processGraph] reads only the nodes the builder has made, and its
    embeddings are read by nothing that shows in the results.) *)
Definition POST_batch (st : Biometrics.State) (body : BatchRequest)
    (env : nat -> Env) (totalTime : Z) : Biometrics.State * BatchResponse :=
  match req_transactions body with
  | None | Some [] => (st, BatchBadRequest)
  | Some batch =>
    match buildGraph (default [] (req_recent body) ++ batch), mapM readable batch with
    | Return graph, Some transactions =>
      let '(st', results) := processItems st 0 transactions (req_biometrics body) env in
      (st', BatchOk results (summarize transactions results) totalTime)
    | _, _ => (st, BatchServerError totalTime)
    end
  end.

(** A sample with its three channels. *)
Definition complete (biometric : option BiometricData) : bool :=
  match biometric with
  | Some b =>
    match keystrokeDynamics b, mouseMovements b, deviceSensors b with
    | Some _, Some _, Some _ => true
    | _, _, _ => false
    end
  | None => false
  end.

(** How the processing of one item ended, and the entry it leaves in
    [results]. *)
Inductive Outcome : Type :=
  | Scored (item : BatchItem)
  | MissingBiometric
  | Threw (e : Exn).

Definition outcome (st : Biometrics.State) (transaction : TransactionData)
    (biometric : option BiometricData) (env : Env) : Outcome :=
  match biometric with
  | None => MissingBiometric
  | Some biometric =>
    match (scoreItem st transaction biometric env).2 with
    | Return item => Scored item
    | Throw e => Threw e
    end
  end.

(** The outcomes of the items of a batch, each in the profiler state its
    predecessors have left. *)
Fixpoint outcomes (st : Biometrics.State) (index : nat)
    (transactions : list TransactionData) (biometrics : list (option BiometricData))
    (env : nat -> Env) : list Outcome :=
  match transactions with
  | [] => []
  | transaction :: rest =>
    outcome st transaction (mjoin (biometrics !! index)) (env index)
    :: outcomes (processItem st transaction (mjoin (biometrics !! index)) (env index)).1
                (S index) rest biometrics env
  end.

(** The profiler state in which the item at position [i] is processed. *)
Fixpoint stateBefore (st : Biometrics.State) (index : nat)
    (transactions : list TransactionData) (biometrics : list (option BiometricData))
    (env : nat -> Env) (i : nat) : Biometrics.State :=
  match i, transactions with
  | S j, transaction :: rest =>
    stateBefore (processItem st transaction (mjoin (biometrics !! index)) (env index)).1
                (S index) rest biometrics env j
  | _, _ => st
  end.

Definition degraded (o : Outcome) : bool :=
  match o with Scored _ => false | _ => true end.

Definition entry (transaction : TransactionData) (o : Outcome) : BatchItem :=
  match o with
  | Scored item => item
  | MissingBiometric => failed transaction "Missing biometric data"
  | Threw _ => failed transaction "Processing failed"
  end.

End Api.


(** ** Insertion-ordered maps and stable sorting *)

(** A JavaScript [Map] with string keys, as the list of its entries in
    insertion order. *)
Module JSMap.

Definition t (V : Type) : Type := list (string * V).

Definition empty {V : Type} : t V := [].

Fixpoint get {V : Type} (m : t V) (k : string) : option V :=
  match m with
  | [] => None
  | (k', v) :: m' => if decide (k' = k) then Some v else get m' k
  end.

Definition has {V : Type} (m : t V) (k : string) : bool :=
  match get m k with Some _ => true | None => false end.

(** [set] keeps the position of a key that is already there. *)
Fixpoint set {V : Type} (m : t V) (k : string) (v : V) : t V :=
  match m with
  | [] => [(k, v)]
  | (k', v') :: m' =>
    if decide (k' = k) then (k', v) :: m' else (k', v') :: set m' k v
  end.

Fixpoint delete {V : Type} (m : t V) (k : string) : t V :=
  match m with
  | [] => []
  | (k', v') :: m' =>
    if decide (k' = k) then delete m' k else (k', v') :: delete m' k
  end.

Definition values {V : Type} (m : t V) : list V := map snd m.
Definition keys {V : Type} (m : t V) : list string := map fst m.
Definition size {V : Type} (m : t V) : nat := length m.

End JSMap.

(** [Array.prototype.sort] is stable.  [after a b] says that the comparator
    is positive on [(a, b)]: [a] has to come after [b]. *)
Fixpoint insertBy {A : Type} (after : A -> A -> bool) (x : A) (l : list A) : list A :=
  match l with
  | [] => [x]
  | y :: l' => if after x y then y :: insertBy after x l' else x :: l
  end.

Definition sortBy {A : Type} (after : A -> A -> bool) (l : list A) : list A :=
  foldr (insertBy after) [] l.

(** [[...new Set(l)]]: the first occurrence of every element, in order. *)
Definition dedupe (l : list string) : list string :=
  fold_left (fun acc x => if bool_decide (x ∈ acc) then acc else acc ++ [x]) l [].

(** ** FeedbackSystem *)

Module Feedback.

Local Open Scope num_scope.

Import GNN Api.

Inductive Label : Type := Fraud | Legitimate | Unknown.

Inductive EvidenceType : Type :=
  | ManualReview | CustomerDispute | BankConfirmation | AutomatedVerification.

(** The three fields [submitFeedback] validates may be absent at run time.
    [reviewTimestamp] is declared a [Date], but the route hands over the
    parsed request body as it is ([data as FeedbackData]), and JSON carries
    no [Date]: [None] stands for a value that is not a [Date] (the string of
    a JSON body, or nothing), on which [getTime()] throws; [Some] is the
    [Date] a caller inside the program passes. *)
Record FeedbackData : Type := mkFeedback {
  fb_transactionId : option string;
  actualLabel : option Label;
  fb_confidence : num;
  reviewerId : option string;
  reviewTimestamp : option Date;
  fb_notes : option string;
  evidenceType : EvidenceType
}.

Definition isBankConfirmation (e : EvidenceType) : bool :=
  match e with BankConfirmation => true | _ => false end.

Inductive UpdateType : Type := Incremental | FullRetrain.
Inductive Priority : Type := LowPriority | MediumPriority | HighPriority.

Record ModelUpdateRequest : Type := mkUpdate {
  feedbackBatch : list FeedbackData;
  updateType : UpdateType;
  priority : Priority;
  scheduledTime : option Z
}.

Record ActiveLearningQuery : Type := mkQuery {
  q_transactionId : string;
  uncertaintyScore : num;
  diversityScore : num;
  importanceScore : num;
  queryReason : list string;
  suggestedReviewers : list string
}.

Record ModelPerformanceMetrics : Type := mkMetrics {
  accuracy : num;
  precision : num;
  recall : num;
  f1Score : num;
  falsePositiveRate : num;
  falseNegativeRate : num;
  auc : num;
  perf_lastUpdated : Z;
  sampleSize : Z
}.

Record State : Type := mkState {
  feedbackHistory : JSMap.t FeedbackData;
  pendingReviews : JSMap.t ActiveLearningQuery;
  modelPerformance : ModelPerformanceMetrics;
  updateQueue : list ModelUpdateRequest;
  reviewerWorkload : JSMap.t nat
}.

(** The state the constructor leaves. *)
Definition initial (now : Z) : State :=
  {| feedbackHistory := JSMap.empty;
     pendingReviews := JSMap.empty;
     modelPerformance :=
       {| accuracy := Fin 0.92; precision := Fin 0.89; recall := Fin 0.94;
          f1Score := Fin 0.91; falsePositiveRate := Fin 0.08;
          falseNegativeRate := Fin 0.06; auc := Fin 0.96;
          perf_lastUpdated := now; sampleSize := 1000 |};
     updateQueue := [];
     reviewerWorkload :=
       fold_left (fun m reviewer => JSMap.set m reviewer 0%nat)
                 ["analyst_001"; "analyst_002"; "analyst_003";
                  "senior_analyst_001"; "ml_engineer_001"]
                 JSMap.empty |}.

(** A string field that passes the test [!field]: there and not empty. *)
Definition truthy (field : option string) : option string :=
  match field with
  | Some s => if String.eqb s "" then None else Some s
  | None => None
  end.

(** A field that fails the test: missing, or the empty string. *)
Definition absent (field : option string) : Prop :=
  field = None \/ field = Some "".

(** A record that passes the validation of [submitFeedback]. *)
Definition valid (feedback : FeedbackData) : Prop :=
  ~ absent (fb_transactionId feedback)
  /\ actualLabel feedback <> None
  /\ ~ absent (reviewerId feedback).

(** [values.filter((f) => new Date().getTime() - f.reviewTimestamp.getTime()
    < 3600000)]: the callback throws at the first record whose timestamp is
    not a [Date]. *)
Fixpoint lastHour (now : Z) (values : list FeedbackData) : result (list FeedbackData) :=
  match values with
  | [] => Return []
  | f :: rest =>
    match reviewTimestamp f with
    | None => Throw TypeError
    | Some t =>
      recent ← lastHour now rest;
      mret (if decide (now - getTime t < 3600000)%Z then f :: recent else recent)
    end
  end.

(** [shouldTriggerImmediateUpdate]: the bank-confirmation case returns
    before any timestamp is read. *)
Definition shouldTriggerImmediateUpdate (st : State) (feedback : FeedbackData) (now : Z)
  : result bool :=
  if (fb_confidence feedback >? Fin 0.9)
     && isBankConfirmation (evidenceType feedback)
  then Return true
  else
    recentFeedback ← lastHour now (JSMap.values (feedbackHistory st));
    mret (10 <=? length recentFeedback)%nat.

(** The records for which it does: evidence from the bank, confidence
    above 0.9. *)
Definition bankConfirmed (feedback : FeedbackData) : bool :=
  (fb_confidence feedback >? Fin 0.9) && isBankConfirmation (evidenceType feedback).

(** A record whose timestamp is a [Date]. *)
Definition dated (feedback : FeedbackData) : Prop := reviewTimestamp feedback <> None.

#[global] Instance dated_dec (feedback : FeedbackData) : Decision (dated feedback).
Proof. unfold dated. destruct (reviewTimestamp feedback); [left|right]; congruence. Defined.

Definition delay (p : Priority) : Z :=
  match p with
  | HighPriority => 0
  | MediumPriority => 300000
  | LowPriority => 1800000
  end.

Definition priorityOrder (p : Priority) : Z :=
  match p with
  | HighPriority => 3
  | MediumPriority => 2
  | LowPriority => 1
  end.

Definition queueModelUpdate (st : State) (batch : list FeedbackData)
    (type : UpdateType) (p : Priority) (now : Z) : State :=
  let updateRequest :=
    {| feedbackBatch := batch; updateType := type; priority := p;
       scheduledTime := Some (now + delay p)%Z |} in
  {| feedbackHistory := feedbackHistory st;
     pendingReviews := pendingReviews st;
     modelPerformance := modelPerformance st;
     updateQueue :=
       sortBy (fun a b => (priorityOrder (priority b) - priorityOrder (priority a) >? 0)%Z)
              (updateQueue st ++ [updateRequest]);
     reviewerWorkload := reviewerWorkload st |}.

(** The state once [submitFeedback] has stored an accepted record, taken
    its id out of the pending reviews and counted it for its reviewer. *)
Definition recorded (st : State) (transactionId reviewer : string)
    (feedback : FeedbackData) : State :=
  let currentWorkload := default 0%nat (JSMap.get (reviewerWorkload st) reviewer) in
  {| feedbackHistory := JSMap.set (feedbackHistory st) transactionId feedback;
     pendingReviews := JSMap.delete (pendingReviews st) transactionId;
     modelPerformance := modelPerformance st;
     updateQueue := updateQueue st;
     reviewerWorkload :=
       JSMap.set (reviewerWorkload st) reviewer (currentWorkload + 1)%nat |}.

(** [submitFeedback]; [now] is the clock while the call runs.  The three
    writes are made before [shouldTriggerImmediateUpdate] is asked, so they
    stay when it throws. *)
Definition submitFeedback (st : State) (feedback : FeedbackData) (now : Z)
  : State * result unit :=
  match truthy (fb_transactionId feedback), actualLabel feedback,
        truthy (reviewerId feedback) with
  | Some transactionId, Some _, Some reviewer =>
    let st1 := recorded st transactionId reviewer feedback in
    match shouldTriggerImmediateUpdate st1 feedback now with
    | Return true =>
        (queueModelUpdate st1 [feedback] Incremental HighPriority now, Return ())
    | Return false => (st1, Return ())
    | Throw e => (st1, Throw e)
    end
  | _, _, _ => (st, Throw InvalidFeedback)
  end.

Definition calculateUncertaintyScore (prediction : FraudDetectionResponse) : num :=
  let distanceFromMiddle := JS.abs (res_fraudProbability prediction - Fin 0.5) in
  let uncertaintyScore := Fin 1 - distanceFromMiddle * Fin 2 in
  let confidenceUncertainty := Fin 1 - res_confidence prediction in
  JS.max uncertaintyScore confidenceUncertainty.

(** [calculateDiversityScore]; its [biometric] argument is never read. *)
Definition calculateDiversityScore (st : State) (transaction : TransactionData) : num :=
  let recentTransactions :=
    map fb_transactionId (drop (JSMap.size (feedbackHistory st) - 100)
                               (JSMap.values (feedbackHistory st))) in
  if (length recentTransactions <? 10)%nat then Fin 0.8
  else
    let hour := getHours (tx_timestamp transaction) in
    let isUnusualTime := nightHour hour in
    let isHighAmount := amount transaction >? Fin 1000 in
    let isUnusualMerchant := isAtm transaction in
    let diversityScore := Fin 0.3 in
    let diversityScore := bump isUnusualTime (Fin 0.2) diversityScore in
    let diversityScore := bump isHighAmount (Fin 0.3) diversityScore in
    let diversityScore := bump isUnusualMerchant (Fin 0.2) diversityScore in
    JS.min (Fin 1) diversityScore.

Definition calculateImportanceScore (transaction : TransactionData)
    (prediction : FraudDetectionResponse) : num :=
  let importanceScore := Fin 0 in
  let importanceScore :=
    if amount transaction >? Fin 5000 then importanceScore + Fin 0.4
    else if amount transaction >? Fin 1000 then importanceScore + Fin 0.2
    else importanceScore in
  let importanceScore :=
    match res_riskLevel prediction with
    | High => importanceScore + Fin 0.3
    | Medium => importanceScore + Fin 0.1
    | Low => importanceScore
    end in
  let importanceScore :=
    bump (2 <? length (res_explanation prediction))%nat (Fin 0.2) importanceScore in
  let importanceScore :=
    bump (bool_decide (category (merchant transaction) ∈ ["bank"; "atm"; "financial"]))
         (Fin 0.1) importanceScore in
  JS.min (Fin 1) importanceScore.

Definition generateQueryReasons (prediction : FraudDetectionResponse)
    (transaction : TransactionData) (uncertainty diversity : num) : list string :=
  Biometrics.pushIf (uncertainty >? Fin 0.7)
    "Model uncertainty: prediction confidence is low"
  ++ Biometrics.pushIf (JS.abs (res_fraudProbability prediction - Fin 0.5) <? Fin 0.1)
    "Borderline case: fraud probability near decision threshold"
  ++ Biometrics.pushIf (diversity >? Fin 0.6)
    "Novel transaction pattern: different from training data"
  ++ Biometrics.pushIf (amount transaction >? Fin 5000)
    "High-value transaction: requires manual verification"
  ++ Biometrics.pushIf (3 <? length (res_explanation prediction))%nat
    "Complex case: multiple risk factors identified"
  ++ Biometrics.pushIf (2 <? res_biometricAnomalies prediction)%nat
    "Behavioral anomalies: unusual user interaction patterns".

Definition suggestReviewers (st : State) (prediction : FraudDetectionResponse)
    (transaction : TransactionData) : list string :=
  let sortedReviewers :=
    sortBy (fun a b => (snd b <? snd a)%nat) (reviewerWorkload st) in
  let reviewers :=
    Biometrics.pushIf
      (RiskLevel_eqb (res_riskLevel prediction) High || (amount transaction >? Fin 10000))
      "senior_analyst_001"
    ++ Biometrics.pushIf (2 <? res_biometricAnomalies prediction)%nat "ml_engineer_001"
    ++ map fst (take 2 sortedReviewers) in
  dedupe reviewers.

(** [uncertainty * 0.4 + diversity * 0.3 + importance * 0.3] *)
Definition combinedScore (q : ActiveLearningQuery) : num :=
  uncertaintyScore q * Fin 0.4 + diversityScore q * Fin 0.3 + importanceScore q * Fin 0.3.

Definition withPending (st : State) (pending : JSMap.t ActiveLearningQuery) : State :=
  {| feedbackHistory := feedbackHistory st;
     pendingReviews := pending;
     modelPerformance := modelPerformance st;
     updateQueue := updateQueue st;
     reviewerWorkload := reviewerWorkload st |}.

(** The loop [for (let i = 0; i < predictions.length; i++)] of
    [identifyUncertainTransactions], from index [i] on.  Reading a field of
    [transactions[i]] throws when the array is too short. *)
Fixpoint scan (st : State) (queries : list ActiveLearningQuery) (i : nat)
    (predictions : list FraudDetectionResponse) (transactions : list TransactionData)
  : State * result (list ActiveLearningQuery) :=
  match predictions with
  | [] => (st, Return queries)
  | prediction :: rest =>
    if JSMap.has (feedbackHistory st) (res_transactionId prediction)
    then scan st queries (S i) rest transactions
    else
      match transactions !! i with
      | None => (st, Throw TypeError)
      | Some transaction =>
        let uncertainty := calculateUncertaintyScore prediction in
        let diversity := calculateDiversityScore st transaction in
        let importance := calculateImportanceScore transaction prediction in
        let combined :=
          uncertainty * Fin 0.4 + diversity * Fin 0.3 + importance * Fin 0.3 in
        if combined >? Fin 0.6 then
          let query :=
            {| q_transactionId := res_transactionId prediction;
               uncertaintyScore := uncertainty;
               diversityScore := diversity;
               importanceScore := importance;
               queryReason :=
                 generateQueryReasons prediction transaction uncertainty diversity;
               suggestedReviewers := suggestReviewers st prediction transaction |} in
          scan (withPending st
                  (JSMap.set (pendingReviews st) (res_transactionId prediction) query))
               (queries ++ [query]) (S i) rest transactions
        else scan st queries (S i) rest transactions
      end
  end.

(** [(a, b) => scoreB - scoreA], positive when [a] scores less than [b]. *)
Definition byScore (a b : ActiveLearningQuery) : bool :=
  combinedScore b - combinedScore a >? Fin 0.

(** [identifyUncertainTransactions]; the [biometrics] argument only reaches
    [calculateDiversityScore], which does not read it. *)
Definition identifyUncertainTransactions (st : State)
    (predictions : list FraudDetectionResponse) (transactions : list TransactionData)
    (biometrics : list BiometricData) : State * result (list ActiveLearningQuery) :=
  match scan st [] 0 predictions transactions with
  | (st', Return queries) => (st', Return (take 10 (sortBy byScore queries)))
  | (st', Throw e) => (st', Throw e)
  end.

Definition getPendingReviews (st : State) : list ActiveLearningQuery :=
  sortBy byScore (JSMap.values (pendingReviews st)).

(** [submitBatchFeedback]; [clock i] is the clock while record [i] is
    submitted, [clock (length batch)] the clock of the final enqueue. *)
Fixpoint submitAll (st : State) (i : nat) (batch : list FeedbackData) (clock : nat -> Z)
  : State * result unit :=
  match batch with
  | [] => (st, Return ())
  | feedback :: rest =>
    match submitFeedback st feedback (clock i) with
    | (st', Return _) => submitAll st' (S i) rest clock
    | (st', Throw e) => (st', Throw e)
    end
  end.

Definition submitBatchFeedback (st : State) (batch : list FeedbackData) (clock : nat -> Z)
  : State * result unit :=
  match submitAll st 0 batch clock with
  | (st', Return _) =>
    if (5 <=? length batch)%nat
    then (queueModelUpdate st' batch Incremental MediumPriority (clock (length batch)),
          Return ())
    else (st', Return ())
  | (st', Throw e) => (st', Throw e)
  end.

Definition updateModelPerformanceFromFeedback (now : Z) (perf : ModelPerformanceMetrics)
    (batch : list FeedbackData) : ModelPerformanceMetrics :=
  let improvementFactor := JS.min (Fin 0.02) (JS.of_nat (length batch) * Fin 0.001) in
  let accuracy' := JS.min (Fin 0.99) (accuracy perf + improvementFactor) in
  let precision' := JS.min (Fin 0.99) (precision perf + improvementFactor * Fin 0.8) in
  let recall' := JS.min (Fin 0.99) (recall perf + improvementFactor * Fin 1.2) in
  {| accuracy := accuracy';
     precision := precision';
     recall := recall';
     f1Score := (Fin 2 * precision' * recall') / (precision' + recall');
     falsePositiveRate := falsePositiveRate perf;
     falseNegativeRate := falseNegativeRate perf;
     auc := auc perf;
     perf_lastUpdated := now;
     sampleSize := (sampleSize perf + Z.of_nat (length batch))%Z |}.

Definition ready (now : Z) (update : ModelUpdateRequest) : bool :=
  match scheduledTime update with
  | None => true
  | Some t => (t <=? now)%Z
  end.

(** [processUpdateQueue], run as one step: every ready update is executed
    ([executeModelUpdate] does not throw) and leaves the queue. *)
Definition processUpdateQueue (st : State) (now : Z) : State :=
  let readyUpdates := filter (fun u => ready now u = true) (updateQueue st) in
  {| feedbackHistory := feedbackHistory st;
     pendingReviews := pendingReviews st;
     modelPerformance :=
       fold_left (fun perf u => updateModelPerformanceFromFeedback now perf (feedbackBatch u))
                 readyUpdates (modelPerformance st);
     updateQueue := filter (fun u => ready now u = false) (updateQueue st);
     reviewerWorkload := reviewerWorkload st |}.

Definition updateModelPerformance (st : State) (random : R) : State :=
  let perf := modelPerformance st in
  let randomVariation := (Fin random - Fin 0.5) * Fin 0.01 in
  let accuracy' := JS.max (Fin 0.85) (JS.min (Fin 0.99) (accuracy perf + randomVariation)) in
  let precision' := JS.max (Fin 0.8) (JS.min (Fin 0.99) (precision perf + randomVariation)) in
  let recall' := JS.max (Fin 0.85) (JS.min (Fin 0.99) (recall perf + randomVariation)) in
  {| feedbackHistory := feedbackHistory st;
     pendingReviews := pendingReviews st;
     modelPerformance :=
       {| accuracy := accuracy';
          precision := precision';
          recall := recall';
          f1Score := (Fin 2 * precision' * recall') / (precision' + recall');
          falsePositiveRate := Fin 1 - precision';
          falseNegativeRate := Fin 1 - recall';
          auc := auc perf;
          perf_lastUpdated := perf_lastUpdated perf;
          sampleSize := sampleSize perf |};
     updateQueue := updateQueue st;
     reviewerWorkload := reviewerWorkload st |}.

(** The calls that change the state of a [FeedbackSystem], and a run of
    them.  The two halves of the periodic tick are steps of their own. *)
Inductive Call : Type :=
  | SubmitFeedback (feedback : FeedbackData) (now : Z)
  | SubmitBatchFeedback (batch : list FeedbackData) (clock : nat -> Z)
  | IdentifyUncertain (predictions : list FraudDetectionResponse)
                      (transactions : list TransactionData)
                      (biometrics : list BiometricData)
  | ProcessUpdateQueue (now : Z)
  | UpdateModelPerformance (random : R).

Definition step (st : State) (c : Call) : State :=
  match c with
  | SubmitFeedback feedback now => (submitFeedback st feedback now).1
  | SubmitBatchFeedback batch clock => (submitBatchFeedback st batch clock).1
  | IdentifyUncertain predictions transactions biometrics =>
      (identifyUncertainTransactions st predictions transactions biometrics).1
  | ProcessUpdateQueue now => processUpdateQueue st now
  | UpdateModelPerformance random => updateModelPerformance st random
  end.

Definition run (st : State) (calls : list Call) : State := fold_left step calls st.

(** No id is at once reviewed and pending, and every pending query sits
    under its own transaction id. *)
Record wf (st : State) : Prop := {
  wf_disjoint : forall k,
    JSMap.has (feedbackHistory st) k = true -> JSMap.has (pendingReviews st) k = false;
  wf_keys : forall k q, (k, q) ∈ pendingReviews st -> q_transactionId q = k
}.

(** The update queue in priority order: no update comes before one of
    higher priority. *)
Definition inPriorityOrder (queue : list ModelUpdateRequest) : Prop :=
  StronglySorted
    (fun a b => (priorityOrder (priority b) <= priorityOrder (priority a))%Z) queue.

End Feedback.


(** ** Closed forms over the reals, and the deviations as the specification words them *)

Module Reference.

Local Open Scope R_scope.

(** [sum_i (current_i - baseline_i)^2] *)
Fixpoint sumSquaredDiff (current baseline : list R) : R :=
  match current, baseline with
  | c :: cs, b :: bs => (c - b) * (c - b) + sumSquaredDiff cs bs
  | _, _ => 0
  end.

(** Root of the mean squared difference of the components. *)
Definition rmsDifference (current baseline : list R) : R :=
  sqrt (sumSquaredDiff current baseline / INR (length current)).

(** The deviation of two vectors: that root mean square, or 1 when they
    differ in length. *)
Definition vectorDeviation (current baseline : list R) : R :=
  if decide (length current = length baseline)
  then rmsDifference current baseline else 1.

(** The specification's wording of the vector deviation: the relative
    deviation [|observed - baseline| / baseline] of every component,
    combined by root mean square. *)
Fixpoint sumSquaredRelative (current baseline : list R) : R :=
  match current, baseline with
  | c :: cs, b :: bs =>
      (Rabs (c - b) / b) * (Rabs (c - b) / b) + sumSquaredRelative cs bs
  | _, _ => 0
  end.

Definition relativeRms (current baseline : list R) : R :=
  sqrt (sumSquaredRelative current baseline / INR (length current)).

(** The specification's wording of the orientation deviation: the distance
    around the circle, over 360. *)
Definition circularDeviation (observed preferred : R) : R :=
  Rmin (Rabs (observed - preferred)) (360 - Rabs (observed - preferred)) / 360.

(** 1 when the condition holds, 0 otherwise. *)
Definition indicator (b : bool) : R := if b then 1 else 0.

(** The sum of the rule contributions of the scorer, as a real. *)
Definition rules (transaction : TransactionData) (hour : Z) : R :=
  0.3 * indicator (JS.gtb (amount transaction) (Fin 1000))
  + 0.4 * indicator (JS.gtb (amount transaction) (Fin 5000))
  + 0.2 * indicator (GNN.nightHour hour)
  + 0.3 * indicator (GNN.isAtm transaction && JS.gtb (amount transaction) (Fin 500)).

End Reference.


(** ** Samples and profiles made of finite numbers *)

Module WellFormed.

Import Biometrics.

(** The five arrays whose length [processBiometricData] divides by. *)
Definition nonEmpty (k : KeystrokeDynamics) (mm : MouseMovements) : Prop :=
  dwellTimes k <> [] /\ flightTimes k <> [] /\ velocity mm <> []
  /\ acceleration mm <> [] /\ clickPatterns mm <> [].

Definition finiteSample (k : KeystrokeDynamics) (mm : MouseMovements)
    (ds : DeviceSensors) : Prop :=
  Forall JS.finite (dwellTimes k) /\ Forall JS.finite (flightTimes k)
  /\ JS.finite (typingSpeed k)
  /\ Forall JS.finite (velocity mm) /\ Forall JS.finite (acceleration mm)
  /\ Forall JS.finite (clickPatterns mm)
  /\ Forall JS.finite (accelerometer ds) /\ Forall JS.finite (gyroscope ds)
  /\ JS.finite (orientation ds).

(** Three readings at least on both device vectors. *)
Definition threeAxes (ds : DeviceSensors) : Prop :=
  (3 <= length (accelerometer ds))%nat /\ (3 <= length (gyroscope ds))%nat.

(** A baseline a deviation can be measured against: finite and not zero. *)
Definition divisor (a : num) : Prop := JS.finite a /\ a <> Fin 0.

Definition soundProfile (p : BiometricProfile) : Prop :=
  divisor (avgDwellTime (keystrokeProfile p))
  /\ divisor (avgFlightTime (keystrokeProfile p))
  /\ divisor (preferredTypingSpeed (keystrokeProfile p))
  /\ divisor (avgVelocity (mouseProfile p))
  /\ divisor (avgAcceleration (mouseProfile p))
  /\ divisor (preferredClickSpeed (mouseProfile p))
  /\ JS.finite (orientationPreference (deviceProfile p))
  /\ Forall JS.finite (accelerometerBaseline (deviceProfile p))
  /\ Forall JS.finite (gyroscopeBaseline (deviceProfile p))
  /\ (3 <= length (accelerometerBaseline (deviceProfile p)))%nat
  /\ (3 <= length (gyroscopeBaseline (deviceProfile p)))%nat
  /\ JS.finite (confidence p).

(** A number in the sense of the specification: anything but NaN.  The
    two infinities are numbers; a sum of finite samples that exceeds the
    range of a double is one of them. *)
Definition defined (a : num) : Prop := a <> NaN.

(** The five session means. *)
Definition definedAggregates (km : KeystrokeMetrics) (mmx : MouseMetrics) : Prop :=
  defined (k_avgDwellTime km) /\ defined (k_avgFlightTime km)
  /\ defined (m_avgVelocity mmx) /\ defined (m_avgAcceleration mmx)
  /\ defined (m_avgClickPattern mmx).

(** The deviations of the three channels. *)
Definition definedDeviations (km : KeystrokeMetrics) (mmx : MouseMetrics)
    (dm : DeviceMetrics) : Prop :=
  defined (dwellTimeDeviation km) /\ defined (flightTimeDeviation km)
  /\ defined (typingSpeedDeviation km)
  /\ defined (velocityDeviation mmx) /\ defined (accelerationDeviation mmx)
  /\ defined (clickDeviation mmx)
  /\ defined (accelDeviation dm) /\ defined (gyroDeviation dm)
  /\ defined (orientationDeviation dm).

(** The fields [updateUserProfile] writes. *)
Definition definedUpdate (p : BiometricProfile) : Prop :=
  defined (avgDwellTime (keystrokeProfile p))
  /\ defined (avgFlightTime (keystrokeProfile p))
  /\ defined (preferredTypingSpeed (keystrokeProfile p))
  /\ defined (avgVelocity (mouseProfile p))
  /\ defined (avgAcceleration (mouseProfile p))
  /\ (forall i, (i < 3)%nat ->
        defined (JS.get (accelerometerBaseline (deviceProfile p)) i)
        /\ defined (JS.get (gyroscopeBaseline (deviceProfile p)) i))
  /\ defined (confidence p).

(** A sum of squares: not negative, possibly infinite, never NaN. *)
Definition squares (a : num) : Prop :=
  match a with
  | Fin r => (0 <= r)%R
  | PInf => True
  | NInf | NaN => False
  end.

(** What the second half of the processing reads of the sample besides the
    five means: numbers, finite or not. *)
Definition definedReadings (k : KeystrokeDynamics) (ds : DeviceSensors) : Prop :=
  defined (typingSpeed k) /\ defined (orientation ds)
  /\ Forall defined (accelerometer ds) /\ Forall defined (gyroscope ds).

End WellFormed.


(** ** Concrete inputs *)

(** A card purchase at the merchant [merch_001], under a given name. *)
Definition purchase (id merchantName : string) : TransactionData :=
  {| tx_id := id; tx_userId := "user_001"; amount := Fin 25;
     tx_timestamp := mkDate 1700000000000 12;
     location := mkLocation (Fin 40) (Fin (-74)) "US" "New York";
     merchant := mkMerchant "merch_001" merchantName "retail";
     deviceId := "device_1"; paymentMethod := "credit_card" |}.

(** The outside of a call of the profiler: every draw at 0.5. *)
Definition halves : Biometrics.Env :=
  Biometrics.mkEnv (fun _ => 0.5%R) (mkDate 1700000000000 12) (mkDate 1700000000001 12).

(** A profiler as its constructor leaves it, all its draws at 0.5. *)
Definition fresh : Biometrics.State :=
  Biometrics.initial (fun _ _ => 0.5%R) (mkDate 1700000000000 12).

(** The baseline of [user_001] in it: dwell time 100, flight time 75,
    typing speed 62.5, velocity 400, acceleration 200, jerky movement,
    orientation preference 180, device at rest. *)
Definition baseline : Biometrics.BiometricProfile :=
  Biometrics.generateBaselineProfile "user_001" (fun _ => 0.5%R)
    (mkDate 1700000000000 12).

(** A sample that matches the baseline drawn with all draws at 0.5. *)
Definition calm : BiometricData :=
  {| sessionId := "session_1"; bio_userId := "user_001";
     keystrokeDynamics := Some (mkKeystroke [Fin 100] [Fin 75] (Fin 62.5));
     mouseMovements := Some (mkMouse [Fin 0; Fin 800] [Fin 200] [Fin 250]);
     deviceSensors := Some (mkSensors [Fin 0; Fin 0; Fin 0] [Fin 0; Fin 0; Fin 0] (Fin 180));
     bio_timestamp := mkDate 1700000000000 12 |}.

(** A sample with the device held at 90 degrees. *)
Definition sideways : BiometricData :=
  {| sessionId := "session_1"; bio_userId := "user_001";
     keystrokeDynamics := Some (mkKeystroke [Fin 100] [Fin 75] (Fin 62.5));
     mouseMovements := Some (mkMouse [Fin 0; Fin 800] [Fin 200] [Fin 250]);
     deviceSensors := Some (mkSensors [Fin 0; Fin 0; Fin 0] [Fin 0; Fin 0; Fin 0] (Fin 90));
     bio_timestamp := mkDate 1700000000000 12 |}.

(** A sample held almost as usual: gyroscope (5, 5, 5), orientation 350. *)
Definition turned : BiometricData :=
  {| sessionId := "session_1"; bio_userId := "user_001";
     keystrokeDynamics := Some (mkKeystroke [Fin 100] [Fin 75] (Fin 62.5));
     mouseMovements := Some (mkMouse [Fin 0; Fin 800] [Fin 200] [Fin 250]);
     deviceSensors :=
       Some (mkSensors [Fin 0; Fin 0; Fin 0] [Fin 5; Fin 5; Fin 5] (Fin 350));
     bio_timestamp := mkDate 1700000000000 12 |}.

(** A sample whose five divided-by arrays are filled, with two
    accelerometer readings only. *)
Definition twoAxes : BiometricData :=
  {| sessionId := "session_1"; bio_userId := "user_001";
     keystrokeDynamics := Some (mkKeystroke [Fin 100] [Fin 75] (Fin 62.5));
     mouseMovements := Some (mkMouse [Fin 0; Fin 800] [Fin 200] [Fin 250]);
     deviceSensors := Some (mkSensors [Fin 0; Fin 0] [Fin 0; Fin 0; Fin 0] (Fin 180));
     bio_timestamp := mkDate 1700000000000 12 |}.

(** A sample whose keystroke channel is missing: reading its dwell times
    throws. *)
Definition broken : BiometricData :=
  {| sessionId := "session_2"; bio_userId := "user_002";
     keystrokeDynamics := None;
     mouseMovements := Some (mkMouse [Fin 0; Fin 800] [Fin 200] [Fin 250]);
     deviceSensors := Some (mkSensors [Fin 0; Fin 0; Fin 0] [Fin 0; Fin 0; Fin 0] (Fin 180));
     bio_timestamp := mkDate 1700000000000 12 |}.

(** A baseline [generateBaselineProfile] can draw: orientation preference
    10, accelerometer baseline (0, 0, 0), gyroscope baseline (4, 4, 4). *)
Definition upright : Biometrics.BiometricProfile :=
  Biometrics.generateBaselineProfile "user_001"
    (fun i => if (i =? 32)%nat then (1 / 36)%R
              else if (36 <=? i)%nat && (i <=? 38)%nat then 0.9%R
              else 0.5%R)
    (mkDate 1700000000000 12).

(** A withdrawal of 6000 at an ATM, time-stamped as given. *)
Definition withdrawal (at_ : Date) : TransactionData :=
  {| tx_id := "txn_1"; tx_userId := "user_001"; amount := Fin 6000;
     tx_timestamp := at_;
     location := mkLocation (Fin 40) (Fin (-74)) "US" "New York";
     merchant := mkMerchant "merch_005" "ATM_001" "atm";
     deviceId := "device_1"; paymentMethod := "debit_card" |}.

(** A purchase of 6000 scored at noon with the noise draw at 0.02: the
    rules give 0.7, the noise 0.004. *)
Definition largePurchase : TransactionData :=
  {| tx_id := "txn_1"; tx_userId := "user_001"; amount := Fin 6000;
     tx_timestamp := mkDate 1700000000000 12;
     location := mkLocation (Fin 40) (Fin (-74)) "US" "New York";
     merchant := mkMerchant "merch_001" "Amazon" "retail";
     deviceId := "device_1"; paymentMethod := "credit_card" |}.

(** The large purchase as a body would carry it with its [merchant] object
    left out. *)
Definition noMerchant : Api.TransactionJson :=
  {| Api.json_id := "txn_0"; Api.json_userId := "user_001"; Api.json_amount := Fin 6000;
     Api.json_timestamp := mkDate 1700000000000 12;
     Api.json_location := Some (mkLocation (Fin 40) (Fin (-74)) "US" "New York");
     Api.json_merchant := None;
     Api.json_deviceId := "device_1"; Api.json_paymentMethod := "credit_card" |}.

(** The body of a scoring request without recent transactions. *)
Definition request (transaction : TransactionData) (biometric : BiometricData)
  : Api.ScoreRequest :=
  Api.mkScoreRequest (Some transaction) (Some biometric) (Some []).

(** Scoring at noon with a given noise draw, for a user whose draws are all 0.5. *)
Definition atNoon (noise : R) : Api.Env :=
  Api.mkEnv halves (GNN.mkEnv 12 12 noise 0.5) 3.

(** A bank-confirmed fraud report of confidence 0.95, as the route hands
    it over: its timestamp is the string of the request body. *)
Definition confirmed (transactionId : string) (reviewer : option string)
  : Feedback.FeedbackData :=
  {| Feedback.fb_transactionId := Some transactionId;
     Feedback.actualLabel := Some Feedback.Fraud;
     Feedback.fb_confidence := Fin 0.95;
     Feedback.reviewerId := reviewer;
     Feedback.reviewTimestamp := None;
     Feedback.fb_notes := None;
     Feedback.evidenceType := Feedback.BankConfirmation |}.

(** A fraud report from a manual review, of confidence 0.8, as the route
    hands it over. *)
Definition reported (transactionId : string) : Feedback.FeedbackData :=
  {| Feedback.fb_transactionId := Some transactionId;
     Feedback.actualLabel := Some Feedback.Fraud;
     Feedback.fb_confidence := Fin 0.8;
     Feedback.reviewerId := Some "analyst_002";
     Feedback.reviewTimestamp := None;
     Feedback.fb_notes := None;
     Feedback.evidenceType := Feedback.ManualReview |}.

(** The same report with the [Date] a caller inside the program passes. *)
Definition reportedAt (transactionId : string) (at_ : Date) : Feedback.FeedbackData :=
  {| Feedback.fb_transactionId := Some transactionId;
     Feedback.actualLabel := Some Feedback.Fraud;
     Feedback.fb_confidence := Fin 0.8;
     Feedback.reviewerId := Some "analyst_002";
     Feedback.reviewTimestamp := Some at_;
     Feedback.fb_notes := None;
     Feedback.evidenceType := Feedback.ManualReview |}.

(** A verdict of probability 0.5 for the transaction [txn_1]. *)
Definition borderline : Api.FraudDetectionResponse :=
  {| Api.res_transactionId := "txn_1"; Api.res_fraudProbability := Fin 0.5;
     Api.res_riskLevel := GNN.Medium; Api.res_explanation := [];
     Api.res_biometricAnomalies := 0; Api.res_graphNodes := 4;
     Api.res_confidence := Fin 0.8; Api.res_responseTime := 3;
     Api.res_modelVersion := "1.0.0" |}.


(* ===================================================================== *)
(** * Part II: properties                                                 *)
(* ===================================================================== *)

(** ** JavaScript numbers: finite arithmetic and evaluation *)

Module JSFacts.

Local Open Scope num_scope.

Lemma add_fin (x y : R) : Fin x + Fin y = Fin (x + y).
Proof. reflexivity. Qed.

Lemma sub_fin (x y : R) : Fin x - Fin y = Fin (x - y).
Proof. reflexivity. Qed.

Lemma mul_fin (x y : R) : Fin x * Fin y = Fin (x * y).
Proof. reflexivity. Qed.

Lemma div_fin (x y : R) : y <> 0%R -> Fin x / Fin y = Fin (x / y).
Proof. intros H. cbn. rewrite decide_False by exact H. reflexivity. Qed.

Lemma gtb_fin (x y : R) : (Fin x >? Fin y) = bool_decide (y < x)%R.
Proof. reflexivity. Qed.

Lemma ltb_fin (x y : R) : (Fin x <? Fin y) = bool_decide (x < y)%R.
Proof. reflexivity. Qed.

Lemma min_fin (x y : R) : JS.min (Fin x) (Fin y) = Fin (Rmin x y).
Proof.
  cbn. unfold Rmin. case_bool_decide; destruct (Rle_dec x y); try reflexivity.
  - exfalso. lra.
  - f_equal. lra.
Qed.

Lemma max_fin (x y : R) : JS.max (Fin x) (Fin y) = Fin (Rmax x y).
Proof.
  cbn. unfold Rmax. case_bool_decide; destruct (Rle_dec x y); try reflexivity.
  - exfalso. lra.
  - f_equal. lra.
Qed.

Lemma sqrt_fin (x : R) : (0 <= x)%R -> JS.sqrt (Fin x) = Fin (sqrt x).
Proof. intros H. cbn. rewrite decide_False by lra. reflexivity. Qed.

(** Finite values stay finite, as long as nothing is divided by zero. *)
Lemma finite_inv (a : num) : JS.finite a -> exists x, a = Fin x.
Proof. destruct a; simpl; intros H; try contradiction. eauto. Qed.

Lemma finite_add (a b : num) : JS.finite a -> JS.finite b -> JS.finite (a + b).
Proof. destruct a, b; simpl; auto. Qed.

Lemma finite_sub (a b : num) : JS.finite a -> JS.finite b -> JS.finite (a - b).
Proof. destruct a, b; simpl; auto. Qed.

Lemma finite_mul (a b : num) : JS.finite a -> JS.finite b -> JS.finite (a * b).
Proof. destruct a, b; simpl; intros; try contradiction; exact I. Qed.

Lemma finite_abs (a : num) : JS.finite a -> JS.finite (JS.abs a).
Proof. destruct a; simpl; auto. Qed.

Lemma finite_div (a b : num) :
  JS.finite a -> JS.finite b -> b <> Fin 0 -> JS.finite (a / b).
Proof.
  destruct a as [x| | |], b as [y| | |]; simpl; try contradiction.
  intros _ _ Hy. destruct (decide (y = 0%R)) as [->|Hne].
  - contradiction.
  - exact I.
Qed.

Lemma finite_min (a b : num) : JS.finite a -> JS.finite b -> JS.finite (JS.min a b).
Proof.
  destruct a, b; simpl; try contradiction. intros _ _. case_bool_decide; exact I.
Qed.

Lemma finite_fold_add (l : list num) : forall a,
  JS.finite a -> Forall JS.finite l -> JS.finite (fold_left JS.add l a).
Proof.
  induction l as [|x l IH]; intros a Ha Hl; simpl.
  - exact Ha.
  - inversion Hl; subst. apply IH; [apply finite_add|]; assumption.
Qed.

Lemma finite_sum (l : list num) : Forall JS.finite l -> JS.finite (JS.sum l).
Proof. apply finite_fold_add. exact I. Qed.

Lemma of_nat_nonzero (n : nat) : n <> 0%nat -> JS.of_nat n <> Fin 0.
Proof.
  intros Hn H. unfold JS.of_nat in H. injection H as H.
  apply Hn. apply INR_eq. simpl. exact H.
Qed.

(** NaN is absorbing. *)
Lemma add_nan_r (a : num) : a + NaN = NaN.
Proof. destruct a; reflexivity. Qed.

Lemma mul_nan_r (a : num) : a * NaN = NaN.
Proof. destruct a; reflexivity. Qed.

Lemma sum_nil_div : JS.sum [] / JS.of_nat (length (@nil num)) = NaN.
Proof.
  cbn. rewrite decide_True by reflexivity. unfold JS.sgn.
  rewrite !decide_False by lra. reflexivity.
Qed.

(** [Math.round(100 p) / 100] stays within half a hundredth of [p]. *)
Lemma round_hundredths (p : R) :
  exists z : Z,
    JS.round (Fin p * Fin 100) / Fin 100 = Fin (IZR z / 100)
    /\ (IZR z <= p * 100 + / 2 < IZR z + 1)%R.
Proof.
  exists (Zfloor (p * 100 + / 2)). split.
  - cbn. rewrite decide_False by lra. reflexivity.
  - apply Zfloor_bound.
Qed.

End JSFacts.

Create HintDb js_model.

#[global] Hint Unfold
  Biometrics.processBiometricData Biometrics.profileFor Biometrics.register
  Biometrics.analyze Biometrics.analyzeKeystrokeDynamics
  Biometrics.analyzeMouseMovements Biometrics.analyzeDeviceSensors
  Biometrics.keystrokeMetrics Biometrics.mouseMetrics Biometrics.deviceMetrics
  Biometrics.classifyMovementPattern Biometrics.calculateVariance
  Biometrics.calculateVectorDeviation Biometrics.mean Biometrics.deviation
  Biometrics.updateUserProfile Biometrics.updateBaselines Biometrics.ema
  Biometrics.generateBaselineProfile Biometrics.draw Biometrics.pushIf
  GNN.predictFraud GNN.computeFraudScore GNN.generateExplanation GNN.riskOf
  GNN.bump GNN.nightHour GNN.isAtm
  Api.POST Api.adjust Api.round2 Api.notes Api.countSeverity
  Api.scoreItem Api.processItem Api.failed : js_model.

(** Evaluation of a closed number expression: unfold the model, compute,
    and settle every comparison of reals with [lra]. *)
Ltac js_side := first [ lra | lia | reflexivity | discriminate ].

Ltac js_decide :=
  match goal with
  | |- context [@decide ?P ?d] =>
      first [ rewrite (@decide_True _ P d) by js_side
            | rewrite (@decide_False _ P d) by js_side
            | rewrite (@decide_True _ P d)
                by (apply (@bool_decide_eq_true_1 P d); vm_compute; reflexivity)
            | rewrite (@decide_False _ P d)
                by (apply (@bool_decide_eq_false_1 P d); vm_compute; reflexivity) ]
  | |- context [@bool_decide ?P ?d] =>
      first [ rewrite (@bool_decide_eq_true_2 P d) by js_side
            | rewrite (@bool_decide_eq_false_2 P d) by js_side
            | rewrite (@bool_decide_eq_true_2 P d)
                by (apply (@bool_decide_eq_true_1 P d); vm_compute; reflexivity)
            | rewrite (@bool_decide_eq_false_2 P d)
                by (apply (@bool_decide_eq_false_1 P d); vm_compute; reflexivity) ]
  | |- context [Rabs ?x] =>
      first [ rewrite (Rabs_pos_eq x) by lra | rewrite (Rabs_left1 x) by lra ]
  | |- context [sqrt ?x] =>
      first [ replace x with 0%R by lra; rewrite sqrt_0
            | replace x with 1%R by lra; rewrite sqrt_1 ]
  end.

Ltac js_eval := autounfold with js_model; repeat (cbn; try js_decide).

(** ** GraphBuilder: what the graph holds *)

Module GraphBuilderFacts.

Import GraphBuilder.

Lemma built_empty : built empty [] [].
Proof.
  split; simpl.
  - reflexivity.
  - intros n H. exact H.
  - intros c H. inversion H.
  - intros i. rewrite lookup_empty. split.
    + intros [x Hx]. discriminate.
    + intros (n & Hn & _). inversion Hn.
Qed.

Lemma built_addNode g cs es c :
  built g cs es -> built (addNode c g) (cs ++ [c]) es.
Proof.
  intros [He Hs Hc Hm]. unfold addNode.
  destruct (nodeMap g !! node_id c) as [n0|] eqn:Hlook.
  - constructor.
    + exact He.
    + intros n Hn. apply elem_of_app. left. auto.
    + intros c' Hc'. apply elem_of_app in Hc' as [Hc'|Hc'].
      * auto.
      * apply list_elem_of_singleton in Hc'. subst c'.
        apply Hm. eauto.
    + exact Hm.
  - constructor; simpl.
    + exact He.
    + intros n Hn. apply elem_of_app in Hn as [Hn|Hn]; apply elem_of_app; auto.
    + intros c' Hc'. apply elem_of_app in Hc' as [Hc'|Hc'].
      * destruct (Hc _ Hc') as (n & Hn & Hid). exists n. split; auto.
        apply elem_of_app. auto.
      * apply list_elem_of_singleton in Hc'. subst c'. exists c. split; auto.
        apply elem_of_app. right. apply list_elem_of_singleton. reflexivity.
    + intros i. destruct (decide (node_id c = i)) as [<-|Hne].
      * rewrite lookup_insert_eq. split; [intros _|eauto].
        exists c. split; auto. apply elem_of_app. right.
        apply list_elem_of_singleton. reflexivity.
      * rewrite lookup_insert_ne by exact Hne. rewrite Hm. split.
        -- intros (n & Hn & Hid). exists n. split; auto. apply elem_of_app. auto.
        -- intros (n & Hn & Hid). apply elem_of_app in Hn as [Hn|Hn]; [eauto|].
           apply list_elem_of_singleton in Hn. subst n. contradiction.
Qed.

Lemma built_pushEdge g cs es e :
  built g cs es -> built (pushEdge e g) cs (es ++ [e]).
Proof.
  intros [He Hs Hc Hm]. split; simpl; auto. rewrite He. reflexivity.
Qed.

Lemma built_visit g cs es tx :
  built g cs es -> built (visit g tx) (cs ++ candidates tx) (es ++ txEdges tx).
Proof.
  intros H. unfold visit, candidates, txEdges.
  replace (cs ++ [userNode tx; merchantNode tx; deviceNode tx; locationNode tx])
    with ((((cs ++ [userNode tx]) ++ [merchantNode tx]) ++ [deviceNode tx])
            ++ [locationNode tx])
    by (rewrite <- !app_assoc; reflexivity).
  replace (es ++ [transactedWith tx; usedDevice tx; locatedAt tx])
    with (((es ++ [transactedWith tx]) ++ [usedDevice tx]) ++ [locatedAt tx])
    by (rewrite <- !app_assoc; reflexivity).
  repeat first [apply built_pushEdge | apply built_addNode]. exact H.
Qed.

Lemma built_fold txs : forall g cs es,
  built g cs es ->
  built (fold_left visit txs g)
        (cs ++ flat_map candidates txs) (es ++ flat_map txEdges txs).
Proof.
  induction txs as [|tx txs IH]; intros g cs es H; cbn [fold_left flat_map].
  - rewrite !app_nil_r. exact H.
  - rewrite !app_assoc. apply IH. apply built_visit. exact H.
Qed.

Lemma built_graph txs :
  built (buildTransactionGraph txs) (flat_map candidates txs) (flat_map txEdges txs).
Proof. exact (built_fold txs empty [] [] built_empty). Qed.

Lemma elem_of_flat_map {A B : Type} (f : A -> list B) (l : list A) (y : B) :
  y ∈ flat_map f l <-> exists x, x ∈ l /\ y ∈ f x.
Proof.
  rewrite list_elem_of_In, in_flat_map. split; intros (x & H1 & H2); exists x.
  - rewrite !list_elem_of_In. auto.
  - rewrite <- !list_elem_of_In. auto.
Qed.

(** The edges are those of the transactions, three each, in order. *)
Lemma edges_spec txs : edges (buildTransactionGraph txs) = flat_map txEdges txs.
Proof. apply (built_edges _ _ _ (built_graph txs)). Qed.

(** The node ids are exactly the ids the transactions mention. *)
Lemma node_ids_spec txs i :
  i ∈ map node_id (nodes (buildTransactionGraph txs)) <->
  exists tx c, tx ∈ txs /\ c ∈ candidates tx /\ node_id c = i.
Proof.
  destruct (built_graph txs) as [_ Hs Hc _]. rewrite list_elem_of_fmap. split.
  - intros (n & -> & Hn). apply Hs, elem_of_flat_map in Hn as (tx & Htx & Hn). eauto.
  - intros (tx & c & Htx & Hcand & <-).
    destruct (Hc c) as (n & Hn & Hid); [apply elem_of_flat_map; eauto|]. eauto.
Qed.

(** When the transactions agree on every id, the nodes are exactly the
    proposed ones. *)
Lemma nodes_spec txs n :
  consistent txs ->
  n ∈ nodes (buildTransactionGraph txs) <-> exists tx, tx ∈ txs /\ n ∈ candidates tx.
Proof.
  intros Hcons. destruct (built_graph txs) as [_ Hs Hc _]. split.
  - intros Hn. apply elem_of_flat_map. auto.
  - intros (tx & Htx & Hn).
    destruct (Hc n) as (m & Hm & Hid); [apply elem_of_flat_map; eauto|].
    pose proof (Hs _ Hm) as Hm'. apply elem_of_flat_map in Hm' as (tx' & Htx' & Hm').
    rewrite <- (Hcons tx' tx m n Htx' Htx Hm' Hn Hid). exact Hm.
Qed.

Lemma firstWithId_snoc (cs : list GraphNode) (c n : GraphNode) :
  firstWithId (cs ++ [c]) n <->
  firstWithId cs n \/ (n = c /\ forall c', c' ∈ cs -> node_id c' <> node_id c).
Proof.
  split.
  - intros (pre & post & Heq & Hpre).
    destruct (decide (post = [])) as [->|Hpost].
    + apply app_inj_tail in Heq as [-> ->]. right. auto.
    + destruct (exists_last Hpost) as (post' & x & ->).
      change (n :: post' ++ [x]) with ((n :: post') ++ [x]) in Heq.
      rewrite app_assoc in Heq. apply app_inj_tail in Heq as [-> ->].
      left. exists pre, post'. auto.
  - intros [(pre & post & -> & Hpre)|[-> Hall]].
    + exists pre, (post ++ [c]). rewrite <- app_assoc. auto.
    + exists cs, []. auto.
Qed.

Lemma first_addNode g cs es c :
  built g cs es ->
  (forall n, n ∈ nodes g <-> firstWithId cs n) ->
  forall n, n ∈ nodes (addNode c g) <-> firstWithId (cs ++ [c]) n.
Proof.
  intros Hb Hfirst n. rewrite firstWithId_snoc. unfold addNode.
  destruct (nodeMap g !! node_id c) as [m|] eqn:Hlook.
  - rewrite Hfirst. split; [auto|]. intros [H|[-> Hall]]; [exact H|].
    assert (is_Some (nodeMap g !! node_id c)) as Hsome by eauto.
    apply (built_map _ _ _ Hb) in Hsome as (m' & Hm' & Hid).
    exfalso. apply (Hall m'); [apply (built_sound _ _ _ Hb); exact Hm'|exact Hid].
  - cbn [nodes]. rewrite elem_of_app, list_elem_of_singleton, Hfirst.
    split; (intros [H|H]; [left; exact H|right]).
    + subst n. split; [reflexivity|]. intros c' Hc' Hid.
      destruct (built_complete _ _ _ Hb c' Hc') as (m & Hm & Hmid).
      assert (is_Some (nodeMap g !! node_id c)) as [x Hx].
      { apply (built_map _ _ _ Hb). exists m. split; [exact Hm|congruence]. }
      congruence.
    + exact (proj1 H).
Qed.

Lemma first_visit g cs es tx :
  built g cs es ->
  (forall n, n ∈ nodes g <-> firstWithId cs n) ->
  forall n, n ∈ nodes (visit g tx) <-> firstWithId (cs ++ candidates tx) n.
Proof.
  intros Hb Hfirst. unfold visit, candidates. cbn [pushEdge nodes].
  replace (cs ++ [userNode tx; merchantNode tx; deviceNode tx; locationNode tx])
    with ((((cs ++ [userNode tx]) ++ [merchantNode tx]) ++ [deviceNode tx])
            ++ [locationNode tx])
    by (rewrite <- !app_assoc; reflexivity).
  pose proof (built_addNode _ _ _ (userNode tx) Hb) as H1.
  pose proof (built_addNode _ _ _ (merchantNode tx) H1) as H2.
  pose proof (built_addNode _ _ _ (deviceNode tx) H2) as H3.
  eapply first_addNode; [exact H3|].
  eapply first_addNode; [exact H2|].
  eapply first_addNode; [exact H1|].
  eapply first_addNode; [exact Hb|]. exact Hfirst.
Qed.

Lemma first_fold txs : forall g cs es,
  built g cs es ->
  (forall n, n ∈ nodes g <-> firstWithId cs n) ->
  forall n, n ∈ nodes (fold_left visit txs g)
            <-> firstWithId (cs ++ flat_map candidates txs) n.
Proof.
  induction txs as [|tx txs IH]; intros g cs es Hb Hfirst; cbn [fold_left flat_map].
  - rewrite app_nil_r. exact Hfirst.
  - rewrite app_assoc. eapply IH; [apply built_visit; exact Hb|].
    eapply first_visit; eauto.
Qed.

(** The nodes are the proposed nodes that come first under their id. *)
Lemma nodes_first txs n :
  n ∈ nodes (buildTransactionGraph txs) <-> firstWithId (flat_map candidates txs) n.
Proof.
  apply (first_fold txs empty [] [] built_empty). intros m. split.
  - intros H. inversion H.
  - intros (pre & post & Heq & _). destruct pre; discriminate Heq.
Qed.

(** Read by transaction: a node is proposed by some transaction, and no
    transaction before that one mentions its id. *)
Lemma first_transaction txs : forall n,
  firstWithId (flat_map candidates txs) n ->
  exists i tx,
    txs !! i = Some tx /\ n ∈ candidates tx
    /\ forall j tx' c, (j < i)%nat -> txs !! j = Some tx' ->
         c ∈ candidates tx' -> node_id c <> node_id n.
Proof.
  induction txs as [|tx txs IH]; intros n (pre & post & Heq & Hpre); cbn [flat_map] in Heq.
  - destruct pre; discriminate Heq.
  - apply app_eq_inv in Heq as [(k & Hc & Hk)|(k & -> & Hk)].
    + destruct k as [|x k].
      * rewrite app_nil_r in Hc. cbn [app] in Hk.
        destruct (IH n) as (i & tx' & Hi & Hn & Hbefore).
        { exists [], post. split; [symmetry; exact Hk|]. intros c Hc'. inversion Hc'. }
        exists (S i), tx'. split; [exact Hi|]. split; [exact Hn|].
        intros [|j] t c Hj Ht Hcand.
        -- injection Ht as <-. apply Hpre. rewrite <- Hc. exact Hcand.
        -- apply (Hbefore j t c); [lia|exact Ht|exact Hcand].
      * injection Hk as -> _. exists 0%nat, tx. split; [reflexivity|].
        split; [rewrite Hc; apply elem_of_app; right; left|].
        intros j t c Hj. lia.
    + destruct (IH n) as (i & tx' & Hi & Hn & Hbefore).
      { exists k, post. split; [exact Hk|]. intros c Hc. apply Hpre.
        apply elem_of_app. right. exact Hc. }
      exists (S i), tx'. split; [exact Hi|]. split; [exact Hn|].
      intros [|j] t c Hj Ht Hcand.
      * injection Ht as <-. apply Hpre. apply elem_of_app. left. exact Hcand.
      * apply (Hbefore j t c); [lia|exact Ht|exact Hcand].
Qed.

End GraphBuilderFacts.

(** ** C7: the graph under reordering of the transactions *)

(** C7, refuted as stated: two transactions that name the merchant
    [merch_001] differently.  The merchant node carries the name of
    whichever transaction comes first, so the two orders give different node
    sets. *)
Lemma C7_node_set_depends_on_order :
  let a := purchase "txn_1" "Amazon" in
  let b := purchase "txn_2" "Amazon Marketplace" in
  Permutation [a; b] [b; a] /\
  GraphBuilder.merchantNode a ∈ GraphBuilder.nodes (GraphBuilder.buildTransactionGraph [a; b]) /\
  GraphBuilder.merchantNode a ∉ GraphBuilder.nodes (GraphBuilder.buildTransactionGraph [b; a]).
Proof.
  intros a b. split; [apply perm_swap|]. split.
  - vm_compute. apply list_elem_of_further, list_elem_of_here.
  - intros H. vm_compute in H.
    repeat (apply elem_of_cons in H as [H|H]; [discriminate H|]).
    inversion H.
Qed.

(** C7, amended: under every permutation of the transactions the graph has
    the same set of edges and the same set of node ids.  A node carries the
    type and the properties of the first transaction that mentions its id:
    the nodes are exactly the proposed nodes that come first under their
    id, so no transaction before the one a node is taken from mentions that
    id.  When the transactions agree on the node each id stands for, the
    graph has the same set of nodes under every permutation. *)
Theorem C7_graph_sets_under_permutation (txs txs' : list TransactionData) :
  Permutation txs txs' ->
  (forall e, e ∈ GraphBuilder.edges (GraphBuilder.buildTransactionGraph txs) <->
             e ∈ GraphBuilder.edges (GraphBuilder.buildTransactionGraph txs')) /\
  (forall i, i ∈ map node_id (GraphBuilder.nodes (GraphBuilder.buildTransactionGraph txs)) <->
             i ∈ map node_id (GraphBuilder.nodes (GraphBuilder.buildTransactionGraph txs'))) /\
  (GraphBuilder.consistent txs ->
   forall n, n ∈ GraphBuilder.nodes (GraphBuilder.buildTransactionGraph txs) <->
             n ∈ GraphBuilder.nodes (GraphBuilder.buildTransactionGraph txs')) /\
  (forall l n,
     n ∈ GraphBuilder.nodes (GraphBuilder.buildTransactionGraph l) <->
     GraphBuilder.firstWithId (flat_map GraphBuilder.candidates l) n) /\
  (forall l n,
     n ∈ GraphBuilder.nodes (GraphBuilder.buildTransactionGraph l) ->
     exists i tx,
       l !! i = Some tx /\ n ∈ GraphBuilder.candidates tx
       /\ forall j tx' c, (j < i)%nat -> l !! j = Some tx' ->
            c ∈ GraphBuilder.candidates tx' -> node_id c <> node_id n).
Proof.
  intros Hperm.
  assert (Hmem : forall tx, tx ∈ txs <-> tx ∈ txs').
  { intros tx. split; intros H.
    - rewrite <- Hperm. exact H.
    - rewrite Hperm. exact H. }
  split; [|split; [|split; [|split]]].
  - intros e. rewrite !GraphBuilderFacts.edges_spec, !GraphBuilderFacts.elem_of_flat_map.
    split; intros (tx & Htx & He); exists tx; split; auto; apply Hmem; exact Htx.
  - intros i. rewrite !GraphBuilderFacts.node_ids_spec.
    split; intros (tx & c & Htx & Hc); exists tx, c; split; auto; apply Hmem; exact Htx.
  - intros Hcons n.
    assert (Hcons' : GraphBuilder.consistent txs').
    { intros t1 t2 n1 n2 H1 H2. apply Hcons; apply Hmem; assumption. }
    rewrite !GraphBuilderFacts.nodes_spec by assumption.
    split; intros (tx & Htx & Hn); exists tx; split; auto; apply Hmem; exact Htx.
  - intros l n. apply GraphBuilderFacts.nodes_first.
  - intros l n Hn. apply GraphBuilderFacts.first_transaction.
    apply GraphBuilderFacts.nodes_first. exact Hn.
Qed.

(** The theorem at two transactions that agree on every id. *)
Lemma purchases_consistent :
  GraphBuilder.consistent [purchase "txn_1" "Amazon"; purchase "txn_2" "Amazon"].
Proof.
  intros t1 t2 n1 n2 H1 H2 Hn1 Hn2 Hid.
  apply elem_of_cons in H1 as [->|H1]; [|apply list_elem_of_singleton in H1 as ->];
  (apply elem_of_cons in H2 as [->|H2]; [|apply list_elem_of_singleton in H2 as ->]);
  vm_compute in Hn1, Hn2;
  repeat (apply elem_of_cons in Hn1 as [->|Hn1]);
  try (inversion Hn1; fail);
  repeat (apply elem_of_cons in Hn2 as [->|Hn2]);
  try (inversion Hn2; fail);
  first [reflexivity | discriminate Hid].
Qed.

Lemma C7_graph_sets_witness :
  let a := purchase "txn_1" "Amazon" in
  let b := purchase "txn_2" "Amazon" in
  Permutation [a; b] [b; a] /\
  GraphBuilder.consistent [a; b] /\
  forall n, n ∈ GraphBuilder.nodes (GraphBuilder.buildTransactionGraph [a; b]) <->
            n ∈ GraphBuilder.nodes (GraphBuilder.buildTransactionGraph [b; a]).
Proof.
  intros a b. split; [apply perm_swap|]. split; [exact purchases_consistent|].
  exact (proj1 (proj2 (proj2 (C7_graph_sets_under_permutation [a; b] [b; a]
                                (perm_swap b a []))))
               purchases_consistent).
Defined.


(** ** GraphBuilder: the shape of a built graph *)

Module GraphShape.

Import GraphBuilder GraphBuilderFacts.

Lemma addNode_known (c : GraphNode) (g : Graph) :
  is_Some (nodeMap g !! node_id c) -> addNode c g = g.
Proof. intros [n Hn]. unfold addNode. rewrite Hn. reflexivity. Qed.

Lemma addNode_nodes (c : GraphNode) (g : Graph) :
  nodes (addNode c g) = nodes g
  \/ (nodeMap g !! node_id c = None /\ nodes (addNode c g) = nodes g ++ [c]).
Proof.
  unfold addNode. destruct (nodeMap g !! node_id c); [left|right]; auto.
Qed.

Lemma distinct_addNode g cs es c :
  built g cs es ->
  NoDup (node_id <$> nodes g) -> NoDup (node_id <$> nodes (addNode c g)).
Proof.
  intros Hb Hnd. destruct (addNode_nodes c g) as [->|[Hnone ->]]; [exact Hnd|].
  rewrite fmap_app. apply NoDup_app. split; [exact Hnd|]. split.
  - intros i Hi Hc. apply list_elem_of_singleton in Hc. subst i.
    apply list_elem_of_fmap in Hi as (n & Hid & Hn).
    assert (is_Some (nodeMap g !! node_id c)) as [x Hx]
      by (apply (built_map _ _ _ Hb); eauto).
    congruence.
  - apply NoDup_singleton.
Qed.

Lemma distinct_visit g cs es tx :
  built g cs es ->
  NoDup (node_id <$> nodes g) -> NoDup (node_id <$> nodes (visit g tx)).
Proof.
  intros Hb Hnd. unfold visit. cbn [pushEdge nodes].
  pose proof (built_addNode _ _ _ (userNode tx) Hb) as H1.
  pose proof (built_addNode _ _ _ (merchantNode tx) H1) as H2.
  pose proof (built_addNode _ _ _ (deviceNode tx) H2) as H3.
  eapply distinct_addNode; [exact H3|].
  eapply distinct_addNode; [exact H2|].
  eapply distinct_addNode; [exact H1|].
  eapply distinct_addNode; [exact Hb|]. exact Hnd.
Qed.

Lemma distinct_fold txs : forall g cs es,
  built g cs es ->
  NoDup (node_id <$> nodes g) -> NoDup (node_id <$> nodes (fold_left visit txs g)).
Proof.
  induction txs as [|tx txs IH]; intros g cs es Hb Hnd; cbn [fold_left].
  - exact Hnd.
  - eapply IH; [apply built_visit; exact Hb|]. eapply distinct_visit; eauto.
Qed.

Lemma distinct_graph txs : NoDup (node_id <$> nodes (buildTransactionGraph txs)).
Proof.
  eapply distinct_fold; [exact built_empty|]. apply NoDup_nil_2.
Qed.

Lemma length_flat_map_const {A B : Type} (f : A -> list B) (k : nat) (l : list A) :
  (forall x, length (f x) = k) -> length (flat_map f l) = (k * length l)%nat.
Proof.
  intros Hk. induction l as [|x l IH]; cbn [flat_map length]; [lia|].
  rewrite length_app, Hk, IH. lia.
Qed.

Lemma prefix_addNode (c : GraphNode) (g : Graph) : nodes g `prefix_of` nodes (addNode c g).
Proof.
  destruct (addNode_nodes c g) as [->|[_ ->]]; [reflexivity|]. apply prefix_app_r. reflexivity.
Qed.

Lemma prefix_visit (g : Graph) (tx : TransactionData) : nodes g `prefix_of` nodes (visit g tx).
Proof.
  unfold visit. cbn [pushEdge nodes].
  repeat (etrans; [|apply prefix_addNode]). reflexivity.
Qed.

Lemma prefix_fold txs : forall g, nodes g `prefix_of` nodes (fold_left visit txs g).
Proof.
  induction txs as [|tx txs IH]; intros g; cbn [fold_left]; [reflexivity|].
  etrans; [apply prefix_visit|apply IH].
Qed.

Lemma candidate_user tx : userNode tx ∈ candidates tx.
Proof. unfold candidates. repeat constructor. Qed.

Lemma candidate_merchant tx : merchantNode tx ∈ candidates tx.
Proof. unfold candidates. repeat constructor. Qed.

Lemma candidate_device tx : deviceNode tx ∈ candidates tx.
Proof. unfold candidates. repeat constructor. Qed.

Lemma candidate_location tx : locationNode tx ∈ candidates tx.
Proof. unfold candidates. repeat constructor. Qed.

(** A transaction whose four ids are all known adds its three edges and
    nothing else. *)
Lemma visit_known (g : Graph) (tx : TransactionData) :
  (forall c, c ∈ candidates tx -> is_Some (nodeMap g !! node_id c)) ->
  visit g tx = mkGraph (nodes g) (edges g ++ txEdges tx) (nodeMap g).
Proof.
  intros Hk. unfold visit.
  rewrite (addNode_known (userNode tx)) by apply Hk, candidate_user.
  rewrite (addNode_known (merchantNode tx)) by apply Hk, candidate_merchant.
  rewrite (addNode_known (deviceNode tx)) by apply Hk, candidate_device.
  rewrite (addNode_known (locationNode tx)) by apply Hk, candidate_location.
  unfold pushEdge, txEdges. cbn. rewrite <- !app_assoc. reflexivity.
Qed.

Lemma fold_known txs : forall g,
  (forall tx c, tx ∈ txs -> c ∈ candidates tx -> is_Some (nodeMap g !! node_id c)) ->
  fold_left visit txs g = mkGraph (nodes g) (edges g ++ flat_map txEdges txs) (nodeMap g).
Proof.
  induction txs as [|tx txs IH]; intros g Hk; cbn [fold_left flat_map].
  - rewrite app_nil_r. destruct g; reflexivity.
  - rewrite visit_known by (intros c Hc; apply (Hk tx); [left|exact Hc]).
    rewrite IH; cbn.
    + rewrite <- app_assoc. reflexivity.
    + intros tx' c Htx' Hc. apply (Hk tx'); [right; exact Htx'|exact Hc].
Qed.

End GraphShape.

(** X1: the nodes of a built graph have pairwise distinct ids, and a
    transaction contributes at most four of them. *)
Theorem X1_graph_node_ids_distinct (txs : list TransactionData) :
  let g := GraphBuilder.buildTransactionGraph txs in
  NoDup (node_id <$> GraphBuilder.nodes g)
  /\ (length (GraphBuilder.nodes g) <= 4 * length txs)%nat.
Proof.
  intros g. pose proof (GraphShape.distinct_graph txs) as Hnd. split; [exact Hnd|].
  destruct (GraphBuilderFacts.built_graph txs) as [_ Hs _ _].
  rewrite <- (GraphShape.length_flat_map_const GraphBuilder.candidates 4 txs)
    by reflexivity.
  apply submseteq_length, NoDup_submseteq; [|exact Hs].
  eapply NoDup_fmap_1. exact Hnd.
Qed.


(** X3: transactions appended to the input never change the nodes already
    built, which stay a prefix of the node list; when every id the appended
    transactions mention is already a node, no node is added at all, whatever
    data they carry for it, and only their edges are. *)
Theorem X3_graph_append (txs more : list TransactionData) :
  let g := GraphBuilder.buildTransactionGraph txs in
  let g' := GraphBuilder.buildTransactionGraph (txs ++ more) in
  GraphBuilder.nodes g `prefix_of` GraphBuilder.nodes g'
  /\ ((forall tx c, tx ∈ more -> c ∈ GraphBuilder.candidates tx ->
         node_id c ∈ node_id <$> GraphBuilder.nodes g) ->
      GraphBuilder.nodes g' = GraphBuilder.nodes g
      /\ GraphBuilder.edges g'
         = GraphBuilder.edges g ++ flat_map GraphBuilder.txEdges more).
Proof.
  intros g g'. unfold g', GraphBuilder.buildTransactionGraph. rewrite fold_left_app.
  fold (GraphBuilder.buildTransactionGraph txs). fold g. split.
  - apply GraphShape.prefix_fold.
  - intros Hknown. rewrite GraphShape.fold_known; [split; reflexivity|].
    intros tx c Htx Hc.
    apply (GraphBuilder.built_map _ _ _ (GraphBuilderFacts.built_graph txs)).
    pose proof (Hknown tx c Htx Hc) as Hid.
    apply list_elem_of_fmap in Hid as (n & Hid & Hn). eauto.
Qed.

Lemma X3_graph_append_witness :
  let a := purchase "txn_1" "Amazon" in
  let b := purchase "txn_2" "Amazon Marketplace" in
  GraphBuilder.nodes (GraphBuilder.buildTransactionGraph ([a] ++ [b]))
  = GraphBuilder.nodes (GraphBuilder.buildTransactionGraph [a]).
Proof.
  intros a b.
  refine (proj1 (proj2 (X3_graph_append [a] [b]) _)).
  intros tx c Htx Hc. apply list_elem_of_singleton in Htx. subst tx.
  apply GraphBuilderFacts.node_ids_spec. exists a.
  unfold GraphBuilder.candidates in Hc.
  repeat (apply elem_of_cons in Hc as [->|Hc]); [| | | |inversion Hc].
  - exists (GraphBuilder.userNode a). split; [left|].
    split; [apply GraphShape.candidate_user|reflexivity].
  - exists (GraphBuilder.merchantNode a). split; [left|].
    split; [apply GraphShape.candidate_merchant|reflexivity].
  - exists (GraphBuilder.deviceNode a). split; [left|].
    split; [apply GraphShape.candidate_device|reflexivity].
  - exists (GraphBuilder.locationNode a). split; [left|].
    split; [apply GraphShape.candidate_location|reflexivity].
Defined.

(** ** BiometricsProcessor: the device channel in closed form *)

Module BiometricsFacts.

Import Biometrics Reference.

Local Open Scope num_scope.

Lemma sumSquaredDiff_nonneg (cs : list R) : forall bs, (0 <= sumSquaredDiff cs bs)%R.
Proof.
  induction cs as [|c cs IH]; intros [|b bs]; cbn [sumSquaredDiff]; try lra.
  specialize (IH bs). pose proof (Rle_0_sqr (c - b)) as Hsq. unfold Rsqr in Hsq. lra.
Qed.

Lemma get_app_length (pre : list num) (b : num) (post : list num) :
  JS.get (pre ++ b :: post) (length pre) = b.
Proof.
  unfold JS.get. rewrite lookup_app_r by lia.
  replace (length pre - length pre)%nat with 0%nat by lia. reflexivity.
Qed.

Lemma fold_squared_diff (cs : list R) : forall (pre : list num) (bs : list R) (acc : R),
  length cs = length bs ->
  fold_left (fun sum '(idx, val) =>
               let diff := val - JS.get (pre ++ (Fin <$> bs)) idx in
               sum + diff * diff)
            (zip (seq (length pre) (length cs)) (Fin <$> cs)) (Fin acc)
  = Fin (acc + sumSquaredDiff cs bs).
Proof.
  induction cs as [|c cs IH]; intros pre [|b bs] acc Hlen; try discriminate Hlen.
  - simpl. f_equal. lra.
  - cbn [length seq fmap list_fmap zip zip_with fold_left].
    change (Fin b :: (Fin <$> bs)) with (Fin b :: (Fin <$> bs)).
    rewrite get_app_length. cbn [JS.sub JS.add JS.neg JS.mul].
    specialize (IH (pre ++ [Fin b]) bs (acc + (c + - b) * (c + - b))%R).
    rewrite length_app in IH. cbn [length] in IH.
    replace (length pre + 1)%nat with (S (length pre)) in IH by lia.
    rewrite <- app_assoc in IH. cbn [app] in IH.
    rewrite IH by (simpl in Hlen; lia).
    f_equal. simpl. lra.
Qed.

(** [calculateVectorDeviation] on finite vectors of one length: the root
    mean square of the component differences. *)
Lemma calculateVectorDeviation_rms (cs bs : list R) :
  length cs = length bs -> cs <> [] ->
  calculateVectorDeviation (Fin <$> cs) (Fin <$> bs) = Fin (rmsDifference cs bs).
Proof.
  intros Hlen Hne. unfold calculateVectorDeviation.
  rewrite !length_fmap, Hlen, Nat.eqb_refl. cbn [negb].
  pose proof (fold_squared_diff cs [] bs 0 Hlen) as Hfold.
  cbn [app length] in Hfold. rewrite <- Hlen. rewrite Hfold.
  assert (Hn : INR (length cs) <> 0%R).
  { apply not_0_INR. destruct cs; [contradiction|discriminate]. }
  unfold JS.of_nat. rewrite JSFacts.div_fin by exact Hn.
  rewrite JSFacts.sqrt_fin.
  - unfold rmsDifference. do 2 f_equal. lra.
  - apply Rmult_le_pos.
    + pose proof (sumSquaredDiff_nonneg cs bs). lra.
    + apply Rlt_le, Rinv_0_lt_compat. apply lt_0_INR.
      destruct cs; [contradiction|simpl; lia].
Qed.

Lemma calculateVectorDeviation_mismatch (current baseline : list num) :
  length current <> length baseline ->
  calculateVectorDeviation current baseline = Fin 1.
Proof.
  intros H. unfold calculateVectorDeviation.
  apply Nat.eqb_neq in H. rewrite H. reflexivity.
Qed.

Lemma calculateVectorDeviation_fin (cs bs : list R) :
  bs <> [] ->
  calculateVectorDeviation (Fin <$> cs) (Fin <$> bs) = Fin (vectorDeviation cs bs).
Proof.
  intros Hne. unfold vectorDeviation.
  destruct (decide (length cs = length bs)) as [Hlen|Hlen].
  - apply calculateVectorDeviation_rms; [exact Hlen|].
    intros ->. destruct bs; [contradiction|discriminate].
  - apply calculateVectorDeviation_mismatch. rewrite !length_fmap. exact Hlen.
Qed.

End BiometricsFacts.

(** ** C8: the device-sensor channel *)

(** C8, refuted as stated.  The gyroscope reads (5, 5, 5) against a baseline
    of (4, 4, 4): the relative deviation of every component is 0.25, below
    the threshold, yet the code reports a high-severity anomaly, its
    deviation being the absolute one, 1.  The orientation reads 350 against
    a preference of 10: twenty degrees around the circle, 0.056 of a turn,
    yet the code reports an anomaly, its deviation being |350 - 10| / 360. *)
Lemma C8_deviation_is_absolute_and_linear :
  Biometrics.analyzeDeviceSensors turned upright =
    Return
      [ Biometrics.mkAnomaly Biometrics.Device Biometrics.HighSeverity
          Biometrics.UnusualDeviceRotation (Fin 0.95) (Fin 1);
        Biometrics.mkAnomaly Biometrics.Device Biometrics.LowSeverity
          Biometrics.OrientationDiffers (Fin 0.6) (Fin (340 / 360)) ]
  /\ (Reference.relativeRms [5; 5; 5] [4; 4; 4] <= 0.5)%R
  /\ (Reference.circularDeviation 350 10 <= 0.3)%R.
Proof.
  split; [|split].
  - unfold upright, turned. js_eval. repeat f_equal; lra.
  - unfold Reference.relativeRms. cbn [Reference.sumSquaredRelative length INR].
    replace (Rabs (5 - 4)) with 1%R by (rewrite Rabs_pos_eq; lra).
    match goal with
    | |- (sqrt ?x <= _)%R => replace x with (0.25 * 0.25)%R by lra
    end.
    rewrite sqrt_square; lra.
  - unfold Reference.circularDeviation.
    rewrite (Rabs_pos_eq (350 - 10)) by lra. rewrite Rmin_right by lra. lra.
Qed.

(** C8, amended: on finite readings the accelerometer and gyroscope
    deviations are the root mean square of the component differences
    (absolute, not divided by the baseline; 1 when reading and baseline
    differ in length), an anomaly above 0.5, of high severity above 0.8
    and medium otherwise; the orientation deviation is
    |observed - preferred| / 360 (linear, not circular), a low-severity
    anomaly above 0.3. *)
Theorem C8_device_sensor_channel
    (data : BiometricData) (profile : Biometrics.BiometricProfile)
    (accel gyro accelBase gyroBase : list R) (o p : R) :
  deviceSensors data = Some (mkSensors (Fin <$> accel) (Fin <$> gyro) (Fin o)) ->
  Biometrics.accelerometerBaseline (Biometrics.deviceProfile profile) = Fin <$> accelBase ->
  Biometrics.gyroscopeBaseline (Biometrics.deviceProfile profile) = Fin <$> gyroBase ->
  Biometrics.orientationPreference (Biometrics.deviceProfile profile) = Fin p ->
  accelBase <> [] -> gyroBase <> [] ->
  let a := Reference.vectorDeviation accel accelBase in
  let g := Reference.vectorDeviation gyro gyroBase in
  let d := (Rabs (o - p) / 360)%R in
  Biometrics.analyzeDeviceSensors data profile =
    Return
      (Biometrics.pushIf (bool_decide (0.5 < a)%R)
         (Biometrics.mkAnomaly Biometrics.Device
            (if bool_decide (0.8 < a)%R
             then Biometrics.HighSeverity else Biometrics.MediumSeverity)
            Biometrics.UnusualDeviceMovement (Fin (Rmin 0.95 a)) (Fin a))
       ++
       Biometrics.pushIf (bool_decide (0.5 < g)%R)
         (Biometrics.mkAnomaly Biometrics.Device
            (if bool_decide (0.8 < g)%R
             then Biometrics.HighSeverity else Biometrics.MediumSeverity)
            Biometrics.UnusualDeviceRotation (Fin (Rmin 0.95 g)) (Fin g))
       ++
       Biometrics.pushIf (bool_decide (0.3 < d)%R)
         (Biometrics.mkAnomaly Biometrics.Device Biometrics.LowSeverity
            Biometrics.OrientationDiffers (Fin 0.6) (Fin d))).
Proof.
  intros Hds Ha Hg Hp Hna Hng a g d.
  unfold Biometrics.analyzeDeviceSensors, Biometrics.deviceMetrics.
  rewrite Hds. cbn [Biometrics.accelDeviation Biometrics.gyroDeviation
                    Biometrics.orientationDeviation accelerometer gyroscope orientation].
  rewrite Ha, Hg, Hp.
  rewrite !BiometricsFacts.calculateVectorDeviation_fin by assumption.
  fold a g. rewrite JSFacts.sub_fin. cbn [JS.abs].
  rewrite JSFacts.div_fin by lra. fold d.
  rewrite !JSFacts.gtb_fin, !JSFacts.min_fin. reflexivity.
Qed.

(** The theorem at the sample [turned] and the profile [upright]. *)
Lemma C8_device_sensor_witness :
  exists l, Biometrics.analyzeDeviceSensors turned upright = Return l /\ length l = 2%nat.
Proof.
  eexists. split.
  - apply (C8_device_sensor_channel turned upright
             [0; 0; 0]%R [5; 5; 5]%R [0; 0; 0]%R [4; 4; 4]%R 350 10).
    + reflexivity.
    + unfold upright. js_eval. repeat f_equal; lra.
    + unfold upright. js_eval. repeat f_equal; lra.
    + unfold upright. js_eval. f_equal. lra.
    + discriminate.
    + discriminate.
  - unfold Reference.vectorDeviation, Reference.rmsDifference.
    cbn [Reference.sumSquaredDiff length INR].
    rewrite !decide_True by reflexivity.
    rewrite (bool_decide_eq_false_2 (0.5 < sqrt _)%R).
    2:{ match goal with |- context [sqrt ?x] => replace x with 0%R by lra end.
        rewrite sqrt_0. lra. }
    rewrite (bool_decide_eq_true_2 (0.5 < sqrt _)%R).
    2:{ match goal with |- context [sqrt ?x] => replace x with 1%R by lra end.
        rewrite sqrt_1. lra. }
    rewrite (bool_decide_eq_true_2 (0.3 < _)%R).
    2:{ rewrite Rabs_pos_eq; lra. }
    reflexivity.
Defined.

(** ** BiometricsProcessor: what a processed sample leaves behind *)

Module ProfilerFacts.

Import Biometrics.

Local Open Scope num_scope.

Lemma array_get_set_eq (l : list num) (i : nat) (v : num) : JS.get (JS.set l i v) i = v.
Proof.
  unfold JS.get, JS.set. destruct (decide (i < length l)%nat) as [Hlt|Hge].
  - rewrite list_lookup_insert_eq by exact Hlt. reflexivity.
  - rewrite lookup_app_r by lia. rewrite lookup_app_r by (rewrite length_replicate; lia).
    rewrite length_replicate. replace (i - length l - (i - length l))%nat with 0%nat by lia.
    reflexivity.
Qed.

Lemma array_get_set_ne (l : list num) (i j : nat) (v : num) :
  i <> j -> JS.get (JS.set l i v) j = JS.get l j.
Proof.
  intros Hne. unfold JS.get, JS.set. destruct (decide (i < length l)%nat) as [Hlt|Hge].
  - rewrite list_lookup_insert_ne by exact Hne. reflexivity.
  - destruct (decide (j < length l)%nat) as [Hj|Hj].
    + rewrite lookup_app_l by exact Hj. reflexivity.
    + rewrite lookup_app_r by lia. rewrite (lookup_ge_None_2 l j) by lia.
      destruct (decide (j - length l < i - length l)%nat) as [Hin|Hout].
      * rewrite lookup_app_l by (rewrite length_replicate; exact Hin).
        rewrite lookup_replicate_2 by exact Hin. reflexivity.
      * rewrite lookup_app_r by (rewrite length_replicate; lia).
        rewrite length_replicate.
        destruct (j - length l - (i - length l))%nat as [|n] eqn:Hd; [lia|].
        reflexivity.
Qed.

(** After the loop of [updateUserProfile], each of the first three
    components is the moving average of its old value and the reading. *)
Lemma baselines_after_loop (alpha : num) (ds : DeviceSensors) (ab gb : list num) (i : nat) :
  (i < 3)%nat ->
  let b := fold_left (updateBaselines alpha ds) (seq 0 3) (ab, gb) in
  JS.get b.1 i = ema alpha (JS.get ab i) (JS.get (accelerometer ds) i) /\
  JS.get b.2 i = ema alpha (JS.get gb i) (JS.get (gyroscope ds) i).
Proof.
  intros Hi. cbn [seq fold_left]. unfold updateBaselines. cbn [fst snd].
  destruct i as [|[|[|i]]]; try lia;
    repeat first [rewrite array_get_set_eq | rewrite array_get_set_ne by lia];
    split; reflexivity.
Qed.

Lemma analyze_present (data : BiometricData) (profile : BiometricProfile)
    (k : KeystrokeDynamics) (mm : MouseMovements) (ds : DeviceSensors) :
  keystrokeDynamics data = Some k ->
  mouseMovements data = Some mm ->
  deviceSensors data = Some ds ->
  exists anomalies, analyze data profile = Return anomalies.
Proof.
  intros Hk Hm Hd.
  unfold analyze, analyzeKeystrokeDynamics, analyzeMouseMovements, analyzeDeviceSensors.
  rewrite Hk, Hm, Hd. cbn. eauto.
Qed.

Lemma analyze_channels (data : BiometricData) (profile : BiometricProfile)
    (anomalies : list BiometricAnomaly) :
  analyze data profile = Return anomalies ->
  exists k mm ds,
    keystrokeDynamics data = Some k /\ mouseMovements data = Some mm
    /\ deviceSensors data = Some ds.
Proof.
  unfold analyze, analyzeKeystrokeDynamics, analyzeMouseMovements, analyzeDeviceSensors.
  destruct (keystrokeDynamics data) as [k|]; [|discriminate].
  destruct (mouseMovements data) as [mm|]; [|discriminate].
  destruct (deviceSensors data) as [ds|]; [|discriminate].
  intros _. eauto 10.
Qed.

(** A call that returns has analysed the sample against the profile it
    found (or drew), and has stored the update of that same profile. *)
Lemma process_return (st st' : State) (data : BiometricData) (env : Env)
    (anomalies : list BiometricAnomaly) :
  processBiometricData st data env = (st', Return anomalies) ->
  exists k mm ds,
    keystrokeDynamics data = Some k /\ mouseMovements data = Some mm
    /\ deviceSensors data = Some ds
    /\ analyze data (profileFor st data env) = Return anomalies
    /\ userProfiles st' !! bio_userId data
       = Some (updateUserProfile k mm ds (updatedAt env) (profileFor st data env)).
Proof.
  unfold processBiometricData.
  destruct (analyze data (profileFor st data env)) as [l|e] eqn:Han; [|discriminate].
  destruct (analyze_channels _ _ _ Han) as (k & mm & ds & Hk & Hm & Hd).
  rewrite Hk, Hm, Hd. intros H. injection H as <- <-.
  exists k, mm, ds. repeat split; try assumption.
  cbn [userProfiles]. apply lookup_insert_eq.
Qed.

Lemma process_present (st : State) (data : BiometricData) (env : Env)
    (k : KeystrokeDynamics) (mm : MouseMovements) (ds : DeviceSensors) :
  keystrokeDynamics data = Some k ->
  mouseMovements data = Some mm ->
  deviceSensors data = Some ds ->
  exists st' anomalies, processBiometricData st data env = (st', Return anomalies).
Proof.
  intros Hk Hm Hd.
  destruct (analyze_present data (profileFor st data env) k mm ds Hk Hm Hd) as [l Hl].
  unfold processBiometricData. rewrite Hl, Hk, Hm, Hd. eauto.
Qed.

Lemma process_throw (st st' : State) (data : BiometricData) (env : Env) (e : Exn) :
  processBiometricData st data env = (st', Throw e) ->
  st' = register st data env.
Proof.
  unfold processBiometricData.
  destruct (analyze data (profileFor st data env)) as [l|e'] eqn:Han.
  - destruct (analyze_channels _ _ _ Han) as (k & mm & ds & Hk & Hm & Hd).
    rewrite Hk, Hm, Hd. discriminate.
  - intros H. injection H as <- _. reflexivity.
Qed.

Lemma profileFor_fresh (data : BiometricData) (env : Env) :
  bio_userId data = "user_001" -> profileFor fresh data env = baseline.
Proof.
  intros Hid. unfold profileFor, fresh, initial, baselineUsers.
  cbn [userProfiles fold_left]. rewrite Hid.
  rewrite !lookup_insert_ne by discriminate. rewrite lookup_insert_eq. reflexivity.
Qed.

End ProfilerFacts.

(** ** C6: scoring against the old profile, then the update *)

(** C6, refuted as stated: the orientation preference is a numeric baseline
    (the orientation deviation is measured against it), and the update
    leaves it at 180 where the moving average with the reading 90 is 171.
    The same holds for the preferred click speed, the two variances and
    the device stability. *)
Lemma C6_orientation_preference_not_averaged :
  exists st' anomalies post,
    Biometrics.processBiometricData fresh sideways halves = (st', Return anomalies)
    /\ Biometrics.userProfiles st' !! "user_001" = Some post
    /\ Biometrics.orientationPreference (Biometrics.deviceProfile post) = Fin 180
    /\ Biometrics.ema (Fin 0.1) (Fin 180) (Fin 90) = Fin 171.
Proof.
  destruct (ProfilerFacts.process_present fresh sideways halves _ _ _
              eq_refl eq_refl eq_refl) as (st' & anomalies & Hrun).
  destruct (ProfilerFacts.process_return _ _ _ _ _ Hrun)
    as (k & mm & ds & Hk & Hm & Hd & _ & Hpost).
  exists st', anomalies. eexists. split; [exact Hrun|]. split; [exact Hpost|]. split.
  - rewrite (ProfilerFacts.profileFor_fresh sideways halves eq_refl).
    cbn. f_equal. lra.
  - cbn. f_equal. lra.
Qed.

(** On finite values the moving average with rate 0.1 is
    [0.9 * old + 0.1 * sample]. *)
Lemma ema_tenth (old sample : R) :
  Biometrics.ema (Fin 0.1) (Fin old) (Fin sample) = Fin (0.9 * old + 0.1 * sample).
Proof. cbn. f_equal. lra. Qed.

(** C6, amended: every anomaly is computed against the profile as it was
    before the update (the stored profile, or the fresh baseline of a new
    user); afterwards the stored profile is that profile with the moving
    average at rate 0.1 applied to the mean dwell and flight times, the
    preferred typing speed, the mean mouse velocity and acceleration and
    the first three components of the accelerometer and gyroscope
    baselines, with [sessionCount] one higher and the confidence set to
    [min(0.95, confidence + 0.01)]; the variances, the preferred click
    speed, the orientation preference and the device stability are left
    as they were. *)
Theorem C6_update_follows_scoring
    (st st' : Biometrics.State) (data : BiometricData) (env : Biometrics.Env)
    (anomalies : list Biometrics.BiometricAnomaly) :
  Biometrics.processBiometricData st data env = (st', Return anomalies) ->
  let pre := Biometrics.profileFor st data env in
  let alpha := Fin 0.1 in
  exists k mm ds post,
    keystrokeDynamics data = Some k /\ mouseMovements data = Some mm
    /\ deviceSensors data = Some ds
    /\ Biometrics.analyze data pre = Return anomalies
    /\ Biometrics.userProfiles st' !! bio_userId data = Some post
    /\ Biometrics.avgDwellTime (Biometrics.keystrokeProfile post)
       = Biometrics.ema alpha (Biometrics.avgDwellTime (Biometrics.keystrokeProfile pre))
                        (Biometrics.mean (dwellTimes k))
    /\ Biometrics.avgFlightTime (Biometrics.keystrokeProfile post)
       = Biometrics.ema alpha (Biometrics.avgFlightTime (Biometrics.keystrokeProfile pre))
                        (Biometrics.mean (flightTimes k))
    /\ Biometrics.preferredTypingSpeed (Biometrics.keystrokeProfile post)
       = Biometrics.ema alpha
           (Biometrics.preferredTypingSpeed (Biometrics.keystrokeProfile pre))
           (typingSpeed k)
    /\ Biometrics.avgVelocity (Biometrics.mouseProfile post)
       = Biometrics.ema alpha (Biometrics.avgVelocity (Biometrics.mouseProfile pre))
                        (Biometrics.mean (velocity mm))
    /\ Biometrics.avgAcceleration (Biometrics.mouseProfile post)
       = Biometrics.ema alpha (Biometrics.avgAcceleration (Biometrics.mouseProfile pre))
                        (Biometrics.mean (acceleration mm))
    /\ (forall i, (i < 3)%nat ->
          JS.get (Biometrics.accelerometerBaseline (Biometrics.deviceProfile post)) i
          = Biometrics.ema alpha
              (JS.get (Biometrics.accelerometerBaseline (Biometrics.deviceProfile pre)) i)
              (JS.get (accelerometer ds) i)
          /\ JS.get (Biometrics.gyroscopeBaseline (Biometrics.deviceProfile post)) i
             = Biometrics.ema alpha
                 (JS.get (Biometrics.gyroscopeBaseline (Biometrics.deviceProfile pre)) i)
                 (JS.get (gyroscope ds) i))
    /\ Biometrics.dwellTimeVariance (Biometrics.keystrokeProfile post)
       = Biometrics.dwellTimeVariance (Biometrics.keystrokeProfile pre)
    /\ Biometrics.flightTimeVariance (Biometrics.keystrokeProfile post)
       = Biometrics.flightTimeVariance (Biometrics.keystrokeProfile pre)
    /\ Biometrics.preferredClickSpeed (Biometrics.mouseProfile post)
       = Biometrics.preferredClickSpeed (Biometrics.mouseProfile pre)
    /\ Biometrics.orientationPreference (Biometrics.deviceProfile post)
       = Biometrics.orientationPreference (Biometrics.deviceProfile pre)
    /\ Biometrics.deviceStability (Biometrics.deviceProfile post)
       = Biometrics.deviceStability (Biometrics.deviceProfile pre)
    /\ Biometrics.sessionCount post = (Biometrics.sessionCount pre + 1)%Z
    /\ Biometrics.confidence post
       = JS.min (Fin 0.95) (JS.add (Biometrics.confidence pre) (Fin 0.01)).
Proof.
  intros Hrun pre alpha.
  destruct (ProfilerFacts.process_return _ _ _ _ _ Hrun)
    as (k & mm & ds & Hk & Hm & Hd & Han & Hpost).
  exists k, mm, ds. eexists.
  split; [exact Hk|]. split; [exact Hm|]. split; [exact Hd|].
  split; [exact Han|]. split; [exact Hpost|].
  repeat match goal with |- _ /\ _ => split end; try reflexivity.
  intros i Hi.
  exact (ProfilerFacts.baselines_after_loop alpha ds _ _ i Hi).
Qed.

(** The theorem at a sample of [user_001], right after construction. *)
Lemma C6_update_follows_scoring_witness :
  exists st' anomalies post,
    Biometrics.processBiometricData fresh sideways halves = (st', Return anomalies)
    /\ Biometrics.userProfiles st' !! "user_001" = Some post
    /\ Biometrics.sessionCount post
       = (Biometrics.sessionCount (Biometrics.profileFor fresh sideways halves) + 1)%Z.
Proof.
  destruct (ProfilerFacts.process_present fresh sideways halves _ _ _
              eq_refl eq_refl eq_refl) as (st' & anomalies & Hrun).
  destruct (C6_update_follows_scoring _ _ _ _ _ Hrun)
    as (k & mm & ds & post & _ & _ & _ & _ & Hpost & H).
  exists st', anomalies, post. split; [exact Hrun|]. split; [exact Hpost|].
  apply H.
Defined.

(** ** The scorer in closed form *)

Module ScorerFacts.

Import GNN Reference.

Local Open Scope num_scope.

Lemma rules_range (transaction : TransactionData) (hour : Z) :
  (0 <= rules transaction hour <= 1.2)%R.
Proof.
  unfold rules, indicator.
  destruct (amount transaction >? Fin 1000), (amount transaction >? Fin 5000),
    (nightHour hour), (isAtm transaction && (amount transaction >? Fin 500)); lra.
Qed.

Lemma computeFraudScore_sum (transaction : TransactionData) (hour : Z) (random : R) :
  computeFraudScore transaction hour random
  = Fin (rules transaction hour + random * 0.2).
Proof.
  unfold computeFraudScore, rules, indicator, bump.
  destruct (amount transaction >? Fin 1000), (amount transaction >? Fin 5000),
    (nightHour hour), (isAtm transaction && (amount transaction >? Fin 500));
    cbn; f_equal; lra.
Qed.

(** What [predictFraud] returns when the three channels are there. *)
Lemma predictFraud_return (transaction : TransactionData) (biometric : BiometricData)
    (env : Env) (k : KeystrokeDynamics) (mm : MouseMovements) (ds : DeviceSensors) :
  keystrokeDynamics biometric = Some k ->
  mouseMovements biometric = Some mm ->
  deviceSensors biometric = Some ds ->
  let p := Rmax 0 (Rmin 1 (rules transaction (scoreHour env) + noise env * 0.2)) in
  predictFraud transaction biometric env =
    Return {| transactionId := tx_id transaction;
              fraudProbability := Fin p;
              riskLevel := riskOf (Fin p);
              explanation :=
                generateExplanation transaction k (explainHour env) (Fin p);
              confidence := Fin (certainty env * 0.3 + 0.7) |}.
Proof.
  intros Hk Hm Hd p. unfold predictFraud. rewrite Hk, Hm, Hd.
  rewrite computeFraudScore_sum, JSFacts.min_fin, JSFacts.max_fin. reflexivity.
Qed.

Lemma predictFraud_inv (transaction : TransactionData) (biometric : BiometricData)
    (env : Env) (prediction : FraudPrediction) :
  predictFraud transaction biometric env = Return prediction ->
  exists p, (0 <= p <= 1)%R
    /\ fraudProbability prediction = Fin p
    /\ riskLevel prediction = riskOf (Fin p).
Proof.
  unfold predictFraud.
  destruct (keystrokeDynamics biometric) as [k|]; [|discriminate].
  destruct (mouseMovements biometric) as [mm|]; [|discriminate].
  destruct (deviceSensors biometric) as [ds|]; [|discriminate].
  rewrite computeFraudScore_sum, JSFacts.min_fin, JSFacts.max_fin.
  intros H. injection H as <-. eexists. split; [|split; reflexivity].
  unfold Rmax, Rmin. repeat destruct (Rle_dec _ _); lra.
Qed.

Lemma riskOf_fin (p : R) :
  riskOf (Fin p) =
  if bool_decide (0.7 < p)%R then High
  else if bool_decide (0.4 < p)%R then Medium else Low.
Proof. reflexivity. Qed.

End ScorerFacts.

(** ** C4: the rule score and the night-time ATM scenario *)

(** C4, refuted as stated: a withdrawal of 6000 at an ATM whose own
    timestamp says 2 o'clock, scored while the server clock says 14.  The
    hour the scorer tests is the server's, read from the clock when it
    scores: the night-time contribution is missing from the score and the
    explanation has no unusual-time entry. *)
Lemma C4_hour_is_the_clock_not_the_transaction :
  let transaction := withdrawal (mkDate 1700000000000 2) in
  let env := GNN.mkEnv 14 14 0 0.5 in
  getHours (tx_timestamp transaction) = 2%Z
  /\ GNN.computeFraudScore transaction (GNN.scoreHour env) (GNN.noise env) = Fin 1
  /\ exists prediction,
       GNN.predictFraud transaction calm env = Return prediction
       /\ GNN.explanation prediction = [GNN.HighAmount (Fin 6000); GNN.LargeATM (Fin 6000)].
Proof.
  intros transaction env. split; [reflexivity|]. split.
  - unfold transaction, env, withdrawal. js_eval. f_equal. lra.
  - eexists. split.
    + unfold transaction, env, withdrawal, calm. js_eval. reflexivity.
    + unfold transaction, withdrawal. js_eval. reflexivity.
Qed.

(** C4, amended: with "hour" read as the hour of the server clock at the
    moment of scoring (the transaction's timestamp is not consulted), the
    score is the sum of the rule contributions and of a noise term in
    [0, 0.2), the probability is that score clipped to [0, 1]; and a
    transaction of 6000 at an "atm" merchant scored at 2 o'clock is rated
    high by the scorer and by the route, with a high-amount and an
    unusual-time entry in its explanation. *)
Theorem C4_rule_score_and_night_atm
    (transaction : TransactionData) (biometric : BiometricData) (env : GNN.Env)
    (k : KeystrokeDynamics) (mm : MouseMovements) (ds : DeviceSensors) :
  keystrokeDynamics biometric = Some k ->
  mouseMovements biometric = Some mm ->
  deviceSensors biometric = Some ds ->
  (0 <= GNN.noise env < 1)%R ->
  let contributions :=
    (0.3 * Reference.indicator (JS.gtb (amount transaction) (Fin 1000))
     + 0.4 * Reference.indicator (JS.gtb (amount transaction) (Fin 5000))
     + 0.2 * Reference.indicator
               ((GNN.scoreHour env <? 6)%Z || (GNN.scoreHour env >? 22)%Z)
     + 0.3 * Reference.indicator
               (bool_decide (category (merchant transaction) = "atm")
                && JS.gtb (amount transaction) (Fin 500)))%R in
  let bounded := (GNN.noise env * 0.2)%R in
  exists prediction,
    GNN.predictFraud transaction biometric env = Return prediction
    /\ GNN.computeFraudScore transaction (GNN.scoreHour env) (GNN.noise env)
       = Fin (contributions + bounded)
    /\ (0 <= bounded < 0.2)%R
    /\ GNN.fraudProbability prediction = Fin (Rmax 0 (Rmin 1 (contributions + bounded)))
    /\ (amount transaction = Fin 6000 ->
        category (merchant transaction) = "atm" ->
        GNN.scoreHour env = 2%Z -> GNN.explainHour env = 2%Z ->
        GNN.riskLevel prediction = GNN.High
        /\ GNN.HighAmount (Fin 6000) ∈ GNN.explanation prediction
        /\ GNN.UnusualTime 2 ∈ GNN.explanation prediction
        /\ forall anomalies,
             GNN.riskOf (Api.adjust (GNN.fraudProbability prediction) anomalies)
             = GNN.High).
Proof.
  intros Hk Hm Hd Hnoise contributions bounded.
  eexists. split; [apply (ScorerFacts.predictFraud_return _ _ _ k mm ds Hk Hm Hd)|].
  split; [apply ScorerFacts.computeFraudScore_sum|].
  split; [unfold bounded; lra|]. split; [reflexivity|].
  intros Hamount Hatm Hscore Hexplain.
  cbn [GNN.riskLevel GNN.explanation GNN.fraudProbability].
  assert (Hrules : Reference.rules transaction (GNN.scoreHour env) = 1.2%R).
  { unfold Reference.rules, GNN.isAtm, GNN.nightHour.
    rewrite Hamount, Hatm, Hscore. js_eval. lra. }
  rewrite Hrules.
  assert (Hp : Rmax 0 (Rmin 1 (1.2 + GNN.noise env * 0.2)) = 1%R).
  { rewrite Rmin_left by lra. rewrite Rmax_right by lra. reflexivity. }
  rewrite Hp. split; [|split; [|split]].
  - rewrite ScorerFacts.riskOf_fin. rewrite bool_decide_eq_true_2 by lra. reflexivity.
  - unfold GNN.generateExplanation. rewrite Hamount. js_eval.
    apply list_elem_of_here.
  - unfold GNN.generateExplanation, GNN.nightHour. rewrite Hamount, Hexplain. js_eval.
    apply list_elem_of_further, list_elem_of_here.
  - intros anomalies. unfold Api.adjust, JS.of_nat. cbn [JS.mul JS.add].
    rewrite JSFacts.min_fin, ScorerFacts.riskOf_fin.
    pose proof (pos_INR (Api.countSeverity Biometrics.HighSeverity anomalies)).
    pose proof (pos_INR (Api.countSeverity Biometrics.MediumSeverity anomalies)).
    rewrite Rmin_left by lra. rewrite bool_decide_eq_true_2 by lra. reflexivity.
Qed.

(** The theorem at the withdrawal scored at 2 o'clock. *)
Lemma C4_rule_score_witness :
  exists prediction,
    GNN.predictFraud (withdrawal (mkDate 1700000000000 2)) calm (GNN.mkEnv 2 2 0 0.5)
    = Return prediction
    /\ GNN.riskLevel prediction = GNN.High
    /\ GNN.UnusualTime 2 ∈ GNN.explanation prediction.
Proof.
  destruct (C4_rule_score_and_night_atm
              (withdrawal (mkDate 1700000000000 2)) calm (GNN.mkEnv 2 2 0 0.5)
              _ _ _ eq_refl eq_refl eq_refl)
    as (prediction & Hrun & _ & _ & _ & Hscenario).
  - cbn. lra.
  - exists prediction. split; [exact Hrun|].
    destruct (Hscenario eq_refl eq_refl eq_refl eq_refl) as (Hrisk & _ & Htime & _).
    split; assumption.
Defined.

(** ** The routes: what a verdict is made of *)

Module RouteFacts.

Import Biometrics GNN Api.

Local Open Scope num_scope.

Lemma adjust_fin (q : R) (anomalies : list BiometricAnomaly) :
  adjust (Fin q) anomalies
  = Fin (Rmin 1 (q + INR (countSeverity HighSeverity anomalies) * 0.2
                   + INR (countSeverity MediumSeverity anomalies) * 0.1)).
Proof. unfold adjust, JS.of_nat. cbn [JS.mul JS.add]. apply JSFacts.min_fin. Qed.

Lemma adjust_range (q : R) (anomalies : list BiometricAnomaly) :
  (0 <= q)%R ->
  exists a, adjust (Fin q) anomalies = Fin a /\ (0 <= a <= 1)%R.
Proof.
  intros Hq. rewrite adjust_fin. eexists. split; [reflexivity|].
  pose proof (pos_INR (countSeverity HighSeverity anomalies)).
  pose proof (pos_INR (countSeverity MediumSeverity anomalies)).
  unfold Rmin. destruct (Rle_dec _ _); lra.
Qed.

(** A verdict of the single route: the anomalies are those the profiler
    returns, the prediction is the scorer's, the risk level is the band of
    the adjusted probability, the probability returned is its rounding. *)
Lemma POST_verdict (st st' : State) (body : ScoreRequest) (env : Env)
    (v : FraudDetectionResponse) :
  POST st body env = (st', Verdict v) ->
  exists transaction biometric anomalies prediction p a,
    req_transaction body = Some transaction
    /\ req_biometric body = Some biometric
    /\ processBiometricData st biometric (profiler env) = (st', Return anomalies)
    /\ predictFraud transaction biometric (scorer env) = Return prediction
    /\ fraudProbability prediction = Fin p
    /\ adjust (fraudProbability prediction) anomalies = Fin a
    /\ (0 <= a <= 1)%R
    /\ res_fraudProbability v = round2 (adjust (fraudProbability prediction) anomalies)
    /\ res_riskLevel v = riskOf (adjust (fraudProbability prediction) anomalies).
Proof.
  unfold POST.
  destruct (req_transaction body) as [transaction|]; [|discriminate].
  destruct (req_biometric body) as [biometric|]; [|discriminate].
  destruct (processBiometricData st biometric (profiler env)) as [st1 [anomalies|e]]
    eqn:Hproc; [|discriminate].
  destruct (predictFraud transaction biometric (scorer env)) as [prediction|e] eqn:Hp;
    [|discriminate].
  intros H. injection H as <- <-. cbn [res_fraudProbability res_riskLevel].
  destruct (ScorerFacts.predictFraud_inv _ _ _ _ Hp) as (p & Hrange & Hprob & _).
  destruct (adjust_range p anomalies (proj1 Hrange)) as (a & Ha & Harange).
  exists transaction, biometric, anomalies, prediction, p, a.
  rewrite Hprob. repeat (split; [reflexivity || assumption|]). reflexivity.
Qed.

(** The hundredths a probability in [0, 1] rounds to, and the band its
    unrounded value is in. *)
Lemma rounded_band (a : R) :
  (0 <= a <= 1)%R ->
  exists z : Z,
    round2 (Fin a) = Fin (IZR z / 100)
    /\ (0 <= z <= 100)%Z
    /\ (IZR z - / 2 <= a * 100 < IZR z + / 2)%R.
Proof.
  intros Ha. destruct (JSFacts.round_hundredths a) as (z & Hz & Hbound).
  exists z. split; [exact Hz|]. split; [|lra].
  split.
  - assert (H : (IZR (-1) < IZR z)%R) by lra. apply lt_IZR in H. lia.
  - assert (H : (IZR z < IZR 101)%R) by lra. apply lt_IZR in H. lia.
Qed.

End RouteFacts.

(** ** C1: the probability and the risk band of a verdict *)

(** The calm sample of [user_001] raises no anomaly. *)
Lemma calm_is_clean :
  exists st', Biometrics.processBiometricData fresh calm halves = (st', Return []).
Proof.
  eexists. unfold Biometrics.processBiometricData.
  rewrite (ProfilerFacts.profileFor_fresh calm halves eq_refl).
  unfold baseline, calm. js_eval. reflexivity.
Qed.

Lemma largePurchase_verdict :
  exists st' v,
    Api.POST fresh (request largePurchase calm) (atNoon 0.02) = (st', Api.Verdict v)
    /\ Api.res_fraudProbability v = Fin 0.7
    /\ Api.res_riskLevel v = GNN.High.
Proof.
  destruct calm_is_clean as [st' Hclean].
  exists st'. eexists. split; [|split].
  - unfold Api.POST, request, atNoon.
    cbn [Api.req_transaction Api.req_biometric Api.profiler]. rewrite Hclean.
    unfold largePurchase, calm. js_eval. reflexivity.
  - cbn [Api.res_fraudProbability].
    replace (Zfloor _) with 70%Z by (symmetry; apply Zfloor_eq; lra).
    f_equal. lra.
  - reflexivity.
Qed.

(** C1, refuted as stated: the adjusted probability is 0.704, so the risk
    level is high; the probability returned is its rounding, 0.7, which
    does not exceed 0.7. *)
Lemma C1_rounded_probability_leaves_band :
  exists st' v,
    Api.POST fresh (request largePurchase calm) (atNoon 0.02) = (st', Api.Verdict v)
    /\ Api.res_fraudProbability v = Fin 0.7
    /\ JS.gtb (Api.res_fraudProbability v) (Fin 0.7) = false
    /\ Api.res_riskLevel v = GNN.High.
Proof.
  destruct largePurchase_verdict as (st' & v & Hrun & Hprob & Hrisk).
  exists st', v. split; [exact Hrun|]. split; [exact Hprob|]. split; [|exact Hrisk].
  rewrite Hprob. cbn. apply bool_decide_eq_false_2. lra.
Qed.

(** C1, amended: the probability a verdict returns lies in [0, 1] and is
    the adjusted probability rounded to hundredths, while the risk level
    is the band of the adjusted probability before rounding.  The adjusted
    probability is the scorer's probability plus 0.2 for every anomaly of
    high severity and 0.1 for every anomaly of medium severity that the
    profiler returns for the sample, capped at 1.  In terms of the returned
    value: above 0.7 the level is high, strictly between 0.4 and 0.7 it is
    medium, below 0.4 it is low; at exactly 0.7 it is high or medium, and at
    exactly 0.4 medium or low. *)
Theorem C1_probability_range_and_band
    (st st' : Biometrics.State) (body : Api.ScoreRequest) (env : Api.Env)
    (v : Api.FraudDetectionResponse) :
  Api.POST st body env = (st', Api.Verdict v) ->
  exists transaction biometric anomalies prediction (scored returned adjusted : R),
    Api.req_transaction body = Some transaction
    /\ Api.req_biometric body = Some biometric
    /\ Biometrics.processBiometricData st biometric (Api.profiler env)
       = (st', Return anomalies)
    /\ GNN.predictFraud transaction biometric (Api.scorer env) = Return prediction
    /\ GNN.fraudProbability prediction = Fin scored
    /\ Api.adjust (GNN.fraudProbability prediction) anomalies = Fin adjusted
    /\ adjusted
       = Rmin 1 (scored
                 + INR (Api.countSeverity Biometrics.HighSeverity anomalies) * 0.2
                 + INR (Api.countSeverity Biometrics.MediumSeverity anomalies) * 0.1)
    /\ Api.res_fraudProbability v = Api.round2 (Fin adjusted)
    /\ Api.res_fraudProbability v = Fin returned
    /\ returned = (IZR (Zfloor (adjusted * 100 + / 2)) / 100)%R
    /\ Api.res_riskLevel v = GNN.riskOf (Fin adjusted)
    /\ (0 <= returned <= 1)%R
    /\ (0 <= adjusted <= 1)%R
    /\ (Rabs (returned - adjusted) <= 0.005)%R
    /\ Api.res_riskLevel v =
         (if bool_decide (0.7 < adjusted)%R then GNN.High
          else if bool_decide (0.4 < adjusted)%R then GNN.Medium else GNN.Low)
    /\ ((0.7 < returned)%R -> Api.res_riskLevel v = GNN.High)
    /\ ((0.4 < returned < 0.7)%R -> Api.res_riskLevel v = GNN.Medium)
    /\ ((returned < 0.4)%R -> Api.res_riskLevel v = GNN.Low)
    /\ (returned = 0.7%R ->
        Api.res_riskLevel v = GNN.High \/ Api.res_riskLevel v = GNN.Medium)
    /\ (returned = 0.4%R ->
        Api.res_riskLevel v = GNN.Medium \/ Api.res_riskLevel v = GNN.Low).
Proof.
  intros Hrun.
  destruct (RouteFacts.POST_verdict _ _ _ _ _ Hrun)
    as (transaction & biometric & anomalies & prediction & p & a
        & Htx & Hbio & Hproc & Hpred & Hp & Hadj & Ha & Hprob & Hrisk).
  destruct (RouteFacts.rounded_band a Ha) as (z & Hz & Hzrange & Hza).
  assert (Hfloor : Zfloor (a * 100 + / 2) = z) by (apply Zfloor_eq; lra).
  exists transaction, biometric, anomalies, prediction, p, (IZR z / 100)%R, a.
  rewrite Hprob, Hrisk, Hadj, Hz, ScorerFacts.riskOf_fin, Hfloor.
  assert (H0 : (IZR 0 <= IZR z)%R) by (apply IZR_le; lia).
  assert (H100 : (IZR z <= IZR 100)%R) by (apply IZR_le; lia).
  do 6 (split; [assumption || reflexivity|]).
  split.
  { rewrite Hp, RouteFacts.adjust_fin in Hadj. injection Hadj as <-. reflexivity. }
  do 4 (split; [reflexivity|]).
  split; [lra|]. split; [exact Ha|].
  split; [unfold Rabs; destruct (Rcase_abs _); lra|].
  split; [reflexivity|].
  split; [|split; [|split; [|split]]].
  - intros Hgt. assert (H : (IZR 70 < IZR z)%R) by lra. apply lt_IZR in H.
    assert (H' : (IZR 71 <= IZR z)%R) by (apply IZR_le; lia).
    rewrite bool_decide_eq_true_2 by lra. reflexivity.
  - intros [Hlo Hhi].
    assert (H1 : (IZR 40 < IZR z)%R) by lra. apply lt_IZR in H1.
    assert (H2 : (IZR z < IZR 70)%R) by lra. apply lt_IZR in H2.
    assert (H1' : (IZR 41 <= IZR z)%R) by (apply IZR_le; lia).
    assert (H2' : (IZR z <= IZR 69)%R) by (apply IZR_le; lia).
    rewrite bool_decide_eq_false_2 by lra.
    rewrite bool_decide_eq_true_2 by lra. reflexivity.
  - intros Hlt. assert (H : (IZR z < IZR 40)%R) by lra. apply lt_IZR in H.
    assert (H' : (IZR z <= IZR 39)%R) by (apply IZR_le; lia).
    rewrite !bool_decide_eq_false_2 by lra. reflexivity.
  - intros Heq. assert (H : IZR z = 70%R) by lra.
    case_bool_decide; [left; reflexivity|right].
    rewrite bool_decide_eq_true_2 by lra. reflexivity.
  - intros Heq. assert (H : IZR z = 40%R) by lra.
    rewrite bool_decide_eq_false_2 by lra.
    case_bool_decide; [left|right]; reflexivity.
Qed.

(** The theorem at the request of the counterexample: the scorer gives
    0.704, no anomaly is added, the level is the band of 0.704 and the
    probability returned is 0.7. *)
Lemma C1_probability_range_witness :
  exists st' v returned adjusted,
    Api.POST fresh (request largePurchase calm) (atNoon 0.02) = (st', Api.Verdict v)
    /\ Api.res_fraudProbability v = Fin returned
    /\ Api.res_riskLevel v = GNN.riskOf (Fin adjusted)
    /\ returned = (IZR (Zfloor (adjusted * 100 + / 2)) / 100)%R
    /\ (0 <= returned <= 1)%R.
Proof.
  destruct largePurchase_verdict as (st' & v & Hrun & _).
  destruct (C1_probability_range_and_band _ _ _ _ _ Hrun)
    as (transaction & biometric & anomalies & prediction & scored & returned & adjusted
        & _ & _ & _ & _ & _ & _ & _ & _ & Hprob & Hret & Hrisk & Hrange & _).
  exists st', v, returned, adjusted. auto.
Defined.

(** ** The batch route: one entry per transaction *)

Module BatchFacts.

Import Biometrics GNN Api.

Local Open Scope num_scope.

Lemma scoreItem_no_error (st : State) (transaction : TransactionData)
    (biometric : BiometricData) (env : Env) (item : BatchItem) :
  (scoreItem st transaction biometric env).2 = Return item ->
  item_error item = None /\ item_transactionId item = tx_id transaction.
Proof.
  unfold scoreItem.
  destruct (processBiometricData st biometric (profiler env)) as [st1 [anomalies|e]];
    cbn [snd]; [|discriminate].
  destruct (predictFraud transaction biometric (scorer env)) as [prediction|e];
    cbn; [|discriminate].
  intros H. injection H as <-. split; reflexivity.
Qed.

Lemma processItem_entry (st : State) (transaction : TransactionData)
    (biometric : option BiometricData) (env : Env) :
  (processItem st transaction biometric env).2
  = entry transaction (outcome st transaction biometric env).
Proof.
  unfold processItem, outcome. destruct biometric as [b|]; [|reflexivity].
  destruct (scoreItem st transaction b env) as [st1 [item|e]]; reflexivity.
Qed.

Lemma processItems_entries (transactions : list TransactionData)
    (biometrics : list (option BiometricData)) (env : nat -> Env) :
  forall st index,
    (processItems st index transactions biometrics env).2
    = zip_with entry transactions (outcomes st index transactions biometrics env).
Proof.
  induction transactions as [|transaction rest IH]; intros st index.
  - reflexivity.
  - cbn [processItems outcomes zip_with].
    pose proof (processItem_entry st transaction (mjoin (biometrics !! index)) (env index))
      as Hentry.
    destruct (processItem st transaction (mjoin (biometrics !! index)) (env index))
      as [st1 item].
    cbn [fst snd] in *. specialize (IH st1 (S index)).
    destruct (processItems st1 (S index) rest biometrics env) as [st2 items].
    cbn [snd] in *. rewrite Hentry, IH. reflexivity.
Qed.

Lemma outcomes_length (transactions : list TransactionData)
    (biometrics : list (option BiometricData)) (env : nat -> Env) :
  forall st index,
    length (outcomes st index transactions biometrics env) = length transactions.
Proof.
  induction transactions as [|transaction rest IH]; intros st index; cbn [outcomes length].
  - reflexivity.
  - rewrite IH. reflexivity.
Qed.

Lemma hasError_outcome (st : State) (transaction : TransactionData)
    (biometric : option BiometricData) (env : Env) :
  hasError (entry transaction (outcome st transaction biometric env))
  = degraded (outcome st transaction biometric env).
Proof.
  unfold outcome. destruct biometric as [b|]; [|reflexivity].
  destruct ((scoreItem st transaction b env).2) as [item|e] eqn:Hscore; [|reflexivity].
  cbn [entry degraded]. unfold hasError.
  rewrite (proj1 (scoreItem_no_error _ _ _ _ _ Hscore)). reflexivity.
Qed.

(** The entries that carry an error are those of the items that did not
    come to a verdict. *)
Lemma errors_degraded (transactions : list TransactionData)
    (biometrics : list (option BiometricData)) (env : nat -> Env) :
  forall st index,
    length (filter (fun r => hasError r = true)
              (zip_with entry transactions
                 (outcomes st index transactions biometrics env)))
    = length (filter (fun o => degraded o = true)
                (outcomes st index transactions biometrics env)).
Proof.
  induction transactions as [|transaction rest IH]; intros st index.
  - reflexivity.
  - cbn [outcomes zip_with]. rewrite !filter_cons.
    rewrite hasError_outcome.
    destruct (decide (degraded _ = true)); cbn [length]; rewrite IH; reflexivity.
Qed.

(** The outcome at position [i] is that of the item processed in the state
    its predecessors have left. *)
Lemma outcomes_lookup (transactions : list TransactionData)
    (biometrics : list (option BiometricData)) (env : nat -> Env) :
  forall st index i transaction,
    transactions !! i = Some transaction ->
    outcomes st index transactions biometrics env !! i
    = Some (outcome (stateBefore st index transactions biometrics env i) transaction
              (mjoin (biometrics !! (index + i)%nat)) (env (index + i)%nat)).
Proof.
  induction transactions as [|t rest IH]; intros st index i transaction Hi.
  - discriminate Hi.
  - destruct i as [|i]; cbn [outcomes stateBefore lookup list_lookup] in *.
    + injection Hi as ->. rewrite Nat.add_0_r. reflexivity.
    + rewrite (IH _ (S index) i transaction Hi).
      replace (S index + i)%nat with (index + S i)%nat by lia. reflexivity.
Qed.

(** A sample with its three channels always comes to a verdict; a sample
    without its keystroke channel never does. *)
Lemma outcome_present (st : State) (transaction : TransactionData)
    (biometric : BiometricData) (env : Env)
    (k : KeystrokeDynamics) (mm : MouseMovements) (ds : DeviceSensors) :
  keystrokeDynamics biometric = Some k ->
  mouseMovements biometric = Some mm ->
  deviceSensors biometric = Some ds ->
  exists item, outcome st transaction (Some biometric) env = Scored item.
Proof.
  intros Hk Hm Hd. unfold outcome, scoreItem.
  destruct (ProfilerFacts.process_present st biometric (profiler env) k mm ds Hk Hm Hd)
    as (st1 & anomalies & ->).
  rewrite (ScorerFacts.predictFraud_return _ _ _ k mm ds Hk Hm Hd). cbn. eauto.
Qed.

Lemma outcome_no_keystrokes (st : State) (transaction : TransactionData)
    (biometric : BiometricData) (env : Env) :
  keystrokeDynamics biometric = None ->
  outcome st transaction (Some biometric) env = Threw TypeError.
Proof.
  intros Hk. unfold outcome, scoreItem, processBiometricData, analyze,
    analyzeKeystrokeDynamics.
  rewrite Hk. reflexivity.
Qed.

(** The state an item leaves is the one [processBiometricData] leaves,
    whether it returns or throws; an item without sample leaves the state
    as it is. *)
Lemma processItem_state (st : State) (transaction : TransactionData)
    (biometric : option BiometricData) (env : Env) :
  (processItem st transaction biometric env).1
  = match biometric with
    | Some b => (processBiometricData st b (profiler env)).1
    | None => st
    end.
Proof.
  unfold processItem, scoreItem. destruct biometric as [b|]; [|reflexivity].
  destruct (processBiometricData st b (profiler env)) as [st1 [anomalies|e]]; cbn [fst].
  - destruct (predictFraud transaction b (scorer env)); reflexivity.
  - reflexivity.
Qed.

Lemma stateBefore_succ (transactions : list TransactionData)
    (biometrics : list (option BiometricData)) (env : nat -> Env) :
  forall st index i transaction,
    transactions !! i = Some transaction ->
    stateBefore st index transactions biometrics env (S i)
    = (processItem (stateBefore st index transactions biometrics env i) transaction
         (mjoin (biometrics !! (index + i)%nat)) (env (index + i)%nat)).1.
Proof.
  induction transactions as [|t rest IH]; intros st index i transaction Hi.
  - discriminate Hi.
  - destruct i as [|i].
    + injection Hi as ->. cbn [stateBefore]. rewrite Nat.add_0_r.
      destruct rest; reflexivity.
    + cbn [lookup list_lookup] in Hi. cbn [stateBefore].
      rewrite (IH _ (S index) i transaction Hi).
      replace (S index + i)%nat with (index + S i)%nat by lia. reflexivity.
Qed.

Lemma processItems_state (transactions : list TransactionData)
    (biometrics : list (option BiometricData)) (env : nat -> Env) :
  forall st index,
    (processItems st index transactions biometrics env).1
    = stateBefore st index transactions biometrics env (length transactions).
Proof.
  induction transactions as [|t rest IH]; intros st index.
  - reflexivity.
  - cbn [processItems stateBefore length].
    destruct (processItem st t (mjoin (biometrics !! index)) (env index)) as [st1 item].
    specialize (IH st1 (S index)).
    destruct (processItems st1 (S index) rest biometrics env) as [st2 items].
    cbn [fst] in *. exact IH.
Qed.

(** A sample with its three channels comes to the verdict made of the
    profiler's anomalies and the scorer's prediction. *)
Lemma scoreItem_complete (st : State) (transaction : TransactionData)
    (biometric : BiometricData) (env : Env)
    (k : KeystrokeDynamics) (mm : MouseMovements) (ds : DeviceSensors) :
  keystrokeDynamics biometric = Some k ->
  mouseMovements biometric = Some mm ->
  deviceSensors biometric = Some ds ->
  exists anomalies prediction,
    (processBiometricData st biometric (profiler env)).2 = Return anomalies
    /\ predictFraud transaction biometric (scorer env) = Return prediction
    /\ (scoreItem st transaction biometric env).2
       = Return {| item_transactionId := tx_id transaction;
                   item_error := None;
                   item_fraudProbability :=
                     round2 (adjust (fraudProbability prediction) anomalies);
                   item_riskLevel := riskOf (adjust (fraudProbability prediction) anomalies);
                   item_explanation := Some (explanation prediction ++ notes anomalies);
                   item_biometricAnomalies := Some (length anomalies);
                   item_confidence := Some (confidence prediction) |}.
Proof.
  intros Hk Hm Hd. unfold scoreItem.
  destruct (ProfilerFacts.process_present st biometric (profiler env) k mm ds Hk Hm Hd)
    as (st1 & anomalies & ->).
  pose proof (ScorerFacts.predictFraud_return transaction biometric (scorer env)
                k mm ds Hk Hm Hd) as Hp. cbv zeta in Hp.
  eexists anomalies, _. split; [reflexivity|]. split; [exact Hp|].
  cbn [snd]. rewrite Hp. reflexivity.
Qed.

(** A sample that lacks a channel makes the processing throw. *)
Lemma scoreItem_incomplete (st : State) (transaction : TransactionData)
    (biometric : BiometricData) (env : Env) :
  complete (Some biometric) = false ->
  exists e, (scoreItem st transaction biometric env).2 = Throw e.
Proof.
  intros Hc. unfold scoreItem.
  destruct (processBiometricData st biometric (profiler env)) as [st1 [anomalies|e]] eqn:Hp.
  - exfalso. destruct (ProfilerFacts.process_return _ _ _ _ _ Hp)
      as (k & mm & ds & Hk & Hm & Hd & _).
    unfold complete in Hc. rewrite Hk, Hm, Hd in Hc. discriminate Hc.
  - cbn [snd]. eauto.
Qed.

Lemma degraded_complete (st : State) (transaction : TransactionData)
    (biometric : option BiometricData) (env : Env) :
  degraded (outcome st transaction biometric env) = negb (complete biometric).
Proof.
  unfold outcome. destruct biometric as [b|]; [|reflexivity].
  destruct (complete (Some b)) eqn:Hc.
  - unfold complete in Hc.
    destruct (keystrokeDynamics b) as [k|] eqn:Hk; [|discriminate].
    destruct (mouseMovements b) as [mm|] eqn:Hm; [|discriminate].
    destruct (deviceSensors b) as [ds|] eqn:Hd; [|discriminate].
    destruct (scoreItem_complete st transaction b env k mm ds Hk Hm Hd)
      as (anomalies & prediction & _ & _ & ->). reflexivity.
  - destruct (scoreItem_incomplete st transaction b env Hc) as [e ->]. reflexivity.
Qed.

(** The items that did not come to a verdict are those whose sample is
    missing or incomplete. *)
Lemma degraded_count (transactions : list TransactionData)
    (biometrics : list (option BiometricData)) (env : nat -> Env) :
  forall st index,
    length (filter (fun o => degraded o = true)
              (outcomes st index transactions biometrics env))
    = length (filter (fun i => complete (mjoin (biometrics !! i)) = false)
                (seq index (length transactions))).
Proof.
  induction transactions as [|t rest IH]; intros st index.
  - reflexivity.
  - cbn [outcomes length seq]. rewrite !filter_cons, degraded_complete.
    destruct (complete (mjoin (biometrics !! index)));
      cbn [negb]; repeat case_decide; try congruence; cbn [length]; rewrite IH; reflexivity.
Qed.

Lemma mapM_app_Some {A B : Type} (f : A -> option B) (l1 l2 : list A) :
  is_Some (mapM f (l1 ++ l2)) -> is_Some (mapM f l2).
Proof.
  rewrite !mapM_is_Some. intros H. apply Forall_app in H. tauto.
Qed.

End BatchFacts.

(** ** C5: a failing item of a batch *)

(** The withdrawal scored at noon is of high risk, whatever the anomalies. *)
Lemma withdrawal_at_noon (at_ : Date) (noise : R) (prediction : GNN.FraudPrediction)
    (anomalies : list Biometrics.BiometricAnomaly) :
  (0 <= noise < 1)%R ->
  GNN.predictFraud (withdrawal at_) calm (Api.scorer (atNoon noise)) = Return prediction ->
  GNN.riskOf (Api.adjust (GNN.fraudProbability prediction) anomalies) = GNN.High.
Proof.
  intros Hnoise Hp.
  rewrite (ScorerFacts.predictFraud_return (withdrawal at_) calm _ _ _ _
             eq_refl eq_refl eq_refl) in Hp.
  injection Hp as <-. cbn [GNN.fraudProbability atNoon Api.scorer GNN.noise GNN.scoreHour].
  assert (Hrules : Reference.rules (withdrawal at_) 12 = 1%R).
  { unfold Reference.rules, GNN.isAtm, GNN.nightHour, withdrawal. js_eval. lra. }
  rewrite Hrules.
  rewrite Rmin_left by lra. rewrite Rmax_right by lra.
  rewrite RouteFacts.adjust_fin, ScorerFacts.riskOf_fin.
  pose proof (pos_INR (Api.countSeverity Biometrics.HighSeverity anomalies)).
  pose proof (pos_INR (Api.countSeverity Biometrics.MediumSeverity anomalies)).
  rewrite Rmin_left by lra. rewrite bool_decide_eq_true_2 by lra. reflexivity.
Qed.

Lemma readable_toJson (t : TransactionData) : Api.readable (Api.toJson t) = Some t.
Proof. destruct t. reflexivity. Qed.




(** ** Insertion-ordered maps and sorting: lookups, members, permutations *)

Module JSMapFacts.

Import JSMap.

Section Lookup.

Context {V : Type}.
Implicit Types (m : t V) (k : string) (v : V).

Lemma get_set_eq m k v : get (set m k v) k = Some v.
Proof.
  induction m as [|[k' v'] m IH]; cbn [set get].
  - rewrite decide_True by reflexivity. reflexivity.
  - destruct (decide (k' = k)) as [->|Hne]; cbn [get].
    + rewrite decide_True by reflexivity. reflexivity.
    + rewrite decide_False by exact Hne. exact IH.
Qed.

Lemma get_set_ne m k k' v : k <> k' -> get (set m k v) k' = get m k'.
Proof.
  intros Hne. induction m as [|[k0 v0] m IH]; cbn [set get].
  - rewrite decide_False by exact Hne. reflexivity.
  - destruct (decide (k0 = k)) as [->|Hk0]; cbn [get].
    + rewrite !decide_False by exact Hne. reflexivity.
    + destruct (decide (k0 = k')); [reflexivity|exact IH].
Qed.

Lemma get_delete_eq m k : get (delete m k) k = None.
Proof.
  induction m as [|[k' v'] m IH]; cbn [delete get].
  - reflexivity.
  - destruct (decide (k' = k)) as [->|Hne]; [exact IH|].
    cbn [get]. rewrite decide_False by exact Hne. exact IH.
Qed.

Lemma get_delete_ne m k k' : k <> k' -> get (delete m k) k' = get m k'.
Proof.
  intros Hne. induction m as [|[k0 v0] m IH]; cbn [delete get].
  - reflexivity.
  - destruct (decide (k0 = k)) as [->|Hk0].
    + rewrite decide_False by exact Hne. exact IH.
    + cbn [get]. destruct (decide (k0 = k')); [reflexivity|exact IH].
Qed.

Lemma has_set m k k' v : has (set m k v) k' = true -> k' = k \/ has m k' = true.
Proof.
  unfold has. destruct (decide (k = k')) as [->|Hne]; [auto|].
  rewrite get_set_ne by exact Hne. auto.
Qed.

Lemma has_set_eq m k v : has (set m k v) k = true.
Proof. unfold has. rewrite get_set_eq. reflexivity. Qed.

Lemma has_set_mono m k k' v : has m k' = true -> has (set m k v) k' = true.
Proof.
  unfold has. destruct (decide (k = k')) as [->|Hne].
  - rewrite get_set_eq. reflexivity.
  - rewrite get_set_ne by exact Hne. auto.
Qed.

Lemma has_delete_eq m k : has (delete m k) k = false.
Proof. unfold has. rewrite get_delete_eq. reflexivity. Qed.

Lemma has_delete m k k' : has m k' = false -> has (delete m k) k' = false.
Proof.
  unfold has. destruct (decide (k = k')) as [->|Hne].
  - rewrite get_delete_eq. reflexivity.
  - rewrite get_delete_ne by exact Hne. auto.
Qed.

Lemma elem_of_set m k v k' v' :
  (k', v') ∈ set m k v -> (k', v') ∈ m \/ (k' = k /\ v' = v).
Proof.
  induction m as [|[k0 v0] m IH]; cbn [set].
  - intros H. apply list_elem_of_singleton in H. injection H as -> ->. auto.
  - destruct (decide (k0 = k)) as [->|Hne]; intros H;
      apply elem_of_cons in H as [H|H].
    + injection H as -> ->. auto.
    + left. apply list_elem_of_further. exact H.
    + left. rewrite H. apply list_elem_of_here.
    + destruct (IH H) as [H'|H']; [left; apply list_elem_of_further; exact H'|auto].
Qed.

Lemma elem_of_set_eq m k v : (k, v) ∈ set m k v.
Proof.
  induction m as [|[k0 v0] m IH]; cbn [set].
  - apply list_elem_of_here.
  - destruct (decide (k0 = k)) as [->|Hne].
    + apply list_elem_of_here.
    + apply list_elem_of_further. exact IH.
Qed.

Lemma elem_of_delete m k k' v' : (k', v') ∈ delete m k -> (k', v') ∈ m.
Proof.
  induction m as [|[k0 v0] m IH]; cbn [delete]; [auto|].
  destruct (decide (k0 = k)) as [->|Hne]; intros H.
  - apply list_elem_of_further. auto.
  - apply elem_of_cons in H as [H|H].
    + rewrite H. apply list_elem_of_here.
    + apply list_elem_of_further. auto.
Qed.

Lemma elem_of_has m k v : (k, v) ∈ m -> has m k = true.
Proof.
  unfold has. induction m as [|[k0 v0] m IH]; intros H.
  - inversion H.
  - cbn [get]. destruct (decide (k0 = k)); [reflexivity|].
    apply elem_of_cons in H as [H|H]; [injection H as -> ->; contradiction|auto].
Qed.

End Lookup.

End JSMapFacts.

Module SortFacts.

Section Sort.

Context {A : Type} (after : A -> A -> bool).

Lemma insertBy_perm (x : A) (l : list A) : insertBy after x l ≡ₚ x :: l.
Proof.
  induction l as [|y l IH]; cbn [insertBy].
  - reflexivity.
  - destruct (after x y); [|reflexivity].
    rewrite IH. apply perm_swap.
Qed.

Lemma sortBy_perm (l : list A) : sortBy after l ≡ₚ l.
Proof.
  unfold sortBy. induction l as [|x l IH]; cbn [foldr].
  - reflexivity.
  - rewrite insertBy_perm, IH. reflexivity.
Qed.

Lemma elem_of_sortBy (x : A) (l : list A) : x ∈ sortBy after l <-> x ∈ l.
Proof. rewrite sortBy_perm. reflexivity. Qed.

Lemma length_sortBy (l : list A) : length (sortBy after l) = length l.
Proof. rewrite sortBy_perm. reflexivity. Qed.

End Sort.

End SortFacts.

(** ** FeedbackSystem: what the calls keep *)

Module FeedbackFacts.

Import GNN Api Feedback.

Local Open Scope num_scope.

Lemma wf_initial (now : Z) : wf (initial now).
Proof.
  split.
  - intros k H. discriminate H.
  - intros k q H. inversion H.
Qed.

Lemma queueModelUpdate_maps (st : State) batch type p now :
  feedbackHistory (queueModelUpdate st batch type p now) = feedbackHistory st
  /\ pendingReviews (queueModelUpdate st batch type p now) = pendingReviews st
  /\ reviewerWorkload (queueModelUpdate st batch type p now) = reviewerWorkload st.
Proof. repeat split. Qed.

Lemma elem_of_queueModelUpdate (st : State) batch type p now u :
  u ∈ updateQueue (queueModelUpdate st batch type p now)
  <-> u ∈ updateQueue st \/ u = mkUpdate batch type p (Some (now + delay p)%Z).
Proof.
  cbn [queueModelUpdate updateQueue].
  rewrite SortFacts.elem_of_sortBy, elem_of_app, list_elem_of_singleton. reflexivity.
Qed.

(** The ways [submitFeedback] can end: the record is refused and nothing
    is written, or it is recorded and the call ends as
    [shouldTriggerImmediateUpdate] does. *)
Lemma submitFeedback_cases (st : State) (feedback : FeedbackData) (now : Z) :
  (exists transactionId label reviewer,
      truthy (fb_transactionId feedback) = Some transactionId
      /\ actualLabel feedback = Some label
      /\ truthy (reviewerId feedback) = Some reviewer
      /\ let st1 := recorded st transactionId reviewer feedback in
         submitFeedback st feedback now =
           match shouldTriggerImmediateUpdate st1 feedback now with
           | Return true =>
               (queueModelUpdate st1 [feedback] Incremental HighPriority now, Return ())
           | Return false => (st1, Return ())
           | Throw e => (st1, Throw e)
           end)
  \/ ((truthy (fb_transactionId feedback) = None \/ actualLabel feedback = None
       \/ truthy (reviewerId feedback) = None)
      /\ submitFeedback st feedback now = (st, Throw InvalidFeedback)).
Proof.
  unfold submitFeedback.
  destruct (truthy (fb_transactionId feedback)) as [tid|]; [|right; auto].
  destruct (actualLabel feedback) as [label|]; [|right; auto].
  destruct (truthy (reviewerId feedback)) as [rid|]; [|right; auto].
  left. exists tid, label, rid. repeat split.
Qed.

(** Whatever [shouldTriggerImmediateUpdate] answers, the three maps are
    those of the recorded state. *)
Lemma submitFeedback_maps (st1 : State) (feedback : FeedbackData) (now : Z) :
  let r := match shouldTriggerImmediateUpdate st1 feedback now with
           | Return true =>
               (queueModelUpdate st1 [feedback] Incremental HighPriority now, Return ())
           | Return false => (st1, Return ())
           | Throw e => (st1, Throw e)
           end in
  feedbackHistory r.1 = feedbackHistory st1
  /\ pendingReviews r.1 = pendingReviews st1
  /\ reviewerWorkload r.1 = reviewerWorkload st1
  /\ (forall u, u ∈ updateQueue st1 -> u ∈ updateQueue r.1).
Proof.
  destruct (shouldTriggerImmediateUpdate st1 feedback now) as [[|]|e]; cbn [fst];
    repeat split; auto.
  intros u Hu. apply elem_of_queueModelUpdate. left. exact Hu.
Qed.

Lemma wf_recorded (st : State) (tid rid : string) (feedback : FeedbackData) :
  wf st -> wf (recorded st tid rid feedback).
Proof.
  intros [Hdis Hkeys]. split; cbn [recorded feedbackHistory pendingReviews].
  - intros k Hk. apply JSMapFacts.has_set in Hk as [->|Hk].
    + apply JSMapFacts.has_delete_eq.
    + apply JSMapFacts.has_delete. auto.
  - intros k q Hq. apply JSMapFacts.elem_of_delete in Hq. auto.
Qed.

Lemma wf_submitFeedback (st : State) (feedback : FeedbackData) (now : Z) :
  wf st -> wf (submitFeedback st feedback now).1.
Proof.
  intros Hwf.
  destruct (submitFeedback_cases st feedback now)
    as [(tid & label & rid & Ht & Hl & Hr & ->)|[_ ->]]; [|exact Hwf].
  destruct (submitFeedback_maps (recorded st tid rid feedback) feedback now)
    as (Hh & Hp & _ & _).
  destruct (wf_recorded st tid rid feedback Hwf) as [H1 H2].
  split; rewrite ?Hh, Hp; assumption.
Qed.

Lemma history_submitFeedback (st : State) (feedback : FeedbackData) (now : Z) (k : string) :
  JSMap.has (feedbackHistory st) k = true ->
  JSMap.has (feedbackHistory (submitFeedback st feedback now).1) k = true.
Proof.
  intros Hk.
  destruct (submitFeedback_cases st feedback now)
    as [(tid & label & rid & Ht & Hl & Hr & ->)|[_ ->]]; [|exact Hk].
  destruct (submitFeedback_maps (recorded st tid rid feedback) feedback now)
    as (-> & _ & _ & _).
  cbn [recorded feedbackHistory]. apply JSMapFacts.has_set_mono; exact Hk.
Qed.

Lemma queue_submitFeedback (st : State) (feedback : FeedbackData) (now : Z)
    (u : ModelUpdateRequest) :
  u ∈ updateQueue st -> u ∈ updateQueue (submitFeedback st feedback now).1.
Proof.
  intros Hu.
  destruct (submitFeedback_cases st feedback now)
    as [(tid & label & rid & Ht & Hl & Hr & ->)|[_ ->]]; [|exact Hu].
  destruct (submitFeedback_maps (recorded st tid rid feedback) feedback now)
    as (_ & _ & _ & Hq).
  apply Hq. exact Hu.
Qed.

(** [submitAll]: the properties of [submitFeedback], one record after the
    other. *)
Lemma wf_submitAll (batch : list FeedbackData) (clock : nat -> Z) :
  forall st i, wf st -> wf (submitAll st i batch clock).1.
Proof.
  induction batch as [|feedback rest IH]; intros st i Hwf; cbn [submitAll].
  - exact Hwf.
  - pose proof (wf_submitFeedback st feedback (clock i) Hwf) as Hwf1.
    destruct (submitFeedback st feedback (clock i)) as [st1 [u|e]]; cbn [fst] in *.
    + apply IH. exact Hwf1.
    + exact Hwf1.
Qed.

Lemma history_submitAll (batch : list FeedbackData) (clock : nat -> Z) (k : string) :
  forall st i,
    JSMap.has (feedbackHistory st) k = true ->
    JSMap.has (feedbackHistory (submitAll st i batch clock).1) k = true.
Proof.
  induction batch as [|feedback rest IH]; intros st i Hk; cbn [submitAll].
  - exact Hk.
  - pose proof (history_submitFeedback st feedback (clock i) k Hk) as Hk1.
    destruct (submitFeedback st feedback (clock i)) as [st1 [u|e]]; cbn [fst] in *.
    + apply IH. exact Hk1.
    + exact Hk1.
Qed.

Lemma queue_submitAll (batch : list FeedbackData) (clock : nat -> Z)
    (u : ModelUpdateRequest) :
  forall st i,
    u ∈ updateQueue st -> u ∈ updateQueue (submitAll st i batch clock).1.
Proof.
  induction batch as [|feedback rest IH]; intros st i Hu; cbn [submitAll].
  - exact Hu.
  - pose proof (queue_submitFeedback st feedback (clock i) u Hu) as Hu1.
    destruct (submitFeedback st feedback (clock i)) as [st1 [v|e]]; cbn [fst] in *.
    + apply IH. exact Hu1.
    + exact Hu1.
Qed.

Lemma wf_submitBatchFeedback (st : State) (batch : list FeedbackData) (clock : nat -> Z) :
  wf st -> wf (submitBatchFeedback st batch clock).1.
Proof.
  intros Hwf. unfold submitBatchFeedback.
  pose proof (wf_submitAll batch clock st 0 Hwf) as Hwf1.
  destruct (submitAll st 0 batch clock) as [st1 [u|e]]; cbn [fst] in *; [|exact Hwf1].
  destruct (5 <=? length batch)%nat; cbn [fst]; [|exact Hwf1].
  destruct Hwf1 as [H1 H2]. split; assumption.
Qed.

Lemma history_submitBatchFeedback (st : State) (batch : list FeedbackData)
    (clock : nat -> Z) (k : string) :
  JSMap.has (feedbackHistory st) k = true ->
  JSMap.has (feedbackHistory (submitBatchFeedback st batch clock).1) k = true.
Proof.
  intros Hk. unfold submitBatchFeedback.
  pose proof (history_submitAll batch clock k st 0 Hk) as Hk1.
  destruct (submitAll st 0 batch clock) as [st1 [u|e]]; cbn [fst] in *; [|exact Hk1].
  destruct (5 <=? length batch)%nat; exact Hk1.
Qed.

(** The loop of [identifyUncertainTransactions] only adds pending queries,
    each under the id of a prediction that has no feedback yet. *)
Lemma scan_spec (predictions : list FraudDetectionResponse)
    (transactions : list TransactionData) :
  forall st queries i st' r,
    scan st queries i predictions transactions = (st', r) ->
    feedbackHistory st' = feedbackHistory st
    /\ updateQueue st' = updateQueue st
    /\ reviewerWorkload st' = reviewerWorkload st
    /\ (forall k q, (k, q) ∈ pendingReviews st' ->
          (k, q) ∈ pendingReviews st
          \/ (q_transactionId q = k /\ JSMap.has (feedbackHistory st) k = false))
    /\ (forall qs, r = Return qs ->
          forall q, q ∈ qs ->
            q ∈ queries \/ JSMap.has (feedbackHistory st) (q_transactionId q) = false).
Proof.
  induction predictions as [|prediction rest IH]; intros st queries i st' r; cbn [scan].
  - intros H. injection H as <- <-. repeat split; auto.
    intros qs Hqs q Hq. injection Hqs as <-. auto.
  - destruct (JSMap.has (feedbackHistory st) (res_transactionId prediction)) eqn:Hhas.
    + apply IH.
    + destruct (transactions !! i) as [transaction|].
      2:{ intros H. injection H as <- <-. repeat split; auto. intros qs Hqs. discriminate. }
      match goal with
      | |- context [if ?c then _ else _] => destruct c
      end; [|apply IH].
      intros H. apply IH in H as (H1 & H2 & H3 & H4 & H5).
      cbn [withPending feedbackHistory updateQueue reviewerWorkload pendingReviews] in *.
      repeat split; auto.
      * intros k q Hq. destruct (H4 k q Hq) as [Hin|Hnew]; [|auto].
        apply JSMapFacts.elem_of_set in Hin as [Hin|[-> ->]]; auto.
      * intros qs Hqs q Hq. destruct (H5 qs Hqs q Hq) as [Hin|Hnew]; [|auto].
        apply elem_of_app in Hin as [Hin|Hin]; [auto|].
        apply list_elem_of_singleton in Hin as ->. auto.
Qed.

Lemma identify_spec (st st' : State) predictions transactions biometrics r :
  identifyUncertainTransactions st predictions transactions biometrics = (st', r) ->
  feedbackHistory st' = feedbackHistory st
  /\ updateQueue st' = updateQueue st
  /\ reviewerWorkload st' = reviewerWorkload st
  /\ (forall k q, (k, q) ∈ pendingReviews st' ->
        (k, q) ∈ pendingReviews st
        \/ (q_transactionId q = k /\ JSMap.has (feedbackHistory st) k = false))
  /\ (forall qs, r = Return qs ->
        (length qs <= 10)%nat
        /\ forall q, q ∈ qs -> JSMap.has (feedbackHistory st) (q_transactionId q) = false).
Proof.
  unfold identifyUncertainTransactions.
  destruct (scan st [] 0 predictions transactions) as [st1 r1] eqn:Hscan.
  apply scan_spec in Hscan as (H1 & H2 & H3 & H4 & H5).
  destruct r1 as [queries|e]; intros H; injection H as <- <-;
    (split; [exact H1|]); (split; [exact H2|]); (split; [exact H3|]);
    (split; [exact H4|]).
  - intros qs Hqs. injection Hqs as <-. split.
    + rewrite length_take. lia.
    + intros q Hq. apply elem_of_take in Hq as (j & Hj & _).
      apply list_elem_of_lookup_2 in Hj. apply SortFacts.elem_of_sortBy in Hj.
      destruct (H5 queries eq_refl q Hj) as [Hnil|Hnew]; [inversion Hnil|exact Hnew].
  - intros qs Hqs. discriminate.
Qed.

Lemma wf_identify (st : State) predictions transactions biometrics :
  wf st -> wf (identifyUncertainTransactions st predictions transactions biometrics).1.
Proof.
  intros [Hdis Hkeys].
  destruct (identifyUncertainTransactions st predictions transactions biometrics)
    as [st' r] eqn:Hrun.
  apply identify_spec in Hrun as (H1 & _ & _ & H4 & _). cbn [fst]. split.
  - intros k Hk. rewrite H1 in Hk.
    destruct (JSMap.has (pendingReviews st') k) eqn:Hp; [|reflexivity].
    unfold JSMap.has in Hp.
    destruct (JSMap.get (pendingReviews st') k) as [q|] eqn:Hget; [|discriminate].
    exfalso.
    assert (Hin : (k, q) ∈ pendingReviews st').
    { clear -Hget. induction (pendingReviews st') as [|[k0 v0] m IH]; [discriminate|].
      cbn [JSMap.get] in Hget. destruct (decide (k0 = k)) as [->|Hne].
      - injection Hget as ->. apply list_elem_of_here.
      - apply list_elem_of_further. auto. }
    destruct (H4 k q Hin) as [Hold|[_ Hnew]].
    + apply JSMapFacts.elem_of_has in Hold. rewrite (Hdis k Hk) in Hold. discriminate.
    + rewrite Hnew in Hk. discriminate.
  - intros k q Hq. destruct (H4 k q Hq) as [Hold|[Hid _]]; auto.
Qed.

Lemma wf_step (st : State) (c : Call) : wf st -> wf (step st c).
Proof.
  intros Hwf. destruct c; cbn [step].
  - apply wf_submitFeedback. exact Hwf.
  - apply wf_submitBatchFeedback. exact Hwf.
  - apply wf_identify. exact Hwf.
  - destruct Hwf as [H1 H2]. split; assumption.
  - destruct Hwf as [H1 H2]. split; assumption.
Qed.

Lemma history_step (st : State) (c : Call) (k : string) :
  JSMap.has (feedbackHistory st) k = true ->
  JSMap.has (feedbackHistory (step st c)) k = true.
Proof.
  intros Hk. destruct c; cbn [step].
  - apply history_submitFeedback. exact Hk.
  - apply history_submitBatchFeedback. exact Hk.
  - destruct (identifyUncertainTransactions st predictions transactions biometrics)
      as [st' r] eqn:Hrun.
    apply identify_spec in Hrun as (H1 & _). cbn [fst]. rewrite H1. exact Hk.
  - exact Hk.
  - exact Hk.
Qed.

Lemma wf_run (calls : list Call) : forall st, wf st -> wf (run st calls).
Proof.
  unfold run. induction calls as [|c calls IH]; intros st Hwf; cbn [fold_left].
  - exact Hwf.
  - apply IH, wf_step, Hwf.
Qed.

Lemma history_run (calls : list Call) (k : string) : forall st,
  JSMap.has (feedbackHistory st) k = true ->
  JSMap.has (feedbackHistory (run st calls)) k = true.
Proof.
  unfold run. induction calls as [|c calls IH]; intros st Hk; cbn [fold_left].
  - exact Hk.
  - apply IH, history_step, Hk.
Qed.

Lemma truthy_absent (field : option string) :
  truthy field = None <-> absent field.
Proof.
  unfold truthy, absent. destruct field as [s|]; [|tauto].
  destruct (String.eqb_spec s ""); split.
  - intros _. right. congruence.
  - reflexivity.
  - discriminate.
  - intros [H|H]; [discriminate|congruence].
Qed.

Lemma truthy_Some (field : option string) (s : string) :
  truthy field = Some s -> field = Some s.
Proof.
  unfold truthy. destruct field as [s'|]; [|discriminate].
  destruct (String.eqb s' ""); [discriminate|]. auto.
Qed.

Lemma valid_truthy (feedback : FeedbackData) :
  valid feedback ->
  exists tid label rid,
    truthy (fb_transactionId feedback) = Some tid
    /\ actualLabel feedback = Some label
    /\ truthy (reviewerId feedback) = Some rid.
Proof.
  intros (Ht & Hl & Hr).
  destruct (truthy (fb_transactionId feedback)) as [tid|] eqn:Et;
    [|exfalso; apply Ht, truthy_absent, Et].
  destruct (actualLabel feedback) as [label|]; [|contradiction].
  destruct (truthy (reviewerId feedback)) as [rid|] eqn:Er;
    [|exfalso; apply Hr, truthy_absent, Er].
  eauto 10.
Qed.

(** Reading the timestamps of the history: a [TypeError] as soon as one of
    them is not a [Date], a list otherwise. *)
Lemma lastHour_dated (now : Z) (values : list FeedbackData) :
  Forall dated values -> exists recent, lastHour now values = Return recent.
Proof.
  induction 1 as [|f rest Hf _ [recent IH]]; cbn [lastHour]; [eauto|].
  destruct (reviewTimestamp f) as [t|] eqn:Et; [|contradiction].
  rewrite IH. cbn. eauto.
Qed.

Lemma lastHour_undated (now : Z) (values : list FeedbackData) :
  ~ Forall dated values -> lastHour now values = Throw TypeError.
Proof.
  induction values as [|f rest IH]; intros Hnot; cbn [lastHour].
  - exfalso. apply Hnot. constructor.
  - destruct (reviewTimestamp f) as [t|] eqn:Et; [|reflexivity].
    rewrite IH; [reflexivity|]. intros Hrest. apply Hnot. constructor; [|exact Hrest].
    unfold dated. congruence.
Qed.

(** How [shouldTriggerImmediateUpdate] ends. *)
Lemma trigger_bank (st : State) (feedback : FeedbackData) (now : Z) :
  bankConfirmed feedback = true ->
  shouldTriggerImmediateUpdate st feedback now = Return true.
Proof.
  unfold bankConfirmed, shouldTriggerImmediateUpdate. intros ->. reflexivity.
Qed.

Lemma trigger_undated (st : State) (feedback : FeedbackData) (now : Z) :
  bankConfirmed feedback = false ->
  ~ Forall dated (JSMap.values (feedbackHistory st)) ->
  shouldTriggerImmediateUpdate st feedback now = Throw TypeError.
Proof.
  unfold bankConfirmed, shouldTriggerImmediateUpdate. intros -> Hnot.
  rewrite (lastHour_undated _ _ Hnot). reflexivity.
Qed.

Lemma trigger_dated (st : State) (feedback : FeedbackData) (now : Z) :
  Forall dated (JSMap.values (feedbackHistory st)) ->
  exists b, shouldTriggerImmediateUpdate st feedback now = Return b.
Proof.
  intros Hall. unfold shouldTriggerImmediateUpdate.
  destruct (_ && _); [eauto|].
  destruct (lastHour_dated now _ Hall) as [recent ->]. cbn. eauto.
Qed.

(** A record that passes the validation is recorded; the call returns when
    the record is bank-confirmed or every timestamp of the history is a
    [Date], and throws a [TypeError], the record being stored, otherwise. *)
Lemma submitFeedback_valid (st : State) (feedback : FeedbackData) (now : Z) :
  valid feedback ->
  exists tid rid st' r,
    fb_transactionId feedback = Some tid
    /\ reviewerId feedback = Some rid
    /\ submitFeedback st feedback now = (st', r)
    /\ feedbackHistory st' = feedbackHistory (recorded st tid rid feedback)
    /\ pendingReviews st' = pendingReviews (recorded st tid rid feedback)
    /\ reviewerWorkload st' = reviewerWorkload (recorded st tid rid feedback)
    /\ (forall u, u ∈ updateQueue st -> u ∈ updateQueue st')
    /\ (bankConfirmed feedback = true \/ Forall dated (JSMap.values (feedbackHistory st'))
        -> r = Return ())
    /\ (bankConfirmed feedback = false
        -> ~ Forall dated (JSMap.values (feedbackHistory st'))
        -> r = Throw TypeError /\ updateQueue st' = updateQueue st).
Proof.
  intros Hv. destruct (valid_truthy feedback Hv) as (tid & label & rid & Ht & Hl & Hr).
  destruct (submitFeedback_cases st feedback now)
    as [(tid' & label' & rid' & Ht' & _ & Hr' & Hrun)|[[H|[H|H]] _]]; try congruence.
  assert (tid' = tid) as -> by congruence. assert (rid' = rid) as -> by congruence.
  cbv zeta in Hrun.
  destruct (submitFeedback_maps (recorded st tid rid feedback) feedback now)
    as (Hh & Hp & Hw & Hq).
  rewrite <- Hrun in Hh, Hp, Hw, Hq.
  destruct (submitFeedback st feedback now) as [st' r] eqn:Hsub. cbn [fst] in *.
  exists tid, rid, st', r.
  split; [exact (truthy_Some _ _ Ht)|]. split; [exact (truthy_Some _ _ Hr)|].
  split; [reflexivity|]. split; [exact Hh|]. split; [exact Hp|]. split; [exact Hw|].
  split; [exact Hq|]. rewrite Hh. split.
  - intros [Hbank|Hdated].
    + rewrite (trigger_bank _ _ _ Hbank) in Hrun. congruence.
    + destruct (trigger_dated (recorded st tid rid feedback) feedback now Hdated)
        as [[|] Hb]; rewrite Hb in Hrun; congruence.
  - intros Hbank Hnot. rewrite (trigger_undated _ _ _ Hbank Hnot) in Hrun.
    injection Hrun as -> ->. split; reflexivity.
Qed.

(** A bank-confirmed record of confidence above 0.9 is queued at once, for
    the time of the call, whatever its timestamp is. *)
Lemma submitFeedback_bank (st : State) (feedback : FeedbackData) (now : Z) :
  valid feedback ->
  (fb_confidence feedback >? Fin 0.9) = true ->
  evidenceType feedback = BankConfirmation ->
  exists st',
    submitFeedback st feedback now = (st', Return ())
    /\ mkUpdate [feedback] Incremental HighPriority (Some (now + 0)%Z) ∈ updateQueue st'.
Proof.
  intros Hv Hc He. destruct (valid_truthy feedback Hv) as (tid & label & rid & Ht & Hl & Hr).
  destruct (submitFeedback_cases st feedback now)
    as [(tid' & label' & rid' & _ & _ & _ & ->)|[[H|[H|H]] _]]; try congruence.
  rewrite trigger_bank by (unfold bankConfirmed; rewrite Hc, He; reflexivity).
  eexists. split; [reflexivity|].
  apply elem_of_queueModelUpdate. right. reflexivity.
Qed.

(** A batch of bank-confirmed records goes through, whatever the
    timestamps are: no timestamp is read. *)
Lemma submitAll_bank (batch : list FeedbackData) (clock : nat -> Z) :
  forall st i,
    Forall valid batch ->
    Forall (fun feedback => bankConfirmed feedback = true) batch ->
    exists st',
      submitAll st i batch clock = (st', Return ())
      /\ (forall u, u ∈ updateQueue st -> u ∈ updateQueue st')
      /\ (forall j feedback,
            batch !! j = Some feedback ->
            mkUpdate [feedback] Incremental HighPriority (Some (clock (i + j)%nat + 0)%Z)
              ∈ updateQueue st').
Proof.
  induction batch as [|feedback rest IH]; intros st i Hall Hbank; cbn [submitAll].
  - exists st. split; [reflexivity|]. split; [auto|]. intros j f Hj. discriminate Hj.
  - inversion Hall as [|? ? Hv Hrest]; subst.
    inversion Hbank as [|? ? Hb Hbrest]; subst.
    assert ((fb_confidence feedback >? Fin 0.9) = true
            /\ evidenceType feedback = BankConfirmation) as [Hc He].
    { unfold bankConfirmed in Hb. apply andb_true_iff in Hb as [Hc He].
      split; [exact Hc|]. destruct (evidenceType feedback); try discriminate He.
      reflexivity. }
    destruct (submitFeedback_bank st feedback (clock i) Hv Hc He) as (st1 & Hrun & Hin).
    pose proof (queue_submitFeedback st feedback (clock i)) as Hmono.
    rewrite Hrun in Hmono |- *. cbn [fst] in Hmono.
    destruct (IH st1 (S i) Hrest Hbrest) as (st' & Hrest_run & Hmono' & Hhigh).
    exists st'. split; [exact Hrest_run|]. split; [auto|].
    intros [|j] f Hj.
    + injection Hj as <-. apply Hmono'. rewrite Nat.add_0_r. exact Hin.
    + replace (i + S j)%nat with (S i + j)%nat by lia. apply (Hhigh j f Hj).
Qed.

(** A batch of records with [Date]s, on a history of records with
    [Date]s, goes through as well. *)
Lemma values_set_dated (m : JSMap.t FeedbackData) (k : string) (feedback : FeedbackData) :
  Forall dated (JSMap.values m) -> dated feedback ->
  Forall dated (JSMap.values (JSMap.set m k feedback)).
Proof.
  intros Hall Hf. unfold JSMap.values in *.
  induction m as [|[k' v'] m IH]; cbn [JSMap.set map snd] in *.
  - repeat constructor. exact Hf.
  - inversion Hall as [|? ? Hv Hrest]; subst.
    destruct (decide (k' = k)); cbn [map snd]; constructor; auto.
Qed.

Lemma submitAll_dated (batch : list FeedbackData) (clock : nat -> Z) :
  forall st i,
    Forall valid batch -> Forall dated batch ->
    Forall dated (JSMap.values (feedbackHistory st)) ->
    exists st',
      submitAll st i batch clock = (st', Return ())
      /\ Forall dated (JSMap.values (feedbackHistory st'))
      /\ (forall u, u ∈ updateQueue st -> u ∈ updateQueue st').
Proof.
  induction batch as [|feedback rest IH]; intros st i Hall Hdates Hst; cbn [submitAll].
  - exists st. auto.
  - inversion Hall as [|? ? Hv Hrest]; subst.
    inversion Hdates as [|? ? Hd Hdrest]; subst.
    destruct (submitFeedback_valid st feedback (clock i) Hv)
      as (tid & rid & st1 & r & _ & _ & Hrun & Hh & _ & _ & Hq & Hret & _).
    assert (Hst1 : Forall dated (JSMap.values (feedbackHistory st1))).
    { rewrite Hh. cbn [recorded feedbackHistory]. apply values_set_dated; assumption. }
    rewrite Hrun, (Hret (or_intror Hst1)).
    destruct (IH st1 (S i) Hrest Hdrest Hst1) as (st' & Hrest_run & Hst' & Hmono).
    exists st'. split; [exact Hrest_run|]. split; [exact Hst'|]. auto.
Qed.

(** An accepted record is in the history under its id, also when the call
    ends in a [TypeError]. *)
Lemma submitFeedback_stores_result (st st' : State) (feedback : FeedbackData) (now : Z)
    (id : string) (r : result unit) :
  fb_transactionId feedback = Some id ->
  submitFeedback st feedback now = (st', r) ->
  r <> Throw InvalidFeedback ->
  JSMap.get (feedbackHistory st') id = Some feedback.
Proof.
  intros Hid Hrun Hr.
  destruct (submitFeedback_cases st feedback now)
    as [(tid & label & rid & Ht & _ & _ & Hrun')|[_ Hrun']];
    rewrite Hrun in Hrun'; [|congruence].
  apply truthy_Some in Ht. assert (tid = id) as -> by congruence.
  cbv zeta in Hrun'.
  destruct (submitFeedback_maps (recorded st id rid feedback) feedback now)
    as (Hh & _ & _ & _).
  rewrite <- Hrun' in Hh. cbn [fst] in Hh. rewrite Hh.
  cbn [recorded feedbackHistory]. apply JSMapFacts.get_set_eq.
Qed.

Lemma submitFeedback_stores (st st' : State) (feedback : FeedbackData) (now : Z)
    (id : string) :
  fb_transactionId feedback = Some id ->
  submitFeedback st feedback now = (st', Return ()) ->
  JSMap.get (feedbackHistory st') id = Some feedback.
Proof.
  intros Hid Hrun.
  apply (submitFeedback_stores_result st st' feedback now id _ Hid Hrun). discriminate.
Qed.

Lemma pending_values (st : State) (q : ActiveLearningQuery) :
  wf st -> q ∈ getPendingReviews st ->
  JSMap.has (pendingReviews st) (q_transactionId q) = true.
Proof.
  intros [_ Hkeys] Hq. unfold getPendingReviews in Hq.
  apply SortFacts.elem_of_sortBy in Hq. unfold JSMap.values in Hq.
  apply list_elem_of_fmap in Hq as ([k q'] & -> & Hin). cbn [snd].
  rewrite (Hkeys k q' Hin). apply (JSMapFacts.elem_of_has _ _ _ Hin).
Qed.

End FeedbackFacts.

(** ** C3: what [submitFeedback] rejects and what it records *)

(** C3: a record whose transaction id, label or reviewer id is absent
    (missing, or the empty string) is rejected with the invalid-input error
    and the state is left as it was; any other record is stored under its
    transaction id (in place of an earlier one), the id leaves the pending
    reviews, and the reviewer's counter goes up by one, the other entries of
    the three maps staying as they were.  After these writes the call
    returns when the record is bank-confirmed with confidence above 0.9 or
    every timestamp in the history is a [Date]; otherwise reading a
    timestamp throws a [TypeError], which undoes none of the writes. *)
Theorem C3_submitFeedback_validates_then_records
    (st : Feedback.State) (feedback : Feedback.FeedbackData) (now : Z) :
  (Feedback.absent (Feedback.fb_transactionId feedback)
   \/ Feedback.actualLabel feedback = None
   \/ Feedback.absent (Feedback.reviewerId feedback) ->
   Feedback.submitFeedback st feedback now = (st, Throw InvalidFeedback))
  /\
  (Feedback.valid feedback ->
   exists transactionId reviewer st' outcome,
     Feedback.fb_transactionId feedback = Some transactionId
     /\ Feedback.reviewerId feedback = Some reviewer
     /\ Feedback.submitFeedback st feedback now = (st', outcome)
     /\ (outcome = Return () \/ outcome = Throw TypeError)
     /\ (Feedback.bankConfirmed feedback = true
         \/ Forall Feedback.dated (JSMap.values (Feedback.feedbackHistory st'))
         -> outcome = Return ())
     /\ (Feedback.bankConfirmed feedback = false ->
         ~ Forall Feedback.dated (JSMap.values (Feedback.feedbackHistory st')) ->
         outcome = Throw TypeError)
     /\ JSMap.get (Feedback.feedbackHistory st') transactionId = Some feedback
     /\ (forall k, k <> transactionId ->
          JSMap.get (Feedback.feedbackHistory st') k
          = JSMap.get (Feedback.feedbackHistory st) k)
     /\ JSMap.has (Feedback.pendingReviews st') transactionId = false
     /\ (forall k, k <> transactionId ->
          JSMap.get (Feedback.pendingReviews st') k
          = JSMap.get (Feedback.pendingReviews st) k)
     /\ JSMap.get (Feedback.reviewerWorkload st') reviewer
        = Some (default 0%nat (JSMap.get (Feedback.reviewerWorkload st) reviewer) + 1)%nat
     /\ (forall r, r <> reviewer ->
          JSMap.get (Feedback.reviewerWorkload st') r
          = JSMap.get (Feedback.reviewerWorkload st) r)).
Proof.
  split.
  - intros Habsent.
    destruct (FeedbackFacts.submitFeedback_cases st feedback now)
      as [(tid & label & rid & Ht & Hl & Hr & _)|[_ Hrun]]; [|exact Hrun].
    exfalso. destruct Habsent as [H|[H|H]].
    + apply FeedbackFacts.truthy_absent in H. congruence.
    + congruence.
    + apply FeedbackFacts.truthy_absent in H. congruence.
  - intros Hv.
    destruct (FeedbackFacts.submitFeedback_valid st feedback now Hv)
      as (tid & rid & st' & outcome & Htid & Hrid & Hrun & Hh & Hp & Hw & _ & Hret & Hthrow).
    exists tid, rid, st', outcome.
    split; [exact Htid|]. split; [exact Hrid|]. split; [exact Hrun|].
    split.
    { destruct (Feedback.bankConfirmed feedback) eqn:Hbank.
      - left. apply Hret. left. reflexivity.
      - destruct (decide (Forall Feedback.dated
                            (JSMap.values (Feedback.feedbackHistory st')))) as [Hd|Hd].
        + left. apply Hret. right. exact Hd.
        + right. apply (Hthrow eq_refl Hd). }
    split; [exact Hret|].
    split; [intros Hbank Hd; apply (Hthrow Hbank Hd)|].
    rewrite Hh, Hp, Hw.
    cbn [Feedback.recorded Feedback.feedbackHistory Feedback.pendingReviews
         Feedback.reviewerWorkload].
    split; [apply JSMapFacts.get_set_eq|].
    split; [intros k Hk; apply JSMapFacts.get_set_ne; congruence|].
    split; [apply JSMapFacts.has_delete_eq|].
    split; [intros k Hk; apply JSMapFacts.get_delete_ne; congruence|].
    split; [apply JSMapFacts.get_set_eq|].
    intros r Hne; apply JSMapFacts.get_set_ne; congruence.
Qed.

Lemma confirmed_valid (transactionId reviewer : string) :
  transactionId <> "" -> reviewer <> "" ->
  Feedback.valid (confirmed transactionId (Some reviewer)).
Proof.
  intros Ht Hr. unfold Feedback.valid, Feedback.absent. cbn.
  repeat split; try discriminate; intros [H|H]; congruence.
Qed.

Lemma confirmed_bank (transactionId : string) (reviewer : option string) :
  Feedback.bankConfirmed (confirmed transactionId reviewer) = true.
Proof.
  unfold Feedback.bankConfirmed, confirmed. cbn.
  rewrite bool_decide_eq_true_2 by lra. reflexivity.
Qed.

(** The theorem at a record without reviewer, and at a complete one. *)
Lemma C3_submitFeedback_witness :
  Feedback.submitFeedback (Feedback.initial 0) (confirmed "txn_1" None) 5
  = (Feedback.initial 0, Throw InvalidFeedback)
  /\ exists st',
       Feedback.submitFeedback (Feedback.initial 0) (confirmed "txn_1" (Some "analyst_001")) 5
       = (st', Return ())
       /\ JSMap.get (Feedback.reviewerWorkload st') "analyst_001" = Some 1%nat.
Proof.
  split.
  - apply (proj1 (C3_submitFeedback_validates_then_records
                    (Feedback.initial 0) (confirmed "txn_1" None) 5)).
    right. right. left. reflexivity.
  - destruct (proj2 (C3_submitFeedback_validates_then_records
                       (Feedback.initial 0) (confirmed "txn_1" (Some "analyst_001")) 5)
                    (confirmed_valid "txn_1" "analyst_001"
                       ltac:(discriminate) ltac:(discriminate)))
      as (tid & rid & st' & outcome & _ & Hrid & Hrun & _ & Hret & _ & _ & _ & _ & _
          & Hload & _).
    injection Hrid as <-. exists st'. split; [|exact Hload].
    rewrite Hrun, (Hret (or_introl (confirmed_bank _ _))). reflexivity.
Defined.

(** ** C9: the updates a submission enqueues *)

Module UpdateFacts.

Import Feedback.

(** Where the claim holds.  A batch of at least five bank-confirmed
    records of confidence above 0.9 leaves, besides the high-priority
    update of every record, a medium-priority incremental update of the
    whole batch, scheduled 300000 ms after its enqueueing: no timestamp is
    read on the way. *)
Lemma batch_update_bank (st : State) (batch : list FeedbackData) (clock : nat -> Z) :
  Forall valid batch ->
  Forall (fun feedback => bankConfirmed feedback = true) batch ->
  (5 <= length batch)%nat ->
  exists st',
    submitBatchFeedback st batch clock = (st', Return ())
    /\ mkUpdate batch Incremental MediumPriority (Some (clock (length batch) + 300000)%Z)
         ∈ updateQueue st'
    /\ (forall u, u ∈ updateQueue st -> u ∈ updateQueue st')
    /\ (forall i feedback,
          batch !! i = Some feedback ->
          mkUpdate [feedback] Incremental HighPriority (Some (clock i + 0)%Z)
            ∈ updateQueue st').
Proof.
  intros Hall Hbank Hlen.
  destruct (FeedbackFacts.submitAll_bank batch clock st 0 Hall Hbank)
    as (st1 & Hrun & Hmono & Hhigh).
  unfold submitBatchFeedback. rewrite Hrun.
  apply Nat.leb_le in Hlen. rewrite Hlen.
  eexists. split; [reflexivity|]. split; [|split].
  - apply FeedbackFacts.elem_of_queueModelUpdate. right. reflexivity.
  - intros u Hu. apply FeedbackFacts.elem_of_queueModelUpdate. left. auto.
  - intros i feedback Hi.
    apply FeedbackFacts.elem_of_queueModelUpdate. left.
    apply (Hhigh i feedback Hi).
Qed.

(** It holds as well when every timestamp is a [Date], as the declared
    type of the records promises: those of the batch and those already in
    the history. *)
Lemma batch_update_dated (st : State) (batch : list FeedbackData) (clock : nat -> Z) :
  Forall valid batch -> Forall dated batch ->
  Forall dated (JSMap.values (feedbackHistory st)) ->
  (5 <= length batch)%nat ->
  exists st',
    submitBatchFeedback st batch clock = (st', Return ())
    /\ mkUpdate batch Incremental MediumPriority (Some (clock (length batch) + 300000)%Z)
         ∈ updateQueue st'
    /\ (forall u, u ∈ updateQueue st -> u ∈ updateQueue st').
Proof.
  intros Hall Hdates Hst Hlen.
  destruct (FeedbackFacts.submitAll_dated batch clock st 0 Hall Hdates Hst)
    as (st1 & Hrun & _ & Hmono).
  unfold submitBatchFeedback. rewrite Hrun.
  apply Nat.leb_le in Hlen. rewrite Hlen.
  eexists. split; [reflexivity|]. split.
  - apply FeedbackFacts.elem_of_queueModelUpdate. right. reflexivity.
  - intros u Hu. apply FeedbackFacts.elem_of_queueModelUpdate. left. auto.
Qed.

(** Where it does not.  The first record of a batch that is not
    bank-confirmed and whose timestamp is not a [Date] is stored, and the
    batch ends there in a [TypeError]: the records after it are not
    submitted and the update of the batch is not enqueued. *)
Lemma batch_stops_at_undated (st : State) (feedback : FeedbackData)
    (rest : list FeedbackData) (clock : nat -> Z) :
  valid feedback -> bankConfirmed feedback = false -> ~ dated feedback ->
  exists id st',
    fb_transactionId feedback = Some id
    /\ submitBatchFeedback st (feedback :: rest) clock = (st', Throw TypeError)
    /\ feedbackHistory st' = JSMap.set (feedbackHistory st) id feedback
    /\ updateQueue st' = updateQueue st.
Proof.
  intros Hv Hbank Hundated.
  destruct (FeedbackFacts.submitFeedback_valid st feedback (clock 0%nat) Hv)
    as (tid & rid & st' & r & Htid & _ & Hrun & Hh & _ & _ & _ & _ & Hthrow).
  assert (Hnot : ~ Forall dated (JSMap.values (feedbackHistory st'))).
  { rewrite Hh. cbn [recorded feedbackHistory]. intros Hall.
    apply Hundated. rewrite Forall_forall in Hall. apply Hall.
    unfold JSMap.values. apply list_elem_of_fmap. exists (tid, feedback).
    split; [reflexivity|]. apply JSMapFacts.elem_of_set_eq. }
  destruct (Hthrow Hbank Hnot) as [-> Hq].
  exists tid, st'. split; [exact Htid|].
  unfold submitBatchFeedback. cbn [submitAll]. rewrite Hrun.
  split; [reflexivity|]. split; [exact Hh|exact Hq].
Qed.

End UpdateFacts.

Lemma reported_valid (transactionId : string) :
  transactionId <> "" -> Feedback.valid (reported transactionId).
Proof.
  intros Ht. unfold Feedback.valid, Feedback.absent. cbn.
  repeat split; try discriminate; intros [H|H]; congruence.
Qed.

Lemma reported_plain (transactionId : string) :
  Feedback.bankConfirmed (reported transactionId) = false.
Proof.
  unfold Feedback.bankConfirmed, reported. cbn.
  rewrite bool_decide_eq_false_2 by lra. reflexivity.
Qed.

(** C9, at the batch the claim fails on: five reports from manual review,
    each with its three required fields, handed over by the route with the
    timestamps of the request body.  The first report is stored; then
    [shouldTriggerImmediateUpdate] reads its timestamp, which is not a
    [Date], and the [TypeError] ends the batch: the other four reports are
    not stored, and the update queue stays empty, without the
    medium-priority update the claim promises.  The single bank-confirmed
    report of the claim's first half is queued at once, with high
    priority, for the time of the call. *)
Theorem C9_batch_from_the_route_is_not_queued :
  let batch := map reported ["txn_1"; "txn_2"; "txn_3"; "txn_4"; "txn_5"] in
  let single := confirmed "txn_0" (Some "analyst_001") in
  Forall Feedback.valid batch
  /\ (5 <= length batch)%nat
  /\ (exists st',
        Feedback.submitBatchFeedback (Feedback.initial 0) batch (fun _ => 1000%Z)
        = (st', Throw TypeError)
        /\ JSMap.keys (Feedback.feedbackHistory st') = ["txn_1"]
        /\ Feedback.updateQueue st' = [])
  /\ (exists st',
        Feedback.submitFeedback (Feedback.initial 0) single 1000 = (st', Return ())
        /\ Feedback.updateQueue st'
           = [Feedback.mkUpdate [single] Feedback.Incremental Feedback.HighPriority
                (Some 1000%Z)]).
Proof.
  intros batch single. split; [|split; [|split]].
  - unfold batch. cbn [map]. repeat constructor; apply reported_valid; discriminate.
  - cbn. lia.
  - destruct (UpdateFacts.batch_stops_at_undated (Feedback.initial 0) (reported "txn_1")
                (map reported ["txn_2"; "txn_3"; "txn_4"; "txn_5"]) (fun _ => 1000%Z)
                (reported_valid "txn_1" ltac:(discriminate)) (reported_plain "txn_1"))
      as (id & st' & Hid & Hrun & Hh & Hq).
    { intros H. apply H. reflexivity. }
    injection Hid as <-.
    exists st'. split; [exact Hrun|]. split; [|exact Hq].
    rewrite Hh. reflexivity.
  - subst single.
    destruct (FeedbackFacts.submitFeedback_cases (Feedback.initial 0)
                (confirmed "txn_0" (Some "analyst_001")) 1000)
      as [(tid & label & rid & _ & _ & _ & Hrun)|[[H|[H|H]] _]];
      try discriminate H.
    cbv zeta in Hrun.
    rewrite (FeedbackFacts.trigger_bank _ _ _ (confirmed_bank _ _)) in Hrun.
    eexists. split; [exact Hrun|]. reflexivity.
Qed.

(** ** C2: reviewed transactions stay out of the review queue *)

(** C2: [identifyUncertainTransactions] never returns more than ten
    queries; a successful [submitFeedback] stores its record under the
    transaction id; and once a record is stored for an id, then after any
    further calls on the system that id is not pending review and is in no
    answer of [identifyUncertainTransactions]. *)
Theorem C2_reviewed_ids_stay_out
    (start : Z) (before after : list Feedback.Call) (id : string) :
  let st1 := Feedback.run (Feedback.initial start) before in
  let st2 := Feedback.run st1 after in
  (forall st predictions transactions biometrics st' queries,
      Feedback.identifyUncertainTransactions st predictions transactions biometrics
      = (st', Return queries) ->
      (length queries <= 10)%nat)
  /\ (forall st feedback now st',
        Feedback.fb_transactionId feedback = Some id ->
        Feedback.submitFeedback st feedback now = (st', Return ()) ->
        JSMap.get (Feedback.feedbackHistory st') id = Some feedback)
  /\ (JSMap.has (Feedback.feedbackHistory st1) id = true ->
      JSMap.has (Feedback.pendingReviews st2) id = false
      /\ (forall q, q ∈ Feedback.getPendingReviews st2 -> Feedback.q_transactionId q <> id)
      /\ (forall predictions transactions biometrics st3 queries,
            Feedback.identifyUncertainTransactions st2 predictions transactions biometrics
            = (st3, Return queries) ->
            (forall q, q ∈ queries -> Feedback.q_transactionId q <> id)
            /\ JSMap.has (Feedback.pendingReviews st3) id = false)).
Proof.
  intros st1 st2. split; [|split].
  - intros st predictions transactions biometrics st' queries Hident.
    apply FeedbackFacts.identify_spec in Hident as (_ & _ & _ & _ & Hqs).
    apply (Hqs queries eq_refl).
  - intros st feedback now st'. apply FeedbackFacts.submitFeedback_stores.
  - intros Hstored.
    assert (Hwf1 : Feedback.wf st1).
    { apply FeedbackFacts.wf_run, FeedbackFacts.wf_initial. }
    assert (Hwf2 : Feedback.wf st2) by apply FeedbackFacts.wf_run, Hwf1.
    assert (Hstored2 : JSMap.has (Feedback.feedbackHistory st2) id = true)
      by apply FeedbackFacts.history_run, Hstored.
    split; [apply (Feedback.wf_disjoint _ Hwf2 _ Hstored2)|]. split.
    + intros q Hq Heq. apply (FeedbackFacts.pending_values _ _ Hwf2) in Hq.
      rewrite Heq, (Feedback.wf_disjoint _ Hwf2 _ Hstored2) in Hq. discriminate.
    + intros predictions transactions biometrics st3 queries Hident.
      pose proof (FeedbackFacts.wf_identify st2 predictions transactions biometrics Hwf2)
        as Hwf3.
      rewrite Hident in Hwf3. cbn [fst] in Hwf3.
      apply FeedbackFacts.identify_spec in Hident as (Hhist & _ & _ & _ & Hqs).
      destruct (Hqs queries eq_refl) as [_ Hfresh]. split.
      * intros q Hq Heq. apply Hfresh in Hq. rewrite Heq, Hstored2 in Hq. discriminate.
      * apply (Feedback.wf_disjoint _ Hwf3). rewrite Hhist. exact Hstored2.
Qed.

(** A borderline verdict is queued for review while it has no feedback. *)
Lemma borderline_is_queued :
  exists st' q,
    Feedback.identifyUncertainTransactions (Feedback.initial 0)
      [borderline] [largePurchase] [calm] = (st', Return [q])
    /\ Feedback.q_transactionId q = "txn_1"
    /\ JSMap.has (Feedback.pendingReviews st') "txn_1" = true.
Proof.
  eexists. eexists. split; [|split].
  - unfold Feedback.identifyUncertainTransactions, Feedback.initial.
    cbn [Feedback.scan]. cbn [Feedback.feedbackHistory JSMap.has JSMap.get JSMap.empty
                              Api.res_transactionId borderline lookup list_lookup].
    unfold Feedback.calculateUncertaintyScore, Feedback.calculateDiversityScore,
      Feedback.calculateImportanceScore, largePurchase.
    js_eval. reflexivity.
  - reflexivity.
  - cbn. js_eval. reflexivity.
Qed.

(** Its feedback, once submitted, is in the history. *)
Lemma confirmed_is_stored :
  JSMap.has
    (Feedback.feedbackHistory
       (Feedback.run (Feedback.initial 0)
          [Feedback.SubmitFeedback (confirmed "txn_1" (Some "analyst_001")) 5]))
    "txn_1" = true.
Proof.
  unfold Feedback.run. cbn [fold_left Feedback.step].
  destruct (FeedbackFacts.submitFeedback_valid (Feedback.initial 0)
              (confirmed "txn_1" (Some "analyst_001")) 5
              (confirmed_valid "txn_1" "analyst_001" ltac:(discriminate) ltac:(discriminate)))
    as (tid & rid & st1 & r & _ & _ & Hrun & _ & _ & _ & _ & Hret & _).
  rewrite (Hret (or_introl (confirmed_bank _ _))) in Hrun.
  rewrite Hrun. cbn [fst]. unfold JSMap.has.
  rewrite (FeedbackFacts.submitFeedback_stores _ _
             (confirmed "txn_1" (Some "analyst_001")) _ "txn_1" eq_refl Hrun).
  reflexivity.
Qed.

(** The theorem at that verdict, asked about again after its feedback. *)
Lemma C2_reviewed_ids_witness :
  let reviewed :=
    Feedback.run (Feedback.initial 0)
      [Feedback.SubmitFeedback (confirmed "txn_1" (Some "analyst_001")) 5] in
  JSMap.has (Feedback.feedbackHistory reviewed) "txn_1" = true
  /\ forall st3 queries,
       Feedback.identifyUncertainTransactions reviewed [borderline] [largePurchase] [calm]
       = (st3, Return queries) ->
       forall q, q ∈ queries -> Feedback.q_transactionId q <> "txn_1".
Proof.
  intros reviewed. split; [exact confirmed_is_stored|].
  intros st3 queries Hident.
  exact (proj1 (proj2 (proj2 (proj2 (proj2
           (C2_reviewed_ids_stay_out 0
              [Feedback.SubmitFeedback (confirmed "txn_1" (Some "analyst_001")) 5] []
              "txn_1")) confirmed_is_stored)) _ _ _ _ _ Hident)).
Defined.

(** ** FeedbackSystem: the order of the update queue *)

Module QueueFacts.

Import Feedback.

Lemma insertBy_order (u : ModelUpdateRequest) (queue : list ModelUpdateRequest) :
  inPriorityOrder queue ->
  inPriorityOrder
    (insertBy (fun a b => (priorityOrder (priority b) - priorityOrder (priority a) >? 0)%Z)
              u queue).
Proof.
  unfold inPriorityOrder. induction 1 as [|y queue Hs IH Hy]; cbn [insertBy].
  - repeat constructor.
  - destruct (priorityOrder (priority y) - priorityOrder (priority u) >? 0)%Z eqn:Hafter.
    + apply Z.gtb_lt in Hafter. constructor; [exact IH|].
      rewrite Forall_forall. intros v Hv.
      rewrite SortFacts.insertBy_perm in Hv.
      apply elem_of_cons in Hv as [->|Hv]; [lia|].
      rewrite Forall_forall in Hy. apply Hy. exact Hv.
    + rewrite Z.gtb_ltb in Hafter. apply Z.ltb_ge in Hafter.
      constructor; [constructor; assumption|].
      constructor; [lia|].
      eapply Forall_impl; [exact Hy|]. cbn. intros v Hv. lia.
Qed.

Lemma sortBy_order (queue : list ModelUpdateRequest) :
  inPriorityOrder
    (sortBy (fun a b => (priorityOrder (priority b) - priorityOrder (priority a) >? 0)%Z)
            queue).
Proof.
  unfold sortBy. induction queue as [|u queue IH]; cbn [foldr].
  - constructor.
  - apply insertBy_order, IH.
Qed.

Lemma filter_order (P : ModelUpdateRequest -> Prop) `{!forall u, Decision (P u)}
    (queue : list ModelUpdateRequest) :
  inPriorityOrder queue -> inPriorityOrder (filter P queue).
Proof.
  unfold inPriorityOrder. induction 1 as [|y queue Hs IH Hy]; [constructor|].
  rewrite filter_cons. destruct (decide (P y)); [|exact IH].
  constructor; [exact IH|]. rewrite Forall_forall in Hy |- *.
  intros v Hv. apply list_elem_of_filter in Hv as [_ Hv]. auto.
Qed.

Lemma order_queueModelUpdate (st : State) batch type p now :
  inPriorityOrder (updateQueue (queueModelUpdate st batch type p now)).
Proof. apply sortBy_order. Qed.

Lemma order_submitFeedback (st : State) (feedback : FeedbackData) (now : Z) :
  inPriorityOrder (updateQueue st) ->
  inPriorityOrder (updateQueue (submitFeedback st feedback now).1).
Proof.
  intros Hq.
  destruct (FeedbackFacts.submitFeedback_cases st feedback now)
    as [(tid & label & rid & _ & _ & _ & Hrun)|[_ Hrun]]; rewrite Hrun; [|exact Hq].
  cbv zeta.
  destruct (shouldTriggerImmediateUpdate _ _ _) as [[|]|e]; cbn [fst];
    [apply order_queueModelUpdate|exact Hq|exact Hq].
Qed.

Lemma order_submitAll (batch : list FeedbackData) (clock : nat -> Z) :
  forall st i,
    inPriorityOrder (updateQueue st) ->
    inPriorityOrder (updateQueue (submitAll st i batch clock).1).
Proof.
  induction batch as [|feedback rest IH]; intros st i Hq; cbn [submitAll]; [exact Hq|].
  pose proof (order_submitFeedback st feedback (clock i) Hq) as Hq'.
  destruct (submitFeedback st feedback (clock i)) as [st' [[]|e]]; cbn [fst] in Hq'.
  - apply IH. exact Hq'.
  - exact Hq'.
Qed.

Lemma order_step (st : State) (c : Call) :
  inPriorityOrder (updateQueue st) -> inPriorityOrder (updateQueue (step st c)).
Proof.
  intros Hq. destruct c; cbn [step].
  - apply order_submitFeedback. exact Hq.
  - unfold submitBatchFeedback.
    pose proof (order_submitAll batch clock st 0 Hq) as Hq'.
    destruct (submitAll st 0 batch clock) as [st' [[]|e]]; cbn [fst] in Hq' |- *;
      [|exact Hq'].
    destruct (5 <=? length batch)%nat; cbn [fst];
      [apply order_queueModelUpdate|exact Hq'].
  - destruct (identifyUncertainTransactions st predictions transactions biometrics)
      as [st' r] eqn:Hrun.
    apply FeedbackFacts.identify_spec in Hrun as (_ & H2 & _). cbn [fst].
    rewrite H2. exact Hq.
  - cbn [processUpdateQueue updateQueue]. apply filter_order. exact Hq.
  - exact Hq.
Qed.

End QueueFacts.

(** X4: whatever calls a feedback system has served, its update queue is in
    priority order: no update waits behind one of lower priority. *)
Theorem X4_update_queue_in_priority_order (now : Z) (calls : list Feedback.Call) :
  Feedback.inPriorityOrder
    (Feedback.updateQueue (Feedback.run (Feedback.initial now) calls)).
Proof.
  assert (forall st, Feedback.inPriorityOrder (Feedback.updateQueue st) ->
                     Feedback.inPriorityOrder
                       (Feedback.updateQueue (Feedback.run st calls))) as Hrun.
  { unfold Feedback.run. induction calls as [|c calls IH]; intros st Hq; cbn [fold_left].
    - exact Hq.
    - apply IH, QueueFacts.order_step, Hq. }
  apply Hrun. constructor.
Qed.

(** ** BiometricsProcessor: where NaN comes from *)

Module NaNFacts.

Import Biometrics WellFormed.

Local Open Scope num_scope.

Lemma finite_list (l : list num) : Forall JS.finite l -> exists rs, l = Fin <$> rs.
Proof.
  induction 1 as [|a l Ha _ [rs ->]].
  - exists []. reflexivity.
  - destruct (JSFacts.finite_inv a Ha) as [x ->]. exists (x :: rs). reflexivity.
Qed.

Lemma finite_get (l : list num) (i : nat) :
  Forall JS.finite l -> (i < length l)%nat -> JS.finite (JS.get l i).
Proof.
  intros Hall Hi. unfold JS.get.
  destruct (lookup_lt_is_Some_2 l i Hi) as [a Ha]. rewrite Ha. cbn.
  rewrite Forall_forall in Hall. apply Hall.
  apply (list_elem_of_lookup_2 _ _ _ Ha).
Qed.

Lemma finite_mean (l : list num) : Forall JS.finite l -> l <> [] -> JS.finite (mean l).
Proof.
  intros Hall Hne. unfold mean. apply JSFacts.finite_div.
  - apply JSFacts.finite_sum, Hall.
  - exact I.
  - apply JSFacts.of_nat_nonzero. destruct l; [contradiction|discriminate].
Qed.

Lemma finite_deviation (observed baseline : num) :
  JS.finite observed -> divisor baseline -> JS.finite (deviation observed baseline).
Proof.
  intros Ho [Hb Hz]. unfold deviation. apply JSFacts.finite_div; [|exact Hb|exact Hz].
  apply JSFacts.finite_abs, JSFacts.finite_sub; assumption.
Qed.

Lemma finite_ema (alpha old sample : num) :
  JS.finite alpha -> JS.finite old -> JS.finite sample -> JS.finite (ema alpha old sample).
Proof.
  intros Ha Ho Hs. unfold ema.
  apply JSFacts.finite_add; apply JSFacts.finite_mul; try assumption.
  apply JSFacts.finite_sub; [exact I|exact Ha].
Qed.

Lemma finite_variance (values : list num) :
  Forall JS.finite values -> values <> [] -> JS.finite (calculateVariance values).
Proof.
  intros Hall Hne. unfold calculateVariance.
  pose proof (finite_mean values Hall Hne) as Hmean. unfold mean in Hmean.
  apply JSFacts.finite_div.
  - apply JSFacts.finite_sum. apply Forall_map.
    eapply Forall_impl; [exact Hall|]. intros v Hv. cbn.
    unfold JS.sq. apply JSFacts.finite_mul; apply JSFacts.finite_sub; assumption.
  - exact I.
  - apply JSFacts.of_nat_nonzero. destruct values; [contradiction|discriminate].
Qed.

Lemma finite_vectorDeviation (current baseline : list num) :
  Forall JS.finite current -> Forall JS.finite baseline -> current <> [] ->
  JS.finite (calculateVectorDeviation current baseline).
Proof.
  intros Hc Hb Hne.
  destruct (decide (length current = length baseline)) as [Hlen|Hlen].
  - destruct (finite_list _ Hc) as [cs ->]. destruct (finite_list _ Hb) as [bs ->].
    rewrite !length_fmap in Hlen.
    rewrite BiometricsFacts.calculateVectorDeviation_rms; [exact I|exact Hlen|].
    destruct cs; [contradiction|discriminate].
  - rewrite BiometricsFacts.calculateVectorDeviation_mismatch by exact Hlen. exact I.
Qed.

(** An empty array: its mean is 0/0. *)
Lemma mean_nil : mean [] = NaN.
Proof. exact JSFacts.sum_nil_div. Qed.

Lemma ema_nan (alpha old : num) : ema alpha old NaN = NaN.
Proof. unfold ema. rewrite JSFacts.mul_nan_r. apply JSFacts.add_nan_r. Qed.

Lemma deviation_nan (baseline : num) : deviation NaN baseline = NaN.
Proof. destruct baseline; reflexivity. Qed.


(** From here on the aggregates may be infinite. *)
Lemma defined_finite (a : num) : JS.finite a -> defined a.
Proof. destruct a; cbn; intros H; try contradiction; discriminate. Qed.

Lemma defined_deviation (observed baseline : num) :
  defined observed -> divisor baseline -> defined (deviation observed baseline).
Proof.
  intros Ho [Hb Hz]. destruct (JSFacts.finite_inv baseline Hb) as [b ->].
  assert (b <> 0%R) as Hb0 by (intros ->; apply Hz; reflexivity).
  unfold deviation, defined.
  destruct observed as [o| | |]; cbn; try (exfalso; apply Ho; reflexivity);
    repeat case_decide; try discriminate; try contradiction.
Qed.

Lemma defined_ema (old sample : num) :
  JS.finite old -> defined sample -> defined (ema (Fin 0.1) old sample).
Proof.
  intros Ho Hs. destruct (JSFacts.finite_inv old Ho) as [o ->].
  unfold ema, defined.
  destruct sample as [x| | |]; cbn; try (exfalso; apply Hs; reflexivity);
    unfold JS.sgn; repeat case_decide; try discriminate; try lra.
Qed.

Lemma defined_orientation (o p : num) :
  defined o -> JS.finite p -> defined (JS.abs (o - p) / Fin 360).
Proof.
  intros Ho Hp. destruct (JSFacts.finite_inv p Hp) as [y ->]. unfold defined.
  destruct o as [x| | |]; cbn; try (exfalso; apply Ho; reflexivity);
    repeat case_decide; try discriminate; try lra.
Qed.

Lemma defined_get (l : list num) (i : nat) :
  Forall defined l -> (i < length l)%nat -> defined (JS.get l i).
Proof.
  intros Hall Hi. unfold JS.get.
  destruct (lookup_lt_is_Some_2 l i Hi) as [a Ha]. rewrite Ha. cbn.
  rewrite Forall_forall in Hall. apply Hall.
  apply (list_elem_of_lookup_2 _ _ _ Ha).
Qed.

Lemma squares_step (acc val b : num) :
  squares acc -> defined val -> JS.finite b ->
  squares (acc + (val - b) * (val - b)).
Proof.
  intros Hacc Hval Hb. destruct (JSFacts.finite_inv b Hb) as [y ->].
  destruct acc as [a| | |]; try contradiction;
    destruct val as [v| | |]; cbn; try exact I; try (exfalso; apply Hval; reflexivity).
  cbn in Hacc. pose proof (Rle_0_sqr (v + - y)) as Hsq. unfold Rsqr in Hsq. lra.
Qed.

Lemma squares_fold (baseline : list num) :
  Forall JS.finite baseline ->
  forall (current : list num) (start : nat) (acc : num),
    Forall defined current -> (start + length current <= length baseline)%nat ->
    squares acc ->
    squares (fold_left (fun sum '(idx, val) =>
                          let diff := val - JS.get baseline idx in
                          sum + diff * diff)
                       (zip (seq start (length current)) current) acc).
Proof.
  intros Hb. induction current as [|c current IH]; intros start acc Hc Hlen Hacc.
  - exact Hacc.
  - inversion Hc as [|? ? Hc1 Hc2]; subst. cbn [length] in Hlen.
    cbn [length seq zip zip_with fold_left].
    apply (IH (S start)); [exact Hc2|lia|].
    apply squares_step; [exact Hacc|exact Hc1|].
    apply finite_get; [exact Hb|lia].
Qed.

Lemma defined_vectorDeviation (current baseline : list num) :
  Forall defined current -> Forall JS.finite baseline -> current <> [] ->
  defined (calculateVectorDeviation current baseline).
Proof.
  intros Hc Hb Hne. unfold calculateVectorDeviation.
  destruct (length current =? length baseline)%nat eqn:Hlen; cbn [negb]; [|discriminate].
  apply Nat.eqb_eq in Hlen.
  pose proof (squares_fold baseline Hb current 0 (Fin 0) Hc ltac:(lia) ltac:(cbn; lra))
    as Hsum.
  destruct (fold_left _ _ _) as [r| | |]; try contradiction; cbn in Hsum.
  - unfold JS.of_nat. cbn [JS.div].
    assert (0 < INR (length current))%R as Hn.
    { apply lt_0_INR. destruct current; [contradiction|cbn; lia]. }
    rewrite decide_False by lra. cbn [JS.sqrt].
    assert (0 <= r / INR (length current))%R as Hq.
    { apply Rmult_le_pos; [exact Hsum|]. left. apply Rinv_0_lt_compat. exact Hn. }
    rewrite decide_False by lra. discriminate.
  - unfold JS.of_nat. cbn [JS.div].
    pose proof (pos_INR (length current)).
    rewrite decide_False by lra. discriminate.
Qed.

(** Why the baselines must not be zero, and why the sample must not hold
    both infinities. *)
Lemma deviation_zero_baseline : deviation (Fin 0) (Fin 0) = NaN.
Proof. js_eval. unfold JS.sgn. rewrite !decide_False by lra. reflexivity. Qed.

Lemma mean_opposite_infinities : mean [PInf; NInf] = NaN.
Proof. unfold mean, JS.sum. cbn. reflexivity. Qed.

End NaNFacts.

Module ProfileFacts.

Import Biometrics WellFormed.

Local Open Scope num_scope.

(** The baseline drawn for a new user can be divided by. *)
Lemma generateBaselineProfile_sound (userId : string) (rnd : nat -> R) (now : Date) :
  (forall i, (0 <= rnd i < 1)%R) ->
  soundProfile (generateBaselineProfile userId rnd now).
Proof.
  intros Hrnd. unfold soundProfile, divisor, generateBaselineProfile, draw.
  cbn -[Rplus Rmult Rminus].
  pose proof (Hrnd 0%nat). pose proof (Hrnd 1%nat). pose proof (Hrnd 14%nat).
  pose proof (Hrnd 20%nat). pose proof (Hrnd 21%nat). pose proof (Hrnd 28%nat).
  repeat match goal with
         | |- _ /\ _ => split
         | |- True => exact I
         | |- Fin _ <> Fin _ => let H := fresh in intros H; injection H as H; lra
         | |- Forall _ _ => repeat constructor
         | |- (_ <= _)%nat => lia
         end.
Qed.

End ProfileFacts.

(** ** C10: empty arrays and NaN *)

(** C10, refuted as stated: the five arrays are not empty, yet the update
    reads the third accelerometer component, which is not there, and
    stores NaN as the third component of the accelerometer baseline. *)
Lemma C10_short_accelerometer_stores_NaN :
  exists k mm st' anomalies post,
    keystrokeDynamics twoAxes = Some k
    /\ mouseMovements twoAxes = Some mm
    /\ WellFormed.nonEmpty k mm
    /\ Biometrics.processBiometricData fresh twoAxes halves = (st', Return anomalies)
    /\ Biometrics.userProfiles st' !! "user_001" = Some post
    /\ JS.get (Biometrics.accelerometerBaseline (Biometrics.deviceProfile post)) 2 = NaN.
Proof.
  destruct (ProfilerFacts.process_present fresh twoAxes halves _ _ _
              eq_refl eq_refl eq_refl) as (st' & anomalies & Hrun).
  destruct (ProfilerFacts.process_return _ _ _ _ _ Hrun)
    as (k & mm & ds & Hk & Hm & Hd & _ & Hpost).
  injection Hk as <-. injection Hm as <-. injection Hd as <-.
  do 2 eexists. exists st', anomalies. eexists.
  split; [reflexivity|]. split; [reflexivity|]. split.
  { repeat split; discriminate. }
  split; [exact Hrun|]. split; [exact Hpost|].
  cbn [Biometrics.updateUserProfile Biometrics.deviceProfile
       Biometrics.accelerometerBaseline].
  rewrite (proj1 (ProfilerFacts.baselines_after_loop _ _ _ _ 2 ltac:(lia))).
  apply NaNFacts.ema_nan.
Qed.

(** C10, amended: a sample of finite numbers whose five divided-by arrays
    are not empty and whose accelerometer and gyroscope have three
    readings, processed against a profile of finite baselines with
    non-zero divisors, gives session aggregates, variances, deviations and
    updated profile fields none of which is NaN.  The second part says the
    same of everything computed from the five means, whatever numbers the
    means are, infinite ones included.  The non-emptiness is needed: an
    empty [dwellTimes], [flightTimes], [velocity] or [acceleration] array
    makes its mean NaN, and that NaN is stored in the profile; an empty
    [clickPatterns] array makes the click mean and the click deviation
    NaN, which are not stored. *)
Theorem C10_defined_unless_an_array_is_empty
    (st st' : Biometrics.State) (data : BiometricData) (env : Biometrics.Env)
    (anomalies : list Biometrics.BiometricAnomaly)
    (k : KeystrokeDynamics) (mm : MouseMovements) (ds : DeviceSensors) :
  Biometrics.processBiometricData st data env = (st', Return anomalies) ->
  keystrokeDynamics data = Some k ->
  mouseMovements data = Some mm ->
  deviceSensors data = Some ds ->
  let pre := Biometrics.profileFor st data env in
  let km := Biometrics.keystrokeMetrics k (Biometrics.keystrokeProfile pre) in
  let mmx := Biometrics.mouseMetrics mm (Biometrics.mouseProfile pre) in
  let dm := Biometrics.deviceMetrics ds (Biometrics.deviceProfile pre) in
  exists post,
    Biometrics.userProfiles st' !! bio_userId data = Some post
    /\ (WellFormed.nonEmpty k mm -> WellFormed.finiteSample k mm ds ->
        WellFormed.threeAxes ds -> WellFormed.soundProfile pre ->
        WellFormed.definedAggregates km mmx
        /\ WellFormed.defined (Biometrics.calculateVariance (velocity mm))
        /\ WellFormed.defined (Biometrics.calculateVariance (acceleration mm))
        /\ WellFormed.definedDeviations km mmx dm
        /\ WellFormed.definedUpdate post)
    /\ (WellFormed.definedAggregates km mmx -> WellFormed.definedReadings k ds ->
        WellFormed.threeAxes ds -> WellFormed.soundProfile pre ->
        WellFormed.definedDeviations km mmx dm
        /\ WellFormed.definedUpdate post)
    /\ (dwellTimes k = [] ->
        Biometrics.k_avgDwellTime km = NaN
        /\ Biometrics.avgDwellTime (Biometrics.keystrokeProfile post) = NaN)
    /\ (flightTimes k = [] ->
        Biometrics.k_avgFlightTime km = NaN
        /\ Biometrics.avgFlightTime (Biometrics.keystrokeProfile post) = NaN)
    /\ (velocity mm = [] ->
        Biometrics.m_avgVelocity mmx = NaN
        /\ Biometrics.avgVelocity (Biometrics.mouseProfile post) = NaN)
    /\ (acceleration mm = [] ->
        Biometrics.m_avgAcceleration mmx = NaN
        /\ Biometrics.avgAcceleration (Biometrics.mouseProfile post) = NaN)
    /\ (clickPatterns mm = [] ->
        Biometrics.m_avgClickPattern mmx = NaN
        /\ Biometrics.clickDeviation mmx = NaN).
Proof.
  intros Hrun Hk Hm Hd pre km mmx dm.
  destruct (ProfilerFacts.process_return _ _ _ _ _ Hrun)
    as (k' & mm' & ds' & Hk' & Hm' & Hd' & _ & Hpost).
  assert (k' = k) as -> by congruence. assert (mm' = mm) as -> by congruence.
  assert (ds' = ds) as -> by congruence.
  eexists. split; [exact Hpost|]. fold pre.
  assert (Hsecond :
    WellFormed.definedAggregates km mmx -> WellFormed.definedReadings k ds ->
    WellFormed.threeAxes ds -> WellFormed.soundProfile pre ->
    WellFormed.definedDeviations km mmx dm
    /\ WellFormed.definedUpdate (Biometrics.updateUserProfile k mm ds
                                   (Biometrics.updatedAt env) pre)).
  { intros (Hdwell & Hflight & Hvel & Hacc & Hclick) (Hts & Hor & Hfa & Hfg) (Ha & Hg)
           (Hp1 & Hp2 & Hp3 & Hp4 & Hp5 & Hp6 & Hp7 & Hp8 & Hp9 & Hp10 & Hp11 & Hp12).
    unfold km, Biometrics.keystrokeMetrics in Hdwell, Hflight.
    unfold mmx, Biometrics.mouseMetrics in Hvel, Hacc, Hclick.
    cbn [Biometrics.k_avgDwellTime Biometrics.k_avgFlightTime Biometrics.m_avgVelocity
         Biometrics.m_avgAcceleration Biometrics.m_avgClickPattern]
      in Hdwell, Hflight, Hvel, Hacc, Hclick.
    split.
    - unfold WellFormed.definedDeviations, km, mmx, dm, Biometrics.keystrokeMetrics,
        Biometrics.mouseMetrics, Biometrics.deviceMetrics.
      cbn [Biometrics.dwellTimeDeviation Biometrics.flightTimeDeviation
           Biometrics.typingSpeedDeviation Biometrics.velocityDeviation
           Biometrics.accelerationDeviation Biometrics.clickDeviation
           Biometrics.accelDeviation Biometrics.gyroDeviation
           Biometrics.orientationDeviation].
      split; [apply NaNFacts.defined_deviation; assumption|].
      split; [apply NaNFacts.defined_deviation; assumption|].
      split; [apply NaNFacts.defined_deviation; assumption|].
      split; [apply NaNFacts.defined_deviation; assumption|].
      split; [apply NaNFacts.defined_deviation; assumption|].
      split; [apply NaNFacts.defined_deviation; assumption|].
      split; [|split].
      + apply NaNFacts.defined_vectorDeviation; try assumption.
        intros E. rewrite E in Ha. cbn in Ha. lia.
      + apply NaNFacts.defined_vectorDeviation; try assumption.
        intros E. rewrite E in Hg. cbn in Hg. lia.
      + apply NaNFacts.defined_orientation; assumption.
    - unfold WellFormed.definedUpdate, Biometrics.updateUserProfile.
      cbn [Biometrics.keystrokeProfile Biometrics.mouseProfile Biometrics.deviceProfile
           Biometrics.avgDwellTime Biometrics.avgFlightTime
           Biometrics.preferredTypingSpeed Biometrics.avgVelocity
           Biometrics.avgAcceleration Biometrics.accelerometerBaseline
           Biometrics.gyroscopeBaseline Biometrics.confidence].
      split; [apply NaNFacts.defined_ema; [apply Hp1|assumption]|].
      split; [apply NaNFacts.defined_ema; [apply Hp2|assumption]|].
      split; [apply NaNFacts.defined_ema; [apply Hp3|assumption]|].
      split; [apply NaNFacts.defined_ema; [apply Hp4|assumption]|].
      split; [apply NaNFacts.defined_ema; [apply Hp5|assumption]|].
      split.
      + intros i Hi.
        destruct (ProfilerFacts.baselines_after_loop (Fin 0.1) ds
                    (Biometrics.accelerometerBaseline (Biometrics.deviceProfile pre))
                    (Biometrics.gyroscopeBaseline (Biometrics.deviceProfile pre)) i Hi)
          as [-> ->].
        split; apply NaNFacts.defined_ema;
          first [apply NaNFacts.finite_get; [assumption|lia]
                | apply NaNFacts.defined_get; [assumption|lia]].
      + apply NaNFacts.defined_finite, JSFacts.finite_min; [exact I|].
        apply JSFacts.finite_add; [assumption|exact I]. }
  split; [|split; [exact Hsecond|]].
  - intros (Hn1 & Hn2 & Hn3 & Hn4 & Hn5)
           (Hf1 & Hf2 & Hf3 & Hf4 & Hf5 & Hf6 & Hf7 & Hf8 & Hf9) Haxes Hsound.
    assert (Hagg : WellFormed.definedAggregates km mmx).
    { unfold WellFormed.definedAggregates, km, mmx, Biometrics.keystrokeMetrics,
        Biometrics.mouseMetrics.
      cbn [Biometrics.k_avgDwellTime Biometrics.k_avgFlightTime Biometrics.m_avgVelocity
           Biometrics.m_avgAcceleration Biometrics.m_avgClickPattern].
      repeat split; apply NaNFacts.defined_finite, NaNFacts.finite_mean; assumption. }
    split; [exact Hagg|].
    split; [apply NaNFacts.defined_finite, NaNFacts.finite_variance; assumption|].
    split; [apply NaNFacts.defined_finite, NaNFacts.finite_variance; assumption|].
    apply Hsecond; try assumption.
    repeat split; try (apply NaNFacts.defined_finite; assumption);
      (eapply Forall_impl; [eassumption|apply NaNFacts.defined_finite]).
  - split; [|split; [|split; [|split]]].
    + intros E. unfold km, Biometrics.keystrokeMetrics.
      cbn [Biometrics.k_avgDwellTime Biometrics.updateUserProfile
           Biometrics.keystrokeProfile Biometrics.avgDwellTime].
      rewrite E, NaNFacts.mean_nil. split; [reflexivity|apply NaNFacts.ema_nan].
    + intros E. unfold km, Biometrics.keystrokeMetrics.
      cbn [Biometrics.k_avgFlightTime Biometrics.updateUserProfile
           Biometrics.keystrokeProfile Biometrics.avgFlightTime].
      rewrite E, NaNFacts.mean_nil. split; [reflexivity|apply NaNFacts.ema_nan].
    + intros E. unfold mmx, Biometrics.mouseMetrics.
      cbn [Biometrics.m_avgVelocity Biometrics.updateUserProfile
           Biometrics.mouseProfile Biometrics.avgVelocity].
      rewrite E, NaNFacts.mean_nil. split; [reflexivity|apply NaNFacts.ema_nan].
    + intros E. unfold mmx, Biometrics.mouseMetrics.
      cbn [Biometrics.m_avgAcceleration Biometrics.updateUserProfile
           Biometrics.mouseProfile Biometrics.avgAcceleration].
      rewrite E, NaNFacts.mean_nil. split; [reflexivity|apply NaNFacts.ema_nan].
    + intros E. unfold mmx, Biometrics.mouseMetrics.
      cbn [Biometrics.m_avgClickPattern Biometrics.clickDeviation].
      rewrite E, NaNFacts.mean_nil. split; [reflexivity|apply NaNFacts.deviation_nan].
Qed.

(** The theorem at the calm sample of [user_001]. *)
Lemma C10_defined_witness :
  exists st' anomalies post,
    Biometrics.processBiometricData fresh calm halves = (st', Return anomalies)
    /\ Biometrics.userProfiles st' !! "user_001" = Some post
    /\ WellFormed.definedUpdate post.
Proof.
  destruct (ProfilerFacts.process_present fresh calm halves _ _ _
              eq_refl eq_refl eq_refl) as (st' & anomalies & Hrun).
  destruct (C10_defined_unless_an_array_is_empty fresh st' calm halves anomalies
              _ _ _ Hrun eq_refl eq_refl eq_refl)
    as (post & Hpost & Hdefined & _).
  exists st', anomalies, post. split; [exact Hrun|]. split; [exact Hpost|].
  apply Hdefined.
  - repeat split; discriminate.
  - repeat split; repeat constructor.
  - split; cbn; lia.
  - rewrite (ProfilerFacts.profileFor_fresh calm halves eq_refl).
    apply ProfileFacts.generateBaselineProfile_sound. intros i. cbn. lra.
Defined.
